(** * webfetch-proxy: the fetch proxy service and its client plugin

    A shallow embedding of [webfetch_proxy.py] (class [ShadowWebfetchProxy]
    and the FastAPI endpoints that dispatch to it, the housekeeping and
    listing endpoints included), of the recorder of its archived version,
    and of [opencode_plugin.py] (the domain filter and the fetch path of
    the client plugin).

    Conventions.
    - Python [str] and [bytes] are [string] (UTF-8 byte sequences), so
      [len(content.encode("utf-8"))] is [String.length].
    - [time.time()] floats are exact rationals ([Q], seconds).
    - A coroutine is a computation in the monad [M]: it threads the
      [World] (Redis database, files, log, outbound requests) and either
      returns a value or raises an exception.
    - Everything the process does not control (clock, network peer, Redis
      and file-system faults, [random.choice]) is read from the oracle
      [Env] carried by the world, indexed by the number of interactions
      made so far. *)

From Stdlib Require Import ZArith QArith List String Ascii Bool Lia.
From stdpp Require Import base option list gmap strings pretty sorting.

Local Open Scope string_scope.
Local Open Scope Z_scope.

(** ** Python values *)

(** Exceptions deriving from [Exception].  [asyncio.TimeoutError] is kept
    apart because [fetch_url] has a handler of its own for it. *)
Inductive exn : Type :=
  | TimeoutError (msg : string)
  | Exception (msg : string).

(** [str(e)] *)
Definition str_exn (e : exn) : string :=
  match e with
  | TimeoutError msg => msg
  | Exception msg => msg
  end.

(** [needle in hay] on strings: [needle] occurs as a contiguous substring. *)
Fixpoint str_in (needle hay : string) : bool :=
  String.prefix needle hay
  || match hay with
     | EmptyString => false
     | String _ rest => str_in needle rest
     end.

(** [s[:n]] *)
Definition str_take (n : nat) (s : string) : string := String.substring 0 n s.

(** [s[-n:]] for [n <= len(s)] *)
Definition str_last (n : nat) (s : string) : string :=
  String.substring (String.length s - n) n s.

(** Truthiness of a [str]. *)
Definition truthy (s : string) : bool := negb (String.eqb s "").

(** Truthiness of an [Optional[str]]. *)
Definition truthy_opt (o : option string) : bool :=
  match o with
  | Some s => truthy s
  | None => false
  end.

(** A [Dict[str, str]], in insertion order. *)
Definition dict : Type := list (string * string).

(** [k in d] *)
Definition dict_mem (k : string) (d : dict) : bool :=
  existsb (fun kv => String.eqb (fst kv) k) d.

(** [d[k] = v]: overwrite in place, or append a new key. *)
Fixpoint dict_set (k v : string) (d : dict) : dict :=
  match d with
  | [] => [(k, v)]
  | (k', v') :: rest =>
      if String.eqb k' k then (k, v) :: rest else (k', v') :: dict_set k v rest
  end.

(** [o or {}] for an [Optional[Dict]]. *)
Definition dict_or_empty (o : option dict) : dict :=
  match o with
  | Some d => d
  | None => []
  end.

(** [int(x)] of a float with [x = q]: truncation toward zero. *)
Definition int_of_Q (q : Q) : Z := Z.quot (Qnum q) (Zpos (Qden q)).

(** ** Wall-clock time *)

(** The fields of [datetime.now()] that the program formats. *)
Record DateTime : Type := mkDateTime {
  dt_year : Z;
  dt_month : Z;
  dt_day : Z;
  dt_hour : Z;
  dt_minute : Z;
  dt_second : Z
}.

Definition digit (n : Z) : ascii := ascii_of_nat (48 + Z.to_nat (n mod 10)).

(** [%m], [%d], [%H], [%M]: two decimal digits. *)
Definition digits2 (n : Z) : string :=
  String (digit (n / 10)) (String (digit n) EmptyString).

(** [%Y] for a four-digit year. *)
Definition digits4 (n : Z) : string := digits2 (n / 100) ++ digits2 n.

(** [now.strftime('%Y%m%d%H')] *)
Definition strftime_hour (now : DateTime) : string :=
  digits4 (dt_year now) ++ digits2 (dt_month now) ++ digits2 (dt_day now)
  ++ digits2 (dt_hour now).

(** [now.strftime('%Y%m%d%H%M')] *)
Definition strftime_minute (now : DateTime) : string :=
  strftime_hour now ++ digits2 (dt_minute now).

(** Two instants of the same calendar minute. *)
Definition same_minute (a b : DateTime) : Prop :=
  dt_year a = dt_year b /\ dt_month a = dt_month b /\ dt_day a = dt_day b
  /\ dt_hour a = dt_hour b /\ dt_minute a = dt_minute b.

(** ** Request and response records *)

(** [class FetchRequest(BaseModel)] *)
Record FetchRequest : Type := mkFetchRequest {
  url : string;
  method : string;
  headers : option dict;
  data : option string;
  timeout : Z;
  follow_redirects : bool;
  verify_ssl : bool;
  user_agent : option string;
  cookies : option dict;
  allow_status_codes : option (list Z);
  cache_enabled : bool;
  intelligence_tags : option (list string)
}.

(** [FetchRequest(url=..., method=..., headers=..., intelligence_tags=...)]
    with the remaining fields at their declared defaults. *)
Definition FetchRequest_new (u m : string) (h : option dict)
    (tags : option (list string)) : FetchRequest :=
  {| url := u; method := m; headers := h; data := None; timeout := 30;
     follow_redirects := true; verify_ssl := true; user_agent := None;
     cookies := None; allow_status_codes := None; cache_enabled := true;
     intelligence_tags := tags |}.

(** [class ProxyResponse] (dataclass).  It has no field recording whether
    the response came from the cache. *)
Record ProxyResponse : Type := mkProxyResponse {
  status_code : Z;
  content : string;
  resp_headers : dict;
  resp_url : string;
  final_url : string;
  execution_time : Q;
  size : Z;
  success : bool;
  error : option string
}.

(** [cached_response.execution_time = t] *)
Definition set_execution_time (r : ProxyResponse) (t : Q) : ProxyResponse :=
  {| status_code := status_code r; content := content r;
     resp_headers := resp_headers r; resp_url := resp_url r;
     final_url := final_url r; execution_time := t; size := size r;
     success := success r; error := error r |}.

(** [class BulkFetchRequest(BaseModel)] *)
Record BulkFetchRequest : Type := mkBulkFetchRequest {
  urls : list string;
  concurrent_limit : Z;
  bulk_intelligence_tags : option (list string);
  common_headers : option dict
}.

(** ** Library functions

    Functions of the Python standard library whose results the program
    only passes along. *)
Class PyLib : Type := {
  (** [urlparse(url).netloc]; [None] when [urlparse] raises [ValueError] *)
  urlparse_netloc : string -> option string;
  (** [s.lower()] *)
  str_lower : string -> string;
  (** [s.upper()] *)
  str_upper : string -> string;
  (** [hashlib.md5(s.encode()).hexdigest()] *)
  md5_hexdigest : string -> string;
  (** [hashlib.sha256(s.encode()).hexdigest()] *)
  sha256_hexdigest : string -> string;
  (** [str(sorted(d.items()))] *)
  str_sorted_items : dict -> string;
  (** [f"{x}"] for a float *)
  str_float : Q -> string;
  (** [f"{n}"] for an int *)
  str_int : Z -> string;
  (** [json.dumps(asdict(response))] *)
  json_dumps : ProxyResponse -> string;
  (** [json.loads(s)] unpacked into a [ProxyResponse], or the exception
      that either step raises *)
  json_loads : string -> exn + ProxyResponse
}.

(** ** The world outside the process *)

(** A value stored in Redis.  [RInt n] is a payload that is the decimal
    rendering of [n] (what [INCR] leaves behind); [RStr s] is any other
    payload. *)
Inductive RVal : Type :=
  | RInt (n : Z)
  | RStr (s : string).

(** The arguments of one [session.request(method, url, **kwargs)] together
    with the session's total timeout. *)
Record NetCall : Type := mkNetCall {
  nc_method : string;
  nc_url : string;
  nc_headers : dict;
  nc_allow_redirects : bool;
  nc_ssl : bool;
  nc_cookies : option dict;
  nc_data : option string;
  nc_timeout : Z
}.

(** What the peer answers: a response read to the end with
    [response.text()], or an exception out of the request or the read. *)
Inductive NetOutcome : Type :=
  | NetResponse (status : Z) (body : string) (hdrs : dict) (real_url : string)
  | NetRaise (e : exn).

(** One entry of [blocked_requests.json]. *)
Record BlockedLog : Type := mkBlockedLog {
  bl_timestamp : DateTime;
  bl_url : string;
  bl_method : string;
  bl_reason : string;
  bl_details : string;
  bl_headers : dict;
  bl_user_agent : option string;
  bl_tags : list string
}.

(** [blocked_requests.json]: missing, not parseable as JSON, or a list. *)
Inductive FileState : Type :=
  | FileAbsent
  | FileCorrupt
  | FileEntries (entries : list BlockedLog).

(** The two templates of [display_request]. *)
Inductive Banner : Type :=
  | PendingBanner (request_id meth target masked_key : string) (timestamp : DateTime)
  | CompletedBanner (request_id status : string) (time_ms sz : Z) (cached : bool)
  | BulkHeader (n_urls : nat) (limit : Z) (masked_key : string) (started : DateTime)
  | BulkComplete (successful failed total : nat) (avg_ms : Z).

(** A record handed to the logger, or a banner written with [print]. *)
Inductive LogRecord : Type :=
  | LogInfo (msg : string)
  | LogWarning (msg : string)
  | LogError (msg : string)
  | LogBanner (b : Banner)
  | Printed (b : Banner).

(** [class IntelligenceRecord] of the archived version: the content of one
    [webfetch_*.json] file. *)
Record IntelligenceRecord : Type := mkIntelligenceRecord {
  ir_url : string;
  ir_timestamp : DateTime;
  ir_content : string;
  ir_status_code : Z;
  ir_headers : dict;
  ir_execution_time : Q;
  ir_size : Z;
  ir_method : string;
  ir_hash : string;
  ir_tags : list string
}.

(** The oracle: answers of the environment to the [n]-th interaction. *)
Record Env : Type := mkEnv {
  e_time : nat -> Q;
  e_now : nat -> DateTime;
  e_net : nat -> NetCall -> NetOutcome;
  e_redis_fault : nat -> option exn;
  e_fs_fault : nat -> bool;
  e_choice : nat -> nat
}.

Record World : Type := mkWorld {
  w_env : Env;
  (** interactions made so far *)
  w_step : nat;
  (** the Redis database (expiry is Redis's own business: an entry is in
      the map for as long as Redis still serves it) *)
  w_redis : gmap string RVal;
  (** [intelligence/blocked_requests.json] *)
  w_blocked_file : FileState;
  (** [intelligence/webfetch_*.json], by file name *)
  w_intelligence : gmap string IntelligenceRecord;
  (** logger output, oldest first *)
  w_log : list LogRecord;
  (** outbound HTTP requests issued, oldest first *)
  w_net : list NetCall
}.

Definition with_step (n : nat) (w : World) : World :=
  mkWorld (w_env w) n (w_redis w) (w_blocked_file w) (w_intelligence w)
    (w_log w) (w_net w).

Definition with_redis (r : gmap string RVal) (w : World) : World :=
  mkWorld (w_env w) (w_step w) r (w_blocked_file w) (w_intelligence w)
    (w_log w) (w_net w).

Definition with_blocked_file (f : FileState) (w : World) : World :=
  mkWorld (w_env w) (w_step w) (w_redis w) f (w_intelligence w) (w_log w)
    (w_net w).

Definition with_intelligence (i : gmap string IntelligenceRecord) (w : World) : World :=
  mkWorld (w_env w) (w_step w) (w_redis w) (w_blocked_file w) i (w_log w)
    (w_net w).

Definition with_log (l : list LogRecord) (w : World) : World :=
  mkWorld (w_env w) (w_step w) (w_redis w) (w_blocked_file w)
    (w_intelligence w) l (w_net w).

Definition with_net (n : list NetCall) (w : World) : World :=
  mkWorld (w_env w) (w_step w) (w_redis w) (w_blocked_file w)
    (w_intelligence w) (w_log w) n.

(** ** The monad of coroutines *)

Inductive Outcome (A : Type) : Type :=
  | Ret (a : A)
  | Raise (e : exn).
Arguments Ret {A} a.
Arguments Raise {A} e.

Definition M (A : Type) : Type := World -> Outcome A * World.

#[global] Instance M_ret : MRet M := fun A a w => (Ret a, w).

#[global] Instance M_bind : MBind M := fun A B f m w =>
  match m w with
  | (Ret a, w') => f a w'
  | (Raise e, w') => (Raise e, w')
  end.

(** [raise e] *)
Definition raise {A : Type} (e : exn) : M A := fun w => (Raise e, w).

(** [try: body / except Exception as e: handler(e)] *)
Definition try_except {A : Type} (body : M A) (handler : exn -> M A) : M A :=
  fun w =>
    match body w with
    | (Ret a, w') => (Ret a, w')
    | (Raise e, w') => handler e w'
    end.

(** [if c: body] for a statement. *)
Definition when (c : bool) (body : M unit) : M unit :=
  if c then body else mret tt.

(** [time.time()] *)
Definition time_time : M Q :=
  fun w => (Ret (e_time (w_env w) (w_step w)), with_step (S (w_step w)) w).

(** [datetime.now()] *)
Definition datetime_now : M DateTime :=
  fun w => (Ret (e_now (w_env w) (w_step w)), with_step (S (w_step w)) w).

(** [logger.info], [logger.warning], [logger.error] *)
Definition logger (r : LogRecord) : M unit :=
  fun w => (Ret tt, with_log (w_log w ++ [r]) w).

(** [await redis_client.get(key)] *)
Definition redis_get (key : string) : M (option RVal) :=
  fun w =>
    let w' := with_step (S (w_step w)) w in
    match e_redis_fault (w_env w) (w_step w) with
    | Some e => (Raise e, w')
    | None => (Ret (w_redis w !! key), w')
    end.

(** [INCR key] inside a pipeline: the new value, or [None] when the stored
    payload is not an integer. *)
Definition incr_value (v : option RVal) : option RVal :=
  match v with
  | None => Some (RInt 1)
  | Some (RInt n) => Some (RInt (n + 1))
  | Some (RStr _) => None
  end.

(** One [INCR] of a queued pipeline: on an error the key is left alone and
    the remaining commands still run. *)
Definition redis_incr (key : string) (db : gmap string RVal) : gmap string RVal * bool :=
  match incr_value (db !! key) with
  | Some v => (<[key := v]> db, true)
  | None => (db, false)
  end.

(** [pipe.incr(k1); pipe.expire(k1, 60); pipe.incr(k2); pipe.expire(k2,
    3600); await pipe.execute()]: [execute] raises after the queue has run
    when a command failed. *)
Definition redis_pipeline_incr (k1 k2 : string) : M unit :=
  fun w =>
    let w' := with_step (S (w_step w)) w in
    match e_redis_fault (w_env w) (w_step w) with
    | Some e => (Raise e, w')
    | None =>
        let '(db1, ok1) := redis_incr k1 (w_redis w) in
        let '(db2, ok2) := redis_incr k2 db1 in
        if ok1 && ok2 then (Ret tt, with_redis db2 w')
        else (Raise (Exception "value is not an integer or out of range"),
              with_redis db2 w')
    end.

(** [await redis_client.setex(key, ttl, value)] *)
Definition redis_setex (key : string) (ttl : Z) (value : string) : M unit :=
  fun w =>
    let w' := with_step (S (w_step w)) w in
    match e_redis_fault (w_env w) (w_step w) with
    | Some e => (Raise e, w')
    | None => (Ret tt, with_redis (<[key := RStr value]> (w_redis w)) w')
    end.

(** [async with session.request(...) as response: await response.text()] *)
Definition net_request (call : NetCall) : M NetOutcome :=
  fun w =>
    (Ret (e_net (w_env w) (w_step w) call),
     with_net (w_net w ++ [call]) (with_step (S (w_step w)) w)).

(** [random.choice(seq)] for a non-empty [seq] *)
Definition random_choice (seq : list string) : M string :=
  fun w =>
    (Ret (nth (e_choice (w_env w) (w_step w) mod length seq)%nat seq ""),
     with_step (S (w_step w)) w).

(** [with open(blocked_file, "w") as f: json.dump(entries, f)]: either the
    file cannot be opened and stays as it is, or it is replaced. *)
Definition write_blocked_file (entries : list BlockedLog) : M unit :=
  fun w =>
    let w' := with_step (S (w_step w)) w in
    if e_fs_fault (w_env w) (w_step w)
    then (Raise (Exception "Permission denied"), w')
    else (Ret tt, with_blocked_file (FileEntries entries) w').

(** ** Predicates on computations *)

(** [m] never raises. *)
Definition returns {A : Type} (m : M A) : Prop :=
  forall w, exists a w', m w = (Ret a, w').

(** [m] leaves the part [view] of the world as it found it, whether it
    returns or raises. *)
Definition keeps {X A : Type} (view : World -> X) (m : M A) : Prop :=
  forall w, view (m w).2 = view w.

(** The part of the world that logging leaves alone. *)
Definition unlogged (w : World) :=
  (w_env w, w_redis w, w_intelligence w, w_net w).

(** [w'] differs from [w] at most in the number of interactions, the log
    and the blocked-requests file. *)
Definition only_logged (w w' : World) : Prop :=
  w_env w' = w_env w /\ w_redis w' = w_redis w
  /\ w_intelligence w' = w_intelligence w /\ w_net w' = w_net w.

(** ** Configuration and the proxy object *)

(** The entries of [ProxyConfig.config] that the fetch path reads, each
    with the default its [.get] chain gives it. *)
Record Config : Type := mkConfig {
  (** [proxy.show_requests], default [True] *)
  show_requests : bool;
  (** [security.rate_limiting.enabled] *)
  rate_limiting_enabled : bool;
  (** [intelligence.enabled] *)
  intelligence_enabled : bool;
  (** [user_agents], default [[]] *)
  user_agents : list string
}.

(** [class ShadowWebfetchProxy]: [redis_client] tells whether a client
    object exists ([None] when caching is disabled in the configuration);
    the two domain sets are listed in any order. *)
Record Proxy : Type := mkProxy {
  config : Config;
  redis_client : bool;
  blocked_domains : list string;
  allowed_domains : list string
}.

(** [len(l) > 1000 ? l[-1000:] : l] *)
Definition keep_last_1000 {A : Type} (l : list A) : list A :=
  if (1000 <? length l)%nat then skipn (length l - 1000) l else l.

(** The expression computing [success] in [fetch_url] (lines 536-538). *)
Definition compute_success (allow : option (list Z)) (status : Z) : bool :=
  match allow with
  | None | Some [] => (200 <=? status) && (status <? 400)
  | Some codes => existsb (Z.eqb status) codes
  end.

(** The [succeeded] flag as the specification words it: the default range
    when no [allowed_status_codes] was supplied, membership in the
    supplied set when one was. *)
Definition spec_succeeded (allow : option (list Z)) (status : Z) : bool :=
  match allow with
  | None => (200 <=? status) && (status <? 400)
  | Some codes => bool_decide (status ∈ codes)
  end.

(** [f"***{api_key[-4:]}" if api_key and len(api_key) > 4 else "None"] *)
Definition masked_key (api_key : option string) : string :=
  match api_key with
  | Some k => if (4 <? String.length k)%nat then "***" ++ str_last 4 k else "None"
  | None => "None"
  end.

(** [display_request] *)
Definition display_request (request_id meth target status : string)
    (time_ms sz : Z) (cached : bool) (api_key : option string) : M unit :=
  timestamp ← datetime_now;
  let output :=
    if String.eqb status "PENDING"
    then PendingBanner request_id meth target (masked_key api_key) timestamp
    else CompletedBanner request_id status time_ms sz cached in
  logger (LogBanner output).

(** The response built on a rejection or in an exception handler. *)
Definition failure_response (code : Z) (body : string) (u : string) (elapsed : Q)
    (err : string) : ProxyResponse :=
  {| status_code := code; content := body; resp_headers := [];
     resp_url := u; final_url := u; execution_time := elapsed; size := 0;
     success := false; error := Some err |}.

Section Proxy.
Context `{!PyLib}.

(** [ShadowWebfetchProxy._generate_cache_key] *)
Definition _generate_cache_key (request : FetchRequest) : string :=
  let headers_str :=
    match headers request with
    | None | Some [] => ""
    | Some h => md5_hexdigest (str_sorted_items h)
    end in
  let content := method request ++ ":" ++ url request ++ ":" ++ headers_str in
  str_take 16 (sha256_hexdigest content).

(** [ShadowWebfetchProxy._is_domain_allowed] *)
Definition _is_domain_allowed (self : Proxy) (u : string) : bool :=
  match urlparse_netloc u with
  | Some netloc =>
      let domain := str_lower netloc in
      if existsb (fun blocked => str_in blocked domain) (blocked_domains self)
      then false
      else if match allowed_domains self with [] => false | _ => true end
              && negb (existsb (fun allowed => str_in allowed domain)
                         (allowed_domains self))
      then false
      else true
  | None => false
  end.

(** [f"rate_limit:{api_key or 'anonymous'}:{stamp}"] *)
Definition rate_key (api_key : option string) (stamp : string) : string :=
  "rate_limit:"
  ++ (if truthy_opt api_key then default "" api_key else "anonymous")
  ++ ":" ++ stamp.

(** [await redis_client.get(key) or 0] *)
Definition or_zero (v : option RVal) : RVal :=
  match v with
  | None | Some (RStr "") => RInt 0
  | Some x => x
  end.

(** [int(v)] *)
Definition py_int (v : RVal) : M Z :=
  match v with
  | RInt n => mret n
  | RStr _ => raise (Exception "invalid literal for int() with base 10")
  end.

(** [ShadowWebfetchProxy._check_rate_limit] *)
Definition _check_rate_limit (self : Proxy) (api_key : option string) : M bool :=
  if negb (rate_limiting_enabled (config self)) then mret true
  else
    now ← datetime_now;
    let minute_key := rate_key api_key (strftime_minute now) in
    let hour_key := rate_key api_key (strftime_hour now) in
    if redis_client self then
      minute_raw ← redis_get minute_key;
      let minute_count := or_zero minute_raw in
      hour_raw ← redis_get hour_key;
      let hour_count := or_zero hour_raw in
      m ← py_int minute_count;
      if 60 <=? m then mret false
      else
        h ← py_int hour_count;
        if 1000 <=? h then mret false
        else
          redis_pipeline_incr minute_key hour_key;;
          mret true
    else mret true.

(** [ShadowWebfetchProxy._get_cached_response] *)
Definition _get_cached_response (self : Proxy) (cache_key : string)
    : M (option ProxyResponse) :=
  if negb (redis_client self) then mret None
  else
    try_except
      (cached_data ← redis_get ("proxy_cache:" ++ cache_key);
       match cached_data with
       | None | Some (RStr "") => mret None
       | Some (RStr payload) =>
           match json_loads payload with
           | inr response => mret (Some response)
           | inl e => raise e
           end
       | Some (RInt _) =>
           raise (Exception "argument after ** must be a mapping, not int")
       end)
      (fun e =>
         logger (LogError ("Cache retrieval failed: " ++ str_exn e));;
         mret None).

(** [ShadowWebfetchProxy._cache_response], called with the default
    [ttl=3600] *)
Definition _cache_response (self : Proxy) (cache_key : string)
    (response : ProxyResponse) : M unit :=
  if negb (redis_client self) then mret tt
  else
    try_except
      (redis_setex ("proxy_cache:" ++ cache_key) 3600 (json_dumps response))
      (fun e => logger (LogError ("Cache storage failed: " ++ str_exn e))).

(** [ShadowWebfetchProxy._log_blocked_request] *)
Definition _log_blocked_request (self : Proxy) (request : FetchRequest)
    (reason details : string) : M unit :=
  try_except
    (now ← datetime_now;
     let blocked_log :=
       {| bl_timestamp := now; bl_url := url request;
          bl_method := method request; bl_reason := reason;
          bl_details := details;
          bl_headers := dict_or_empty (headers request);
          bl_user_agent := user_agent request;
          bl_tags := default [] (intelligence_tags request) |} in
     logger (LogWarning ("BLOCKED REQUEST: " ++ reason ++ " - " ++ url request
                         ++ " - " ++ details));;
     blocked_requests ← (fun w =>
       (Ret match w_blocked_file w with
            | FileEntries entries => entries
            | FileAbsent | FileCorrupt => []
            end, w));
     write_blocked_file (keep_last_1000 (blocked_requests ++ [blocked_log])))
    (fun e => logger (LogError ("Failed to log blocked request: " ++ str_exn e))).

(** Lines 487-503 of [fetch_url]: the headers of the outbound request. *)
Definition prepare_headers (self : Proxy) (request : FetchRequest) : M dict :=
  let headers0 := dict_or_empty (headers request) in
  headers1 ←
    (if truthy_opt (user_agent request)
     then mret (dict_set "User-Agent" (default "" (user_agent request)) headers0)
     else if negb (dict_mem "User-Agent" headers0)
     then match user_agents (config self) with
          | [] => mret headers0
          | agents =>
              agent ← random_choice agents;
              mret (dict_set "User-Agent" agent headers0)
          end
     else mret headers0);
  let headers2 := dict_set "X-SHADOW-Proxy" "enabled" headers1 in
  t ← time_time;
  mret (dict_set "X-Request-ID"
          (str_take 8 (sha256_hexdigest (url request ++ str_float t))) headers2).

(** Lines 505-524 of [fetch_url]: the outbound request. *)
Definition outbound_call (request : FetchRequest) (hdrs : dict) : NetCall :=
  {| nc_method := method request;
     nc_url := url request;
     nc_headers := hdrs;
     nc_allow_redirects := follow_redirects request;
     nc_ssl := verify_ssl request;
     nc_cookies :=
       match cookies request with
       | None | Some [] => None
       | Some c => Some c
       end;
     nc_data :=
       if truthy_opt (data request)
          && negb (String.eqb (str_upper (method request)) "GET")
       then data request else None;
     nc_timeout := timeout request |}.

(** Lines 487-558 of [fetch_url]: the outbound request and the response
    built from its answer. *)
Definition fetch_from_network (self : Proxy) (request : FetchRequest)
    (api_key : option string) (start_time : Q) (request_id cache_key : string)
    : M ProxyResponse :=
  hdrs ← prepare_headers self request;
  outcome ← net_request (outbound_call request hdrs);
  match outcome with
  | NetRaise e => raise e
  | NetResponse status body response_headers real_url =>
      t ← time_time;
      let proxy_response :=
        {| status_code := status; content := body;
           resp_headers := response_headers;
           resp_url := url request; final_url := real_url;
           execution_time := t - start_time;
           size := Z.of_nat (String.length body);
           success := compute_success (allow_status_codes request) status;
           error := None |} in
      when (success proxy_response && cache_enabled request)
        (_cache_response self cache_key proxy_response);;
      when (show_requests (config self))
        (display_request request_id (method request) (url request)
           (str_int (status_code proxy_response))
           (int_of_Q (execution_time proxy_response * 1000))
           (size proxy_response) false api_key);;
      mret proxy_response
  end.

(** Lines 471-485 of [fetch_url]: the answer on a cache hit. *)
Definition answer_from_cache (self : Proxy) (request : FetchRequest)
    (api_key : option string) (start_time : Q) (cache_key : string)
    (cached_response : ProxyResponse) : M ProxyResponse :=
  when (show_requests (config self))
    (display_request (str_upper (str_take 6 cache_key)) (method request)
       (url request) (str_int (status_code cached_response))
       (int_of_Q (execution_time cached_response * 1000))
       (size cached_response) true api_key);;
  logger (LogInfo ("Cache hit for " ++ url request));;
  t ← time_time;
  mret (set_execution_time cached_response (t - start_time)).

(** The [try] block of [fetch_url] (lines 428-558). *)
Definition fetch_url_try (self : Proxy) (request : FetchRequest)
    (api_key : option string) (start_time : Q) (request_id : string)
    : M ProxyResponse :=
  if negb (_is_domain_allowed self (url request)) then
    logger (LogWarning ("BLOCKED: Domain not allowed - " ++ url request));;
    _log_blocked_request self request "DOMAIN_BLOCKED"
      "Domain blocked by security policy";;
    t ← time_time;
    mret (failure_response 403 "Domain not allowed" (url request)
            (t - start_time) "Domain blocked by security policy")
  else
    within_limit ← _check_rate_limit self api_key;
    if negb within_limit then
      logger (LogWarning ("BLOCKED: Rate limit exceeded - " ++ url request));;
      _log_blocked_request self request "RATE_LIMIT" "Rate limit exceeded";;
      t ← time_time;
      mret (failure_response 429 "Rate limit exceeded" (url request)
              (t - start_time) "Rate limit exceeded")
    else
      let cache_key := _generate_cache_key request in
      cached_response ←
        (if cache_enabled request then _get_cached_response self cache_key
         else mret None);
      match cached_response with
      | Some cached =>
          answer_from_cache self request api_key start_time cache_key cached
      | None =>
          fetch_from_network self request api_key start_time request_id
            cache_key
      end.

(** The two [except] clauses of [fetch_url] (lines 560-591). *)
Definition fetch_url_except (self : Proxy) (request : FetchRequest)
    (start_time : Q) (e : exn) : M ProxyResponse :=
  match e with
  | TimeoutError _ =>
      logger (LogWarning ("BLOCKED: Request timeout - " ++ url request));;
      _log_blocked_request self request "TIMEOUT" "Request timeout";;
      mret (failure_response 408 "Request timeout" (url request)
              (inject_Z (timeout request)) "Request timeout")
  | Exception msg =>
      logger (LogWarning ("BLOCKED: General error - " ++ url request ++ " - "
                          ++ msg));;
      _log_blocked_request self request "ERROR" msg;;
      t ← time_time;
      mret (failure_response 500 msg (url request) (t - start_time) msg)
  end.

(** Lines 419-426 of [fetch_url], before the [try]: the start time and the
    request id. *)
Definition fetch_url_prelude (self : Proxy) (request : FetchRequest)
    (api_key : option string) : M (Q * string) :=
  start_time ← time_time;
  t0 ← time_time;
  let request_id :=
    str_upper (str_take 6 (md5_hexdigest (url request ++ str_float t0))) in
  when (show_requests (config self))
    (display_request request_id (method request) (url request) "PENDING" 0 0
       false api_key);;
  mret (start_time, request_id).

(** [ShadowWebfetchProxy.fetch_url] *)
Definition fetch_url (self : Proxy) (request : FetchRequest)
    (api_key : option string) : M ProxyResponse :=
  started ← fetch_url_prelude self request api_key;
  try_except (fetch_url_try self request api_key started.1 started.2)
    (fetch_url_except self request started.1).

(** ** Bulk fetch *)

(** [asyncio.gather] with [return_exceptions=True], the tasks run to
    completion one after the other in list order: the outcome of each task
    is collected at the position of the task, an exception as a value. *)
Fixpoint gather {A : Type} (tasks : list (M A)) : M (list (Outcome A)) :=
  match tasks with
  | [] => mret []
  | task :: rest =>
      fun w =>
        let '(outcome, w1) := task w in
        match gather rest w1 with
        | (Ret outcomes, w2) => (Ret (outcome :: outcomes), w2)
        | (Raise e, w2) => (Raise e, w2)
        end
  end.

(** The loop "Handle exceptions" of [bulk_fetch] (lines 613-630), from
    index [i] on; [urls[i]] raises [IndexError] out of range. *)
Fixpoint process_results (all_urls : list string) (i : nat)
    (results : list (Outcome ProxyResponse)) : M (list ProxyResponse) :=
  match results with
  | [] => mret []
  | result :: rest =>
      processed ←
        match result with
        | Raise e =>
            match all_urls !! i with
            | Some u => mret (failure_response 500 (str_exn e) u 0 (str_exn e))
            | None => raise (Exception "list index out of range")
            end
        | Ret response => mret response
        end;
      others ← process_results all_urls (S i) rest;
      mret (processed :: others)
  end.

(** [fetch_with_semaphore], the closure of [bulk_fetch]; [fetch] is the
    bound method [self.fetch_url]. *)
Definition fetch_with_semaphore
    (fetch : FetchRequest -> option string -> M ProxyResponse)
    (bulk_request : BulkFetchRequest) (api_key : option string) (u : string)
    : M ProxyResponse :=
  let request :=
    FetchRequest_new u "GET" (Some (dict_or_empty (common_headers bulk_request)))
      (bulk_intelligence_tags bulk_request) in
  fetch request api_key.

(** [bulk_fetch] over an arbitrary [fetch_url] method. *)
Definition bulk_fetch_with
    (fetch : FetchRequest -> option string -> M ProxyResponse)
    (bulk_request : BulkFetchRequest) (api_key : option string)
    : M (list ProxyResponse) :=
  let tasks :=
    map (fetch_with_semaphore fetch bulk_request api_key) (urls bulk_request) in
  results ← gather tasks;
  process_results (urls bulk_request) 0 results.

(** [ShadowWebfetchProxy.bulk_fetch] *)
Definition bulk_fetch (self : Proxy) (bulk_request : BulkFetchRequest)
    (api_key : option string) : M (list ProxyResponse) :=
  bulk_fetch_with (fetch_url self) bulk_request api_key.

(** The world in which the task at index [i] starts, the tasks before it
    having run from [w]. *)
Fixpoint world_before {A : Type} (tasks : list (M A)) (i : nat) (w : World) : World :=
  match i, tasks with
  | S i', task :: rest => world_before rest i' (task w).2
  | _, _ => w
  end.

(** What [bulk_fetch] puts at the position of a task, from the outcome of
    the task and the URL of the position. *)
Definition slot_result (u : string) (outcome : Outcome ProxyResponse) : ProxyResponse :=
  match outcome with
  | Ret response => response
  | Raise e => failure_response 500 (str_exn e) u 0 (str_exn e)
  end.

(** ** HTTP front end *)

(** One element of ["results"] in the answer of [POST /fetch/bulk]. *)
Record BulkItem : Type := mkBulkItem {
  bi_url : string;
  bi_success : bool;
  bi_status_code : Z;
  bi_execution_time : Q;
  bi_size : Z;
  bi_error : option string
}.

(** The JSON answer of [POST /fetch/bulk]. *)
Record BulkAnswer : Type := mkBulkAnswer {
  total_urls : nat;
  successful : nat;
  failed : nat;
  results : list BulkItem
}.

(** [raise HTTPException(status_code, detail)] as a value. *)
Record HTTPException : Type := mkHTTPException {
  http_status : Z;
  detail : string
}.

(** [sum(1 for r in results if r.success)] *)
Definition count_successful (rs : list ProxyResponse) : nat :=
  length (filter (fun r => success r = true) rs).

(** [sum(1 for r in results if not r.success)] *)
Definition count_failed (rs : list ProxyResponse) : nat :=
  length (filter (fun r => success r = false) rs).

(** [int((total_time / len(results) * 1000) if results else 0)] *)
Definition avg_time_ms (rs : list ProxyResponse) : Z :=
  match rs with
  | [] => 0
  | _ =>
      let total_time := fold_left Qplus (map execution_time rs) 0%Q in
      int_of_Q (total_time / inject_Z (Z.of_nat (length rs)) * 1000)
  end.

(** [bulk_fetch_urls], the handler of [POST /fetch/bulk]. *)
Definition bulk_fetch_urls (proxy : Proxy) (request : BulkFetchRequest)
    (api_key : string) : M (HTTPException + BulkAnswer) :=
  try_except
    (started ← datetime_now;
     logger (LogBanner (BulkHeader (length (urls request))
                          (concurrent_limit request)
                          (masked_key (Some api_key)) started));;
     results ← bulk_fetch proxy request (Some api_key);
     logger (LogBanner (BulkComplete (count_successful results)
                          (count_failed results) (length (urls request))
                          (avg_time_ms results)));;
     results ← bulk_fetch proxy request (Some api_key);
     logger (Printed (BulkComplete (count_successful results)
                        (count_failed results) (length (urls request))
                        (avg_time_ms results)));;
     mret (inr {| total_urls := length (urls request);
                  successful := count_successful results;
                  failed := count_failed results;
                  results :=
                    map (fun r => {| bi_url := resp_url r;
                                     bi_success := success r;
                                     bi_status_code := status_code r;
                                     bi_execution_time := execution_time r;
                                     bi_size := size r;
                                     bi_error := error r |}) results |}))
    (fun e =>
       logger (LogError ("Bulk fetch failed: " ++ str_exn e));;
       mret (inl {| http_status := 500; detail := str_exn e |})).
End Proxy.

(** ** Clients and counters *)


(** The count that the rate limiter reads from a key that is missing or
    holds an integer. *)
Definition count_of (v : option RVal) : Z :=
  match v with
  | Some (RInt n) => n
  | _ => 0
  end.

(** A key that only [INCR] writes: missing, or a non-negative integer. *)
Definition is_counter (v : option RVal) : Prop :=
  v = None \/ exists n, 0 <= n /\ v = Some (RInt n).

(** The test of [_check_rate_limit] on the two counts: either cap is met
    or exceeded. *)
Definition capped (minute_count hour_count : Z) : bool :=
  (60 <=? minute_count) || (1000 <=? hour_count).

(** The rate limiter lets the next request of the client through: it is
    switched off, or both counters are below their caps. *)
Definition rate_limit_open (self : Proxy) (api_key : option string)
    (w : World) (now : DateTime) : Prop :=
  rate_limiting_enabled (config self) = false
  \/ (forall n, same_minute (e_now (w_env w) n) now)
     /\ is_counter (w_redis w !! rate_key api_key (strftime_minute now))
     /\ is_counter (w_redis w !! rate_key api_key (strftime_hour now))
     /\ capped (count_of (w_redis w !! rate_key api_key (strftime_minute now)))
          (count_of (w_redis w !! rate_key api_key (strftime_hour now)))
        = false.

(** Redis answers every command. *)
Definition no_redis_fault (env : Env) : Prop :=
  forall n, e_redis_fault env n = None.


(** ** The client plugin ([opencode_plugin.py]) *)

Module Plugin.

(** The entries of the plugin's [config] that its domain filter reads. *)
Record PluginConfig : Type := mkPluginConfig {
  security_blocked_domains : list string;
  security_allowed_domains : list string
}.

(** [OpenCodeWebfetchPlugin._is_domain_allowed] *)
Definition _is_domain_allowed `{!PyLib} (config : PluginConfig) (u : string) : bool :=
  match urlparse_netloc u with
  | Some netloc =>
      let domain := str_lower netloc in
      let blocked := security_blocked_domains config in
      if existsb (fun b => str_in b domain) blocked then false
      else
        let allowed := security_allowed_domains config in
        if match allowed with [] => false | _ => true end
           && negb (existsb (fun a => str_in a domain) allowed)
        then false
        else true
  | None => true
  end.

End Plugin.

(** ** [GET /config]: dictionaries as shared objects *)

Module ConfigEndpoint.

(** A Python value of a loaded YAML configuration; a dictionary is a
    reference to an object of the heap. *)
Inductive pyval : Type :=
  | VNone
  | VBool (b : bool)
  | VInt (n : Z)
  | VStr (s : string)
  | VStrList (l : list string)
  | VDict (addr : positive).

(** The dictionary objects alive in the process. *)
Abbreviation heap := (gmap positive (gmap string pyval)).

(** [d.copy()]: a new dictionary object with the same entries, and so the
    same references to nested dictionaries. *)
Definition dict_copy (addr : positive) (h : heap) : option (positive * heap) :=
  d ← h !! addr;
  let fresh_addr := fresh (dom h) in
  Some (fresh_addr, <[fresh_addr := d]> h).

(** [get_config], the handler of [GET /config]; [stored] is the object
    [proxy.config.config].  The result is the object serialised as the
    response, or the exception leaving the handler. *)
Definition get_config (stored : positive) (h : heap) : Outcome positive * heap :=
  match dict_copy stored h with
  | None => (Raise (Exception "no such object"), h)
  | Some (cfg, h1) =>
      match h1 !! cfg ≫= (.!! "security") with
      | None => (Ret cfg, h1)
      | Some (VDict sec) =>
          match h1 !! sec with
          | Some d =>
              if bool_decide (is_Some (d !! "api_key"))
              then (Ret cfg, <[sec := <["api_key" := VStr "***REDACTED***"]> d]> h1)
              else (Ret cfg, h1)
          | None => (Raise (Exception "no such object"), h1)
          end
      | Some (VStr s) =>
          if str_in "api_key" s
          then (Raise (Exception "'str' object does not support item assignment"), h1)
          else (Ret cfg, h1)
      | Some (VStrList l) =>
          if bool_decide ("api_key" ∈ l)
          then (Raise (Exception "list indices must be integers or slices, not str"), h1)
          else (Ret cfg, h1)
      | Some VNone | Some (VBool _) | Some (VInt _) =>
          (Raise (Exception "argument is not iterable"), h1)
      end
  end.

(** [proxy.config.config["security"]["api_key"]] as the proxy reads it. *)
Definition stored_api_key (stored : positive) (h : heap) : option pyval :=
  d ← h !! stored;
  sec ← d !! "security";
  match sec with
  | VDict addr => h !! addr ≫= (.!! "api_key")
  | _ => None
  end.

End ConfigEndpoint.

(** ** The archived version ([archive/old_files/old_versions]) *)

Module Archive.

(** [record.timestamp.strftime("%Y%m%d_%H%M%S")] *)
Definition strftime_second (t : DateTime) : string :=
  digits4 (dt_year t) ++ digits2 (dt_month t) ++ digits2 (dt_day t) ++ "_"
  ++ digits2 (dt_hour t) ++ digits2 (dt_minute t) ++ digits2 (dt_second t).

(** [async with aiofiles.open(filepath, "w") as f: await f.write(...)] *)
Definition write_intelligence_file (filename : string)
    (record : IntelligenceRecord) : M unit :=
  fun w =>
    let w' := with_step (S (w_step w)) w in
    if e_fs_fault (w_env w) (w_step w)
    then (Raise (Exception "Permission denied"), w')
    else (Ret tt, with_intelligence (<[filename := record]> (w_intelligence w)) w').

(** [ShadowWebfetchProxy._save_intelligence] of the archived version. *)
Definition _save_intelligence `{!PyLib} (self : Proxy)
    (record : IntelligenceRecord) : M unit :=
  try_except
    (if negb (intelligence_enabled (config self)) then mret tt
     else
       let timestamp := strftime_second (ir_timestamp record) in
       let url_hash := str_take 8 (md5_hexdigest (ir_url record)) in
       let filename := "webfetch_" ++ timestamp ++ "_" ++ url_hash ++ ".json" in
       write_intelligence_file filename record;;
       logger (LogInfo ("Intelligence record saved: " ++ filename)))
    (fun e => logger (LogError ("Failed to save intelligence: " ++ str_exn e))).

End Archive.

(** ** A library instance for the examples

    Enough of the Python library to run the program on the inputs of the
    examples below: ASCII case mapping, the part of [urlsplit] that
    extracts the network location, and the digests of the strings that
    the examples hash. *)

Definition is_alpha (c : ascii) : bool :=
  let n := nat_of_ascii c in
  ((65 <=? n) && (n <=? 90) || (97 <=? n) && (n <=? 122))%nat.

Definition is_digit (c : ascii) : bool :=
  let n := nat_of_ascii c in ((48 <=? n) && (n <=? 57))%nat.

(** [c in scheme_chars] of [urllib.parse] *)
Definition is_scheme_char (c : ascii) : bool :=
  is_alpha c || is_digit c || Ascii.eqb c "+" || Ascii.eqb c "-" || Ascii.eqb c ".".

Fixpoint after_scheme_chars (s : string) : string :=
  match s with
  | String c rest => if is_scheme_char c then after_scheme_chars rest else s
  | EmptyString => EmptyString
  end.

(** [urlsplit]: drop ["scheme:"] when the text before the first colon is a
    scheme. *)
Definition strip_scheme (s : string) : string :=
  match s with
  | String c _ =>
      if is_alpha c
      then match after_scheme_chars s with
           | String ":" rest => rest
           | _ => s
           end
      else s
  | EmptyString => EmptyString
  end.

(** [_splitnetloc]: up to the first of [/], [?], [#]. *)
Fixpoint take_netloc (s : string) : string :=
  match s with
  | String c rest =>
      if Ascii.eqb c "/" || Ascii.eqb c "?" || Ascii.eqb c "#"
      then EmptyString
      else String c (take_netloc rest)
  | EmptyString => EmptyString
  end.

(** [urlparse(url).netloc] for a URL of printable ASCII whose bracketed
    host, if any, is an IP literal; [None] is [ValueError("Invalid IPv6
    URL")], raised for an unmatched bracket. *)
Definition py_netloc (u : string) : option string :=
  match strip_scheme u with
  | String "/" (String "/" rest) =>
      let netloc := take_netloc rest in
      if xorb (str_in "[" netloc) (str_in "]" netloc) then None else Some netloc
  | _ => Some ""
  end.

Definition ascii_lower (c : ascii) : ascii :=
  let n := nat_of_ascii c in
  if ((65 <=? n) && (n <=? 90))%nat then ascii_of_nat (n + 32) else c.

Definition ascii_upper (c : ascii) : ascii :=
  let n := nat_of_ascii c in
  if ((97 <=? n) && (n <=? 122))%nat then ascii_of_nat (n - 32) else c.

Fixpoint str_map (f : ascii -> ascii) (s : string) : string :=
  match s with
  | String c rest => String (f c) (str_map f rest)
  | EmptyString => EmptyString
  end.

(** Decimal rendering of an [int]. *)
Definition py_str_int (n : Z) : string := pretty n.

(** [str(x)] of a float with an integral value. *)
Definition py_str_float (q : Q) : string :=
  py_str_int (int_of_Q q) ++ ".0".

(** [repr(s)] of a string without quotes, backslashes or control
    characters. *)
Definition py_repr (s : string) : string := "'" ++ s ++ "'".

Fixpoint insert_sorted (item : string * string) (items : dict) : dict :=
  match items with
  | [] => [item]
  | item' :: rest =>
      if String.leb (fst item) (fst item') then item :: items
      else item' :: insert_sorted item rest
  end.

(** [str(sorted(d.items()))] for keys and values that [py_repr] covers. *)
Definition py_str_sorted_items (d : dict) : string :=
  "["
  ++ String.concat ", "
       (map (fun item => "(" ++ py_repr (fst item) ++ ", " ++ py_repr (snd item) ++ ")")
          (fold_right insert_sorted [] d))
  ++ "]".

(** A digest table: the digest of a listed string.  A string that is not
    listed gets the empty digest; in the examples these are the request
    ids after the first one and the [X-Request-ID] values, which label
    log lines and an outbound header and nothing else. *)
Definition digest_of (table : list (string * string)) (s : string) : string :=
  match find (fun entry => String.eqb (fst entry) s) table with
  | Some entry => snd entry
  | None => ""
  end.

Definition md5_table : list (string * string) :=
  [("http://example.com/101.0", "db539120ce45679875b96931c3044b2f")].

Definition sha256_table : list (string * string) :=
  [("GET:http://example.com/:",
    "dd910dda6aa06858939ee9a6dd3a6dd5c90469d9b1d6e0e919a53c3c03ff8ca6")].

(** The double quote of JSON. *)
Definition dq : string := String (ascii_of_nat 34) EmptyString.

(** A JSON string without characters that need escaping. *)
Definition json_str (s : string) : string := dq ++ s ++ dq.

(** A JSON object of string values. *)
Fixpoint json_entries (d : dict) : string :=
  match d with
  | [] => ""
  | [(k, v)] => json_str k ++ ": " ++ json_str v
  | (k, v) :: rest => json_str k ++ ": " ++ json_str v ++ ", " ++ json_entries rest
  end.

(** [json.dumps(asdict(response))] for a response whose strings need no
    escaping and whose elapsed time is integral. *)
Definition py_json_dumps (r : ProxyResponse) : string :=
  "{" ++ json_str "status_code" ++ ": " ++ py_str_int (status_code r)
  ++ ", " ++ json_str "content" ++ ": " ++ json_str (content r)
  ++ ", " ++ json_str "headers" ++ ": {" ++ json_entries (resp_headers r) ++ "}"
  ++ ", " ++ json_str "url" ++ ": " ++ json_str (resp_url r)
  ++ ", " ++ json_str "final_url" ++ ": " ++ json_str (final_url r)
  ++ ", " ++ json_str "execution_time" ++ ": " ++ py_str_float (execution_time r)
  ++ ", " ++ json_str "size" ++ ": " ++ py_str_int (size r)
  ++ ", " ++ json_str "success" ++ ": " ++ (if success r then "true" else "false")
  ++ ", " ++ json_str "error" ++ ": "
  ++ match error r with Some e => json_str e | None => "null" end
  ++ "}".

(** The response that the examples keep in the cache. *)
Definition hello_response : ProxyResponse :=
  {| status_code := 200; content := "hello"; resp_headers := [];
     resp_url := "http://example.com/"; final_url := "http://example.com/";
     execution_time := 1; size := 5; success := true; error := None |}.

(** Decoding, for the one payload that the examples store; every other
    text is taken as undecodable. *)
Definition py_json_loads (s : string) : exn + ProxyResponse :=
  if String.eqb s (py_json_dumps hello_response) then inr hello_response
  else inl (Exception "Expecting value").

Definition py_lib : PyLib := {|
  urlparse_netloc := py_netloc;
  str_lower := str_map ascii_lower;
  str_upper := str_map ascii_upper;
  md5_hexdigest := digest_of md5_table;
  sha256_hexdigest := digest_of sha256_table;
  str_sorted_items := py_str_sorted_items;
  str_float := py_str_float;
  str_int := py_str_int;
  json_dumps := py_json_dumps;
  json_loads := py_json_loads
|}.

(** ** Inputs of the examples *)

Definition noon : DateTime := mkDateTime 2024 1 2 12 0 0.

(** An environment without faults: the clock starts at 100 s and advances
    by a second per interaction, and the peer always gives [answer]. *)
Definition quiet_env (answer : NetOutcome) : Env :=
  {| e_time := fun n => inject_Z (100 + Z.of_nat n);
     e_now := fun _ => noon;
     e_net := fun _ _ => answer;
     e_redis_fault := fun _ => None;
     e_fs_fault := fun _ => false;
     e_choice := fun _ => 0%nat |}.

(** A world at its first interaction, with the given Redis content. *)
Definition fresh_world (env : Env) (db : gmap string RVal) : World :=
  mkWorld env 0 db FileAbsent ∅ [] [].

Definition default_config : Config :=
  {| show_requests := true; rate_limiting_enabled := true;
     intelligence_enabled := true;
     user_agents := ["Mozilla/5.0 (X11; Linux x86_64)"] |}.

Definition default_proxy : Proxy :=
  {| config := default_config; redis_client := true; blocked_domains := [];
     allowed_domains := [] |}.

Definition example_request : FetchRequest :=
  FetchRequest_new "http://example.com/" "GET" None None.

(** [200 OK] with body ["hello"]. *)
Definition ok_answer : NetOutcome :=
  NetResponse 200 "hello" [] "http://example.com/".

(** A URL with an unmatched bracket in its network location. *)
Definition malformed_url : string := "http://[::1/x".

Definition plugin_config : Plugin.PluginConfig :=
  {| Plugin.security_blocked_domains := ["evil.example"];
     Plugin.security_allowed_domains := [] |}.

(** A configuration object [{"proxy": {...}, "security": {"api_key":
    "s3cret", ...}}] at address 1, its nested dictionaries at 2 and 3. *)
Definition config_heap : ConfigEndpoint.heap :=
  {[ 1%positive := {[ "proxy" := ConfigEndpoint.VDict 2;
                      "security" := ConfigEndpoint.VDict 3 ]};
     2%positive := {[ "port" := ConfigEndpoint.VInt 8081 ]};
     3%positive := {[ "api_key" := ConfigEndpoint.VStr "s3cret";
                      "blocked_domains" := ConfigEndpoint.VStrList [] ]} ]}.

(** A request that accepts only [404], and a peer that answers [404]. *)
Definition existence_check : FetchRequest :=
  {| url := "http://example.com/"; method := "GET"; headers := None;
     data := None; timeout := 30; follow_redirects := true;
     verify_ssl := true; user_agent := None; cookies := None;
     allow_status_codes := Some [404]; cache_enabled := true;
     intelligence_tags := None |}.

Definition not_found_answer : NetOutcome :=
  NetResponse 404 "missing" [] "http://example.com/".

(** A request that supplies an empty list of allowed status codes. *)
Definition empty_allow_request : FetchRequest :=
  {| url := "http://example.com/"; method := "GET"; headers := None;
     data := None; timeout := 30; follow_redirects := true;
     verify_ssl := true; user_agent := None; cookies := None;
     allow_status_codes := Some []; cache_enabled := true;
     intelligence_tags := None |}.

(** A proxy started with caching disabled: no Redis client. *)
Definition uncached_proxy : Proxy :=
  {| config := default_config; redis_client := false; blocked_domains := [];
     allowed_domains := [] |}.

(** The body of a [POST /fetch/bulk] with a single URL. *)
Definition one_url_request : BulkFetchRequest :=
  {| urls := ["http://example.com/"]; concurrent_limit := 5;
     bulk_intelligence_tags := None; common_headers := None |}.

(** The environment of [quiet_env] with Redis unreachable. *)
Definition redis_down_env (answer : NetOutcome) : Env :=
  {| e_time := fun n => inject_Z (100 + Z.of_nat n);
     e_now := fun _ => noon;
     e_net := fun _ _ => answer;
     e_redis_fault := fun _ => Some (Exception "Connection refused");
     e_fs_fault := fun _ => false;
     e_choice := fun _ => 0%nat |}.

(** The same environment with a clock of its own. *)
Definition env_with_clock (clock : nat -> Q) (answer : NetOutcome) : Env :=
  {| e_time := clock;
     e_now := fun _ => noon;
     e_net := fun _ _ => answer;
     e_redis_fault := fun _ => None;
     e_fs_fault := fun _ => false;
     e_choice := fun _ => 0%nat |}.

(** The Redis key of the cache entry of [example_request]. *)
Definition example_cache_key : string := "proxy_cache:dd910dda6aa06858".

(** The Redis keys of the counters of the anonymous client at [noon]. *)
Definition noon_minute_key : string := "rate_limit:anonymous:202401021200".

(** Redis holding the response of [example_request]. *)
Definition warm_cache : gmap string RVal :=
  {[ example_cache_key := RStr (py_json_dumps hello_response) ]}.

(** Redis holding that response, the minute counter of the anonymous
    client at its cap. *)
Definition warm_cache_at_cap : gmap string RVal :=
  <[ noon_minute_key := RInt 60 ]> warm_cache.


(** A proxy with rate limiting switched off in its configuration. *)
Definition unlimited_proxy : Proxy :=
  {| config := {| show_requests := true; rate_limiting_enabled := false;
                  intelligence_enabled := true;
                  user_agents := ["Mozilla/5.0 (X11; Linux x86_64)"] |};
     redis_client := true; blocked_domains := []; allowed_domains := [] |}.

(** A proxy that blocks [evil.example] and whose allow-list names the
    very host of [evil_request]. *)
Definition blocking_proxy : Proxy :=
  {| config := default_config; redis_client := true;
     blocked_domains := ["evil.example"];
     allowed_domains := ["evil.example.com"] |}.

Definition evil_request : FetchRequest :=
  FetchRequest_new "http://EVIL.example.com:80/p" "GET" None None.


(** A clock that, like the one of [quiet_env], starts at 100 s, and reads
    109 s at its twelfth reading. *)
Definition slow_clock (n : nat) : Q :=
  if (n <? 11)%nat then inject_Z (100 + Z.of_nat n)
  else inject_Z (98 + Z.of_nat n).

(** ** More of the HTTP front end *)

(** [l[start:]] *)
Definition slice_from {A : Type} (start : Z) (l : list A) : list A :=
  if start <? 0
  then skipn (Z.to_nat (Z.of_nat (length l) + start)) l
  else skipn (Z.to_nat start) l.


(** [d.get(k)] *)
Fixpoint dict_get (k : string) (d : dict) : option string :=
  match d with
  | [] => None
  | (k', v) :: rest => if String.eqb k' k then Some v else dict_get k rest
  end.

(** The JSON answer of [POST /fetch]. *)
Record FetchAnswer : Type := mkFetchAnswer {
  fa_success : bool;
  fa_status_code : Z;
  fa_url : string;
  fa_final_url : string;
  fa_execution_time : Q;
  fa_size : Z;
  fa_content : string;
  fa_headers : dict;
  fa_error : option string
}.

(** The JSON answer of [GET /blocked/requests]; [recent_count] is left
    out when the file does not exist. *)
Record BlockedAnswer : Type := mkBlockedAnswer {
  ba_blocked_requests : list BlockedLog;
  ba_total : nat;
  ba_recent_count : option nat
}.

Module App.
Section Handlers.
Context `{!PyLib}.

(** [fetch_url], the handler of [POST /fetch]. *)
Definition fetch_url (proxy : Proxy) (request : FetchRequest)
    (api_key : string) : M (HTTPException + FetchAnswer) :=
  try_except
    (result ← fetch_url proxy request (Some api_key);
     if negb (success result) && truthy_opt (error result)
     then mret (inl {| http_status := status_code result;
                       detail := default "" (error result) |})
     else mret (inr {| fa_success := success result;
                       fa_status_code := status_code result;
                       fa_url := resp_url result;
                       fa_final_url := final_url result;
                       fa_execution_time := execution_time result;
                       fa_size := size result;
                       fa_content := content result;
                       fa_headers := resp_headers result;
                       fa_error := error result |}))
    (fun e =>
       logger (LogError ("Fetch request failed: " ++ str_exn e));;
       mret (inl {| http_status := 500; detail := str_exn e |})).

(** [get_blocked_requests], the handler of [GET /blocked/requests]. *)
Definition get_blocked_requests (limit : Z) : M (HTTPException + BlockedAnswer) :=
  try_except
    (fun w =>
       match w_blocked_file w with
       | FileAbsent =>
           (Ret (inr {| ba_blocked_requests := []; ba_total := 0;
                        ba_recent_count := None |}), w)
       | FileCorrupt => (Raise (Exception "Expecting value"), w)
       | FileEntries blocked_requests =>
           let recent_requests :=
             if limit <? Z.of_nat (length blocked_requests)
             then slice_from (- limit) blocked_requests
             else blocked_requests in
           (Ret (inr {| ba_blocked_requests := recent_requests;
                        ba_total := length blocked_requests;
                        ba_recent_count := Some (length recent_requests) |}),
            w)
       end)
    (fun e =>
       logger (LogError ("Failed to get blocked requests: " ++ str_exn e));;
       mret (inl {| http_status := 500; detail := str_exn e |})).

End Handlers.
End App.


(** ** Housekeeping of the intelligence directory *)




Module Housekeeping.
Section Directory.

(** [x.stat().st_mtime] of the file named [x] in the intelligence
    directory. *)
Variable st_mtime : string -> Q.











End Directory.
End Housekeeping.

(** ** The fetch path of the client plugin ([opencode_plugin.py])

    The plugin runs in the process of the client: it has a world of its
    own (clock, the [requests] library, a synchronous Redis client, the
    file [blocked_opencode_requests.json]) and the plugin object. *)

(** A JSON value; the values of [**kwargs] and the result dictionaries
    are of this kind. *)
#[warnings="-register-all"] Inductive Json : Type :=
  | JNull
  | JBool (b : bool)
  | JNum (q : Q)
  | JStr (s : string)
  | JList (items : list Json)
  | JDict (entries : list (string * Json)).

(** Truthiness of a value. *)
Definition json_truthy (v : Json) : bool :=
  match v with
  | JNull => false
  | JBool b => b
  | JNum q => negb (Qeq_bool q 0)
  | JStr s => truthy s
  | JList items => match items with [] => false | _ => true end
  | JDict entries => match entries with [] => false | _ => true end
  end.

(** [d.get(k)] on the entries of a dictionary. *)
Fixpoint kw_get (k : string) (d : list (string * Json)) : option Json :=
  match d with
  | [] => None
  | (k', v) :: rest => if String.eqb k' k then Some v else kw_get k rest
  end.

(** [k in d] *)
Definition kw_mem (k : string) (d : list (string * Json)) : bool :=
  match kw_get k d with Some _ => true | None => false end.

(** Library functions of the client whose results it only passes along. *)
Class ClientLib : Type := {
  (** [json.dumps(v)] *)
  json_dumps_value : Json -> string;
  (** [json.loads(s)] and [response.json()] *)
  json_loads_value : string -> exn + Json;
  (** [str(sorted(kwargs.items()))] *)
  str_sorted_kwargs : list (string * Json) -> string
}.

Module Client.

(** A call of the [requests] library that reached the network: the
    method handed to [requests.request] (["get"] and ["post"] for the
    functions of these names), the URL and the keywords. *)
Record RequestsCall : Type := mkRequestsCall {
  rc_method : string;
  rc_url : string;
  rc_keywords : list (string * Json)
}.

(** What the client cannot control, by the number of interactions made so
    far. *)
Record ClientEnv : Type := mkClientEnv {
  ce_time : nat -> Q;
  ce_now : nat -> DateTime;
  ce_answer : nat -> RequestsCall -> NetOutcome;
  ce_redis_fault : nat -> option exn;
  ce_fs_fault : nat -> bool
}.

(** An entry of [self.blocked_requests]. *)
Record MemoryEntry : Type := mkMemoryEntry {
  me_timestamp : Q;
  me_url : string;
  me_reason : string;
  me_kwargs : list (string * Json)
}.

(** An entry of [blocked_opencode_requests.json]. *)
Record FileEntry : Type := mkFileEntry {
  fe_timestamp : DateTime;
  fe_url : string;
  fe_reason : string;
  fe_kwargs : list (string * Json)
}.

(** [blocked_opencode_requests.json]: missing, not parseable, or a list. *)
Inductive ClientFile : Type :=
  | ClientFileAbsent
  | ClientFileCorrupt
  | ClientFileEntries (entries : list FileEntry).

(** The entries of the plugin's [config] that the fetch path reads. *)
Record ClientConfig : Type := mkClientConfig {
  (** [security] *)
  security : Plugin.PluginConfig;
  (** [caching.enabled], default [True] *)
  caching_enabled : bool
}.

(** The attributes of [OpenCodeWebFetchPlugin]. *)
Record PluginObject : Type := mkPluginObject {
  config : ClientConfig;
  enabled : bool;
  proxy_url : string;
  api_key : option string;
  fallback_enabled : bool;
  request_count : Z;
  cache_hits : Z;
  blocked_requests : list MemoryEntry
}.

(** The plugin object and the world of its process. *)
Record Machine : Type := mkMachine {
  m_env : ClientEnv;
  m_step : nat;
  m_redis : gmap string string;
  m_file : ClientFile;
  m_log : list LogRecord;
  m_sent : list RequestsCall;
  m_self : PluginObject
}.

Definition set_step (n : nat) (m : Machine) : Machine :=
  mkMachine (m_env m) n (m_redis m) (m_file m) (m_log m) (m_sent m) (m_self m).

Definition set_redis (db : gmap string string) (m : Machine) : Machine :=
  mkMachine (m_env m) (m_step m) db (m_file m) (m_log m) (m_sent m) (m_self m).

Definition set_file (f : ClientFile) (m : Machine) : Machine :=
  mkMachine (m_env m) (m_step m) (m_redis m) f (m_log m) (m_sent m) (m_self m).

Definition set_log (l : list LogRecord) (m : Machine) : Machine :=
  mkMachine (m_env m) (m_step m) (m_redis m) (m_file m) l (m_sent m) (m_self m).

Definition set_sent (l : list RequestsCall) (m : Machine) : Machine :=
  mkMachine (m_env m) (m_step m) (m_redis m) (m_file m) (m_log m) l (m_self m).

Definition set_self (p : PluginObject) (m : Machine) : Machine :=
  mkMachine (m_env m) (m_step m) (m_redis m) (m_file m) (m_log m) (m_sent m) p.

(** Computations of the client. *)
Definition C (A : Type) : Type := Machine -> Outcome A * Machine.

#[global] Instance C_ret : MRet C := fun A a m => (Ret a, m).

#[global] Instance C_bind : MBind C := fun A B f c m =>
  match c m with
  | (Ret a, m') => f a m'
  | (Raise e, m') => (Raise e, m')
  end.

Definition raise {A : Type} (e : exn) : C A := fun m => (Raise e, m).

Definition try_except {A : Type} (body : C A) (handler : exn -> C A) : C A :=
  fun m =>
    match body m with
    | (Ret a, m') => (Ret a, m')
    | (Raise e, m') => handler e m'
    end.

(** [if c: body] for a statement. *)
Definition when (c : bool) (body : C unit) : C unit :=
  if c then body else mret tt.

(** [c] never raises. *)
Definition returns {A : Type} (c : C A) : Prop :=
  forall m, exists a m', c m = (Ret a, m').

(** [c] leaves the part [view] of the machine as it found it, whether it
    returns or raises. *)
Definition keeps {X A : Type} (view : Machine -> X) (c : C A) : Prop :=
  forall m, view (c m).2 = view m.

(** [c] sends at most [r] requests when it returns and at most [e] when
    it raises. *)
Definition sends_at_most {A : Type} (r e : nat) (c : C A) : Prop :=
  forall m, exists extra,
    m_sent (c m).2 = (m_sent m ++ extra)%list
    /\ (length extra <= match (c m).1 with Ret _ => r | Raise _ => e end)%nat.

(** [time.time()] *)
Definition time_time : C Q :=
  fun m => (Ret (ce_time (m_env m) (m_step m)), set_step (S (m_step m)) m).

(** [time.strftime("%Y-%m-%d %H:%M:%S")], kept as the fields of the local
    time. *)
Definition time_strftime : C DateTime :=
  fun m => (Ret (ce_now (m_env m) (m_step m)), set_step (S (m_step m)) m).

(** [logger.info], [logger.warning], [logger.error]; the records of
    [logger.debug] are below the configured level and are dropped. *)
Definition logger (r : LogRecord) : C unit :=
  fun m => (Ret tt, set_log (m_log m ++ [r]) m).

(** The plugin object. *)
Definition self : C PluginObject := fun m => (Ret (m_self m), m).

(** The response of the peer, or its exception. *)
Record Response : Type := mkResponse {
  rs_status : Z;
  rs_text : string;
  rs_headers : dict
}.

Definition send (call : RequestsCall) : C Response :=
  fun m =>
    let m' := set_sent (m_sent m ++ [call]) (set_step (S (m_step m)) m) in
    match ce_answer (m_env m) (m_step m) call with
    | NetResponse status body hdrs _ =>
        (Ret {| rs_status := status; rs_text := body; rs_headers := hdrs |}, m')
    | NetRaise e => (Raise e, m')
    end.

(** The keywords that [Session.request] accepts. *)
Definition session_keywords : list string :=
  ["params"; "data"; "headers"; "cookies"; "files"; "auth"; "timeout";
   "allow_redirects"; "proxies"; "hooks"; "stream"; "verify"; "cert"; "json"].

(** [f(..., k1=v1, ..., **kwargs)]: the keywords as [f] receives them, or
    the [TypeError] of a keyword given twice. *)
Definition bind_keywords (f : string) (explicit kwargs : list (string * Json))
    : exn + list (string * Json) :=
  match find (fun kv => kw_mem kv.1 kwargs) explicit with
  | Some (k, _) =>
      inl (Exception (f ++ "() got multiple values for keyword argument '"
                      ++ k ++ "'"))
  | None => inr (explicit ++ kwargs)%list
  end.

(** [requests.request(method, url, **keywords)], which [requests.get] and
    [requests.post] call with their own method: a [method] or [url] among
    the keywords is given twice, and [Session.request] refuses a keyword
    it does not know. *)
Definition api_request (method url : string)
    (keywords : list (string * Json)) : C Response :=
  if kw_mem "method" keywords then
    raise (Exception "request() got multiple values for argument 'method'")
  else if kw_mem "url" keywords then
    raise (Exception "request() got multiple values for argument 'url'")
  else
    match find (fun kv => negb (existsb (String.eqb kv.1) session_keywords))
            keywords with
    | Some (k, _) =>
        raise (Exception ("Session.request() got an unexpected keyword argument '"
                          ++ k ++ "'"))
    | None => send {| rc_method := method; rc_url := url;
                      rc_keywords := keywords |}
    end.

(** A call [requests.f(url, k1=v1, ..., **kwargs)]. *)
Definition requests_call (f method url : string)
    (explicit kwargs : list (string * Json)) : C Response :=
  match bind_keywords f explicit kwargs with
  | inl e => raise e
  | inr keywords => api_request method url keywords
  end.

(** [r.get(key)] of the synchronous Redis client. *)
Definition redis_get (key : string) : C (option string) :=
  fun m =>
    let m' := set_step (S (m_step m)) m in
    match ce_redis_fault (m_env m) (m_step m) with
    | Some e => (Raise e, m')
    | None => (Ret (m_redis m !! key), m')
    end.

(** [r.setex(key, ttl, value)] *)
Definition redis_setex (key : string) (ttl : Z) (value : string) : C unit :=
  fun m =>
    let m' := set_step (S (m_step m)) m in
    match ce_redis_fault (m_env m) (m_step m) with
    | Some e => (Raise e, m')
    | None => (Ret tt, set_redis (<[key := value]> (m_redis m)) m')
    end.

Section Plugin.
Context `{!PyLib} `{!ClientLib}.

(** [OpenCodeWebFetchPlugin._is_proxy_available] *)
Definition _is_proxy_available : C bool :=
  try_except
    (plugin ← self;
     let health_url := proxy_url plugin ++ "/health" in
     response ← requests_call "requests.api.get" "get" health_url
                  [("timeout", JNum 2)] [];
     mret (rs_status response =? 200))
    (fun e => mret false).

(** [OpenCodeWebFetchPlugin._generate_cache_key] *)
Definition _generate_cache_key (url : string) (kwargs : list (string * Json))
    : string :=
  let content := url ++ ":" ++ str_sorted_kwargs kwargs in
  str_take 16 (md5_hexdigest content).

(** [OpenCodeWebFetchPlugin._get_cached_result] *)
Definition _get_cached_result (cache_key : string) : C (option Json) :=
  plugin ← self;
  if negb (caching_enabled (config plugin)) then mret None
  else
    try_except
      (cached ← redis_get ("webfetch:" ++ cache_key);
       match cached with
       | None | Some "" => mret None
       | Some text =>
           match json_loads_value text with
           | inr v => mret (Some v)
           | inl e => raise e
           end
       end)
      (fun e => mret None).

(** [OpenCodeWebFetchPlugin._cache_result], called with the default
    [ttl=3600] *)
Definition _cache_result (cache_key : string) (result : Json) : C unit :=
  plugin ← self;
  if negb (caching_enabled (config plugin)) then mret tt
  else
    try_except
      (redis_setex ("webfetch:" ++ cache_key) 3600 (json_dumps_value result))
      (fun e => mret tt).

(** [self.blocked_requests.append(entry)] *)
Definition remember_blocked (entry : MemoryEntry) : C unit :=
  fun m =>
    let plugin := m_self m in
    (Ret tt,
     set_self
       {| config := config plugin; enabled := enabled plugin;
          proxy_url := proxy_url plugin; api_key := api_key plugin;
          fallback_enabled := fallback_enabled plugin;
          request_count := request_count plugin;
          cache_hits := cache_hits plugin;
          blocked_requests := (blocked_requests plugin ++ [entry])%list |} m).

(** [blocked_data = []], replaced by [json.load(f)] when the file
    exists. *)
Definition read_blocked_file : C (list FileEntry) :=
  fun m =>
    match m_file m with
    | ClientFileAbsent => (Ret [], m)
    | ClientFileEntries entries => (Ret entries, m)
    | ClientFileCorrupt => (Raise (Exception "Expecting value"), m)
    end.

(** [with open(blocked_file, "w") as f: json.dump(blocked_data, f)] *)
Definition write_blocked_file (entries : list FileEntry) : C unit :=
  fun m =>
    let m' := set_step (S (m_step m)) m in
    if ce_fs_fault (m_env m) (m_step m)
    then (Raise (Exception "Permission denied"), m')
    else (Ret tt, set_file (ClientFileEntries entries) m').

(** [OpenCodeWebFetchPlugin._log_blocked_request] *)
Definition _log_blocked_request (url : string) (kwargs : list (string * Json))
    (reason : string) : C unit :=
  now ← time_time;
  remember_blocked {| me_timestamp := now; me_url := url; me_reason := reason;
                      me_kwargs := kwargs |};;
  try_except
    (blocked_data ← read_blocked_file;
     stamp ← time_strftime;
     let blocked_data :=
       (blocked_data ++ [{| fe_timestamp := stamp; fe_url := url;
                            fe_reason := reason; fe_kwargs := kwargs |}])%list in
     let blocked_data := slice_from (-1000) blocked_data in
     write_blocked_file blocked_data)
    (fun e => logger (LogError ("Failed to log blocked request: " ++ str_exn e))).

(** [method.upper()]: an [AttributeError] unless [method] is a string. *)
Definition upper_of (method : Json) : C string :=
  match method with
  | JStr s => mret (str_upper s)
  | _ => raise (Exception "object has no attribute 'upper'")
  end.

(** [OpenCodeWebFetchPlugin._direct_fetch] *)
Definition _direct_fetch (url : string) (kwargs : list (string * Json))
    : C Json :=
  try_except
    (start_time ← time_time;
     let timeout := default (JNum 30) (kw_get "timeout" kwargs) in
     let headers := default (JDict []) (kw_get "headers" kwargs) in
     let method := default (JStr "GET") (kw_get "method" kwargs) in
     let data := default JNull (kw_get "data" kwargs) in
     let json_data := default JNull (kw_get "json" kwargs) in
     upper ← upper_of method;
     response ←
       (if String.eqb upper "GET" then
          requests_call "requests.api.get" "get" url
            [("headers", headers); ("timeout", timeout)] kwargs
        else if json_truthy json_data then
          requests_call "requests.api.post" "post" url
            [("json", json_data); ("headers", headers); ("timeout", timeout)]
            kwargs
        else
          requests_call "requests.api.request"
            (match method with JStr s => s | _ => "" end) url
            [("data", data); ("headers", headers); ("timeout", timeout)]
            kwargs);
     t ← time_time;
     mret (JDict [("success", JBool (rs_status response <? 400));
                  ("status_code", JNum (inject_Z (rs_status response)));
                  ("content", JStr (rs_text response));
                  ("headers",
                   JDict (map (fun kv => (kv.1, JStr kv.2))
                            (rs_headers response)));
                  ("url", JStr url);
                  ("execution_time", JNum (t - start_time));
                  ("cached", JBool false);
                  ("direct", JBool true)]))
    (fun e =>
       mret (JDict [("success", JBool false); ("error", JStr (str_exn e));
                    ("url", JStr url); ("direct", JBool true)])).

(** [kwargs.get("timeout", 30) + 5] *)
Definition plus_five (timeout : Json) : C Json :=
  match timeout with
  | JNum q => mret (JNum (q + 5))
  | JBool b => mret (JNum ((if b then 1 else 0) + 5))
  | _ => raise (Exception "unsupported operand type(s) for +")
  end.

(** [result.get("success")]: an [AttributeError] unless [result] is a
    dictionary. *)
Definition get_success (result : Json) : C bool :=
  match result with
  | JDict entries =>
      mret (match kw_get "success" entries with
            | Some v => json_truthy v
            | None => false
            end)
  | _ => raise (Exception "object has no attribute 'get'")
  end.

(** The two places of [_proxy_fetch] that leave the proxy aside. *)
Definition fall_back (url : string) (kwargs : list (string * Json))
    (error_msg : string) : C Json :=
  plugin ← self;
  if fallback_enabled plugin then _direct_fetch url kwargs
  else mret (JDict [("success", JBool false); ("error", JStr error_msg);
                    ("url", JStr url)]).

(** [OpenCodeWebFetchPlugin._proxy_fetch] *)
Definition _proxy_fetch (url cache_key : string)
    (kwargs : list (string * Json)) : C Json :=
  try_except
    (plugin ← self;
     let proxy_data :=
       [("url", JStr url);
        ("method", default (JStr "GET") (kw_get "method" kwargs));
        ("timeout", default (JNum 30) (kw_get "timeout" kwargs));
        ("cache_enabled", JBool true);
        ("intelligence_tags", JList [JStr "opencode"; JStr "plugin"])] in
     let proxy_data :=
       match kw_get "headers" kwargs with
       | Some h => (proxy_data ++ [("headers", h)])%list
       | None => proxy_data
       end in
     let proxy_data :=
       match kw_get "data" kwargs with
       | Some d => (proxy_data ++ [("data", d)])%list
       | None =>
           match kw_get "json" kwargs with
           | Some j => (proxy_data ++ [("data", JStr (json_dumps_value j))])%list
           | None => proxy_data
           end
       end in
     let headers := [("Content-Type", JStr "application/json")] in
     let headers :=
       if truthy_opt (api_key plugin)
       then (headers ++ [("Authorization",
                          JStr ("Bearer " ++ default "" (api_key plugin)))])%list
       else headers in
     timeout ← plus_five (default (JNum 30) (kw_get "timeout" kwargs));
     response ← requests_call "requests.api.post" "post"
                  (proxy_url plugin ++ "/fetch")
                  [("json", JDict proxy_data); ("headers", JDict headers);
                   ("timeout", timeout)] [];
     if rs_status response =? 200 then
       match json_loads_value (rs_text response) with
       | inl e => raise e
       | inr result =>
           succeeded ← get_success result;
           when succeeded (_cache_result cache_key result);;
           mret result
       end
     else
       let error_msg := "Proxy request failed: " ++ str_int (rs_status response) in
       logger (LogWarning error_msg);;
       fall_back url kwargs error_msg)
    (fun e =>
       let error_msg := "Proxy fetch error: " ++ str_exn e in
       logger (LogWarning (error_msg ++ " for " ++ url));;
       fall_back url kwargs error_msg).

(** [self.request_count += 1] *)
Definition count_request : C unit :=
  fun m =>
    let plugin := m_self m in
    (Ret tt,
     set_self
       {| config := config plugin; enabled := enabled plugin;
          proxy_url := proxy_url plugin; api_key := api_key plugin;
          fallback_enabled := fallback_enabled plugin;
          request_count := request_count plugin + 1;
          cache_hits := cache_hits plugin;
          blocked_requests := blocked_requests plugin |} m).

(** [self.cache_hits += 1] *)
Definition count_cache_hit : C unit :=
  fun m =>
    let plugin := m_self m in
    (Ret tt,
     set_self
       {| config := config plugin; enabled := enabled plugin;
          proxy_url := proxy_url plugin; api_key := api_key plugin;
          fallback_enabled := fallback_enabled plugin;
          request_count := request_count plugin;
          cache_hits := cache_hits plugin + 1;
          blocked_requests := blocked_requests plugin |} m).

(** [OpenCodeWebFetchPlugin.webfetch] *)
Definition webfetch (url : string) (kwargs : list (string * Json)) : C Json :=
  plugin ← self;
  if negb (enabled plugin) then _direct_fetch url kwargs
  else
    count_request;;
    available ← _is_proxy_available;
    if negb available then
      if fallback_enabled plugin then
        logger (LogInfo ("Proxy unavailable, using direct fetch for " ++ url));;
        _direct_fetch url kwargs
      else
        mret (JDict [("success", JBool false);
                     ("error", JStr "Proxy unavailable and fallback disabled");
                     ("url", JStr url)])
    else if negb (Plugin._is_domain_allowed (security (config plugin)) url) then
      _log_blocked_request url kwargs "Domain not allowed";;
      mret (JDict [("success", JBool false);
                   ("error", JStr "Domain blocked by security policy");
                   ("url", JStr url); ("blocked", JBool true)])
    else
      let cache_key := _generate_cache_key url kwargs in
      cached_result ← _get_cached_result cache_key;
      match cached_result with
      | Some result =>
          if json_truthy result then
            count_cache_hit;;
            logger (LogInfo ("Cache hit for " ++ url));;
            mret result
          else _proxy_fetch url cache_key kwargs
      | None => _proxy_fetch url cache_key kwargs
      end.

(** [OpenCodeWebFetchPlugin.get_blocked_requests] *)
Definition get_blocked_requests (limit : Z) : C (list MemoryEntry) :=
  plugin ← self;
  mret (slice_from (- limit) (blocked_requests plugin)).

End Plugin.

(** The request of the health check of [plugin]. *)
Definition health_call (plugin : PluginObject) : RequestsCall :=
  {| rc_method := "get"; rc_url := proxy_url plugin ++ "/health";
     rc_keywords := [("timeout", JNum 2)] |}.

(** Keywords that [_direct_fetch] can pass on: none of those it sets
    itself, no [method], and only keywords that [Session.request]
    knows. *)
Definition passable (kwargs : list (string * Json)) : bool :=
  negb (kw_mem "headers" kwargs) && negb (kw_mem "timeout" kwargs)
  && negb (kw_mem "method" kwargs) && negb (kw_mem "url" kwargs)
  && forallb (fun kv => existsb (String.eqb kv.1) session_keywords) kwargs.
End Client.

(** ** Further example inputs *)

(** The entry written for a refused request to [u]. *)
Definition refusal_of (u : string) : BlockedLog :=
  {| bl_timestamp := noon; bl_url := u; bl_method := "GET";
     bl_reason := "DOMAIN_BLOCKED";
     bl_details := "Domain blocked by security policy";
     bl_headers := []; bl_user_agent := None; bl_tags := [] |}.

Definition three_refusals : list BlockedLog :=
  [refusal_of "http://a.example/"; refusal_of "http://b.example/";
   refusal_of "http://c.example/"].

(** A world whose file of refused requests holds three entries. *)
Definition world_with_refusals : World :=
  with_blocked_file (FileEntries three_refusals)
    (fresh_world (quiet_env ok_answer) ∅).

(** A Redis database with an entry of another application. *)
Definition foreign_db : gmap string RVal := {[ "session:42" := RStr "alice" ]}.

(** A clock that reads 100 s at the first reading and 101 s from then
    on. *)
Definition steady_clock (n : nat) : Q :=
  match n with
  | O => 100
  | S _ => 101
  end.

(** Two records of the same URL stamped in the same second. *)
Definition first_record : IntelligenceRecord :=
  {| ir_url := "http://example.com/"; ir_timestamp := noon;
     ir_content := "first"; ir_status_code := 200; ir_headers := [];
     ir_execution_time := 1; ir_size := 5; ir_method := "GET";
     ir_hash := "h1"; ir_tags := [] |}.

Definition second_record : IntelligenceRecord :=
  {| ir_url := "http://example.com/"; ir_timestamp := noon;
     ir_content := "second"; ir_status_code := 200; ir_headers := [];
     ir_execution_time := 1; ir_size := 6; ir_method := "GET";
     ir_hash := "h2"; ir_tags := [] |}.

(** ** A library instance and inputs for the examples of the client *)

(** [json.dumps(v)] for numbers with an integral value and strings that
    need no escaping. *)
Fixpoint py_json_value (v : Json) : string :=
  match v with
  | JNull => "null"
  | JBool b => if b then "true" else "false"
  | JNum q => py_str_int (int_of_Q q)
  | JStr s => json_str s
  | JList items => "[" ++ String.concat ", " (map py_json_value items) ++ "]"
  | JDict entries =>
      "{"
      ++ String.concat ", "
           (map (fun entry =>
                   match entry with
                   | (k, x) => json_str k ++ ": " ++ py_json_value x
                   end) entries)
      ++ "}"
  end.

(** [repr(v)], under the same restrictions. *)
Fixpoint py_repr_value (v : Json) : string :=
  match v with
  | JNull => "None"
  | JBool b => if b then "True" else "False"
  | JNum q => py_str_int (int_of_Q q)
  | JStr s => py_repr s
  | JList items => "[" ++ String.concat ", " (map py_repr_value items) ++ "]"
  | JDict entries =>
      "{"
      ++ String.concat ", "
           (map (fun entry =>
                   match entry with
                   | (k, x) => py_repr k ++ ": " ++ py_repr_value x
                   end) entries)
      ++ "}"
  end.

Fixpoint insert_keyword (item : string * Json) (items : list (string * Json))
    : list (string * Json) :=
  match items with
  | [] => [item]
  | item' :: rest =>
      if String.leb (fst item) (fst item') then item :: items
      else item' :: insert_keyword item rest
  end.

(** [str(sorted(kwargs.items()))] *)
Definition py_str_sorted_kwargs (kwargs : list (string * Json)) : string :=
  "["
  ++ String.concat ", "
       (map (fun item => "(" ++ py_repr (fst item) ++ ", "
                         ++ py_repr_value (snd item) ++ ")")
          (fold_right insert_keyword [] kwargs))
  ++ "]".

(** A result as the proxy answers it. *)
Definition proxy_answer : Json :=
  JDict [("success", JBool true); ("status_code", JNum 200);
         ("content", JStr "hello")].

(** Decoding, for the one payload of the examples; every other text is
    taken as undecodable. *)
Definition py_json_loads_value (s : string) : exn + Json :=
  if String.eqb s (py_json_value proxy_answer) then inr proxy_answer
  else inl (Exception "Expecting value").

Definition client_lib : ClientLib := {|
  json_dumps_value := py_json_value;
  json_loads_value := py_json_loads_value;
  str_sorted_kwargs := py_str_sorted_kwargs
|}.

(** An environment of the client without faults in which every request
    gets [answer]. *)
Definition client_env (answer : NetOutcome) : Client.ClientEnv :=
  {| Client.ce_time := fun n => inject_Z (100 + Z.of_nat n);
     Client.ce_now := fun _ => noon;
     Client.ce_answer := fun _ _ => answer;
     Client.ce_redis_fault := fun _ => None;
     Client.ce_fs_fault := fun _ => false |}.

(** The plugin after [enable()], with the block list of [plugin_config]. *)
Definition enabled_plugin : Client.PluginObject :=
  {| Client.config := {| Client.security := plugin_config;
                         Client.caching_enabled := true |};
     Client.enabled := true;
     Client.proxy_url := "http://localhost:8082";
     Client.api_key := Some "test-key";
     Client.fallback_enabled := true;
     Client.request_count := 0;
     Client.cache_hits := 0;
     Client.blocked_requests := [] |}.

(** A machine at its first interaction. *)
Definition client_machine (answer : NetOutcome) : Client.Machine :=
  {| Client.m_env := client_env answer; Client.m_step := 0;
     Client.m_redis := ∅; Client.m_file := Client.ClientFileAbsent;
     Client.m_log := []; Client.m_sent := []; Client.m_self := enabled_plugin |}.

(** Keywords with custom headers. *)
Definition header_keywords : list (string * Json) :=
  [("headers", JDict [("Accept", JStr "text/html")])].

(** * Properties *)

(** ** Strings *)

Lemma prefix_app (n h : string) :
  String.prefix n h = true <-> exists b, h = n ++ b.
Proof.
  revert h. induction n as [|c n IH]; intros h.
  - split; [intros _; by exists h | by destruct h].
  - destruct h as [|c' h]; simpl.
    + split; [discriminate | intros [b Hb]; discriminate].
    + destruct (Ascii.ascii_dec c c') as [->|Hne].
      * rewrite IH. split; intros [b Hb]; exists b; [by rewrite Hb | by injection Hb].
      * split; [discriminate | intros [b Hb]; injection Hb; intros; congruence].
Qed.

(** [str_in] is the substring test. *)
Lemma str_in_spec (n h : string) :
  str_in n h = true <-> exists a b, h = a ++ n ++ b.
Proof.
  induction h as [|c h IH]; cbn [str_in].
  - rewrite orb_false_r, prefix_app. split.
    + intros [b Hb]. by exists "", b.
    + intros [a [b Hab]]. destruct a; simpl in Hab; [by exists b | discriminate].
  - rewrite orb_true_iff, prefix_app, IH. split.
    + intros [[b Hb] | [a [b Hab]]].
      * by exists "", b.
      * exists (String c a), b. simpl. by rewrite Hab.
    + intros [a [b Hab]]. destruct a as [|c' a]; simpl in Hab.
      * left. by exists b.
      * right. injection Hab; intros. by exists a, b.
Qed.

(** ** Computations *)

Lemma bind_run {A B : Type} (m : M A) (f : A -> M B) (w : World) :
  (m ≫= f) w
  = match m w with
    | (Ret a, w') => f a w'
    | (Raise e, w') => (Raise e, w')
    end.
Proof. reflexivity. Qed.

Lemma returns_ret {A : Type} (a : A) : returns (mret a).
Proof. intros w. by exists a, w. Qed.

Lemma returns_bind {A B : Type} (m : M A) (f : A -> M B) :
  returns m -> (forall a, returns (f a)) -> returns (m ≫= f).
Proof.
  intros Hm Hf w. destruct (Hm w) as (a & w1 & Hrun).
  rewrite bind_run, Hrun. apply Hf.
Qed.

Lemma returns_try_except {A : Type} (body : M A) (handler : exn -> M A) :
  (forall e, returns (handler e)) -> returns (try_except body handler).
Proof.
  intros Hh w. unfold try_except.
  destruct (body w) as [[a|e] w1]; [by exists a, w1 | apply Hh].
Qed.

Lemma returns_when (c : bool) (body : M unit) :
  returns body -> returns (when c body).
Proof. destruct c; [done | intros _; apply returns_ret]. Qed.

Lemma returns_time_time : returns time_time.
Proof. intros w. by eexists _, _. Qed.

Lemma returns_datetime_now : returns datetime_now.
Proof. intros w. by eexists _, _. Qed.

Lemma returns_logger (r : LogRecord) : returns (logger r).
Proof. intros w. by eexists _, _. Qed.

Lemma returns_random_choice (seq : list string) : returns (random_choice seq).
Proof. intros w. by eexists _, _. Qed.

Lemma returns_net_request (call : NetCall) : returns (net_request call).
Proof. intros w. by eexists _, _. Qed.

Create HintDb returns discriminated.
#[local] Hint Resolve returns_ret returns_try_except returns_when
  returns_time_time returns_datetime_now returns_logger returns_random_choice
  returns_net_request : returns.
#[local] Hint Extern 2 (returns (_ ≫= _)) =>
  apply returns_bind; [|intros] : returns.

Lemma returns_display_request (request_id meth target status : string)
    (time_ms sz : Z) (cached : bool) (api_key : option string) :
  returns (display_request request_id meth target status time_ms sz cached api_key).
Proof. unfold display_request. auto with returns. Qed.
#[local] Hint Resolve returns_display_request : returns.

Section Returns.
Context `{!PyLib}.

Lemma returns_log_blocked_request (self : Proxy) (request : FetchRequest)
    (reason details : string) :
  returns (_log_blocked_request self request reason details).
Proof. unfold _log_blocked_request. auto with returns. Qed.

Lemma returns_get_cached_response (self : Proxy) (cache_key : string) :
  returns (_get_cached_response self cache_key).
Proof.
  unfold _get_cached_response. destruct (redis_client self); simpl;
    auto with returns.
Qed.

Lemma returns_cache_response (self : Proxy) (cache_key : string)
    (response : ProxyResponse) :
  returns (_cache_response self cache_key response).
Proof.
  unfold _cache_response. destruct (redis_client self); simpl;
    auto with returns.
Qed.

Lemma returns_fetch_url_prelude (self : Proxy) (request : FetchRequest)
    (api_key : option string) :
  returns (fetch_url_prelude self request api_key).
Proof. unfold fetch_url_prelude. auto 10 with returns. Qed.

Lemma returns_fetch_url_except (self : Proxy) (request : FetchRequest)
    (start_time : Q) (e : exn) :
  returns (fetch_url_except self request start_time e).
Proof.
  pose proof returns_log_blocked_request.
  destruct e; simpl; auto 10 with returns.
Qed.

Lemma returns_fetch_url (self : Proxy) (request : FetchRequest)
    (api_key : option string) :
  returns (fetch_url self request api_key).
Proof.
  unfold fetch_url. apply returns_bind; [apply returns_fetch_url_prelude|].
  intros started. apply returns_try_except, returns_fetch_url_except.
Qed.

Lemma returns_prepare_headers (self : Proxy) (request : FetchRequest) :
  returns (prepare_headers self request).
Proof.
  unfold prepare_headers. apply returns_bind; [|auto 10 with returns].
  destruct (truthy_opt _); [auto with returns|].
  destruct (negb _); [|auto with returns].
  destruct (user_agents _); auto 10 with returns.
Qed.
End Returns.

(** Running a primitive at the head of a computation. *)
Lemma bind_ret {A B : Type} (a : A) (f : A -> M B) (w : World) :
  (mret a ≫= f) w = f a w.
Proof. reflexivity. Qed.

Lemma bind_logger {B : Type} (r : LogRecord) (f : unit -> M B) (w : World) :
  (logger r ≫= f) w = f tt (with_log (w_log w ++ [r]) w).
Proof. reflexivity. Qed.

Lemma bind_time_time {B : Type} (f : Q -> M B) (w : World) :
  (time_time ≫= f) w
  = f (e_time (w_env w) (w_step w)) (with_step (S (w_step w)) w).
Proof. reflexivity. Qed.

Lemma bind_datetime_now {B : Type} (f : DateTime -> M B) (w : World) :
  (datetime_now ≫= f) w
  = f (e_now (w_env w) (w_step w)) (with_step (S (w_step w)) w).
Proof. reflexivity. Qed.

Lemma bind_returns {A B : Type} (m : M A) (f : A -> M B) (w : World) :
  returns m -> exists a w1, m w = (Ret a, w1) /\ (m ≫= f) w = f a w1.
Proof.
  intros Hm. destruct (Hm w) as (a & w1 & Hrun). exists a, w1.
  by rewrite bind_run, Hrun.
Qed.

Ltac run_head :=
  repeat first
    [ rewrite bind_ret | rewrite bind_logger | rewrite bind_time_time
    | rewrite bind_datetime_now ].

(** ** Frames: what a computation leaves alone *)

Create HintDb keeps discriminated.

Section Frame.
Context `{!PyLib} {X : Type} (view : World -> X).

Lemma keeps_ret {A : Type} (a : A) : keeps view (mret a).
Proof. by intros w. Qed.

Lemma keeps_raise {A : Type} (e : exn) : keeps view (raise (A := A) e).
Proof. by intros w. Qed.

Lemma keeps_bind {A B : Type} (m : M A) (f : A -> M B) :
  keeps view m -> (forall a, keeps view (f a)) -> keeps view (m ≫= f).
Proof.
  intros Hm Hf w. rewrite bind_run. specialize (Hm w).
  destruct (m w) as [[a|e] w1]; simpl in *; [by rewrite Hf | done].
Qed.

Lemma keeps_try_except {A : Type} (body : M A) (handler : exn -> M A) :
  keeps view body -> (forall e, keeps view (handler e)) ->
  keeps view (try_except body handler).
Proof.
  intros Hb Hh w. unfold try_except. specialize (Hb w).
  destruct (body w) as [[a|e] w1]; simpl in *; [done | by rewrite Hh].
Qed.

Lemma keeps_when (c : bool) (body : M unit) :
  keeps view body -> keeps view (when c body).
Proof. destruct c; [done | intros _; apply keeps_ret]. Qed.

Hypothesis view_step : forall n w, view (with_step n w) = view w.
Hypothesis view_log : forall l w, view (with_log l w) = view w.
Hypothesis view_blocked_file : forall f w, view (with_blocked_file f w) = view w.

Lemma keeps_time_time : keeps view time_time.
Proof. intros w. apply view_step. Qed.

Lemma keeps_datetime_now : keeps view datetime_now.
Proof. intros w. apply view_step. Qed.

Lemma keeps_logger (r : LogRecord) : keeps view (logger r).
Proof. intros w. apply view_log. Qed.

Lemma keeps_random_choice (seq : list string) : keeps view (random_choice seq).
Proof. intros w. apply view_step. Qed.

Lemma keeps_redis_get (key : string) : keeps view (redis_get key).
Proof.
  intros w. unfold redis_get.
  destruct (e_redis_fault _ _); apply view_step.
Qed.

Lemma keeps_write_blocked_file (entries : list BlockedLog) :
  keeps view (write_blocked_file entries).
Proof.
  intros w. unfold write_blocked_file. destruct (e_fs_fault _ _); simpl.
  - apply view_step.
  - by rewrite view_blocked_file, view_step.
Qed.

Lemma keeps_py_int (v : RVal) : keeps view (py_int v).
Proof. destruct v; [apply keeps_ret | apply keeps_raise]. Qed.

#[local] Hint Resolve keeps_ret keeps_raise keeps_try_except keeps_when
  keeps_time_time keeps_datetime_now keeps_logger keeps_random_choice
  keeps_redis_get keeps_write_blocked_file keeps_py_int : keeps.
#[local] Hint Extern 2 (keeps _ (_ ≫= _)) => apply keeps_bind; [|intros] : keeps.

Lemma keeps_display_request (request_id meth target status : string)
    (time_ms sz : Z) (cached : bool) (api_key : option string) :
  keeps view
    (display_request request_id meth target status time_ms sz cached api_key).
Proof. unfold display_request. auto with keeps. Qed.
#[local] Hint Resolve keeps_display_request : keeps.

Lemma keeps_log_blocked_request (self : Proxy) (request : FetchRequest)
    (reason details : string) :
  keeps view (_log_blocked_request self request reason details).
Proof.
  unfold _log_blocked_request.
  apply keeps_try_except; [|auto with keeps].
  do 2 (apply keeps_bind; [auto with keeps | intros]).
  apply keeps_bind; [by intros w | auto with keeps].
Qed.
#[local] Hint Resolve keeps_log_blocked_request : keeps.

Lemma keeps_fetch_url_prelude (self : Proxy) (request : FetchRequest)
    (api_key : option string) :
  keeps view (fetch_url_prelude self request api_key).
Proof. unfold fetch_url_prelude. auto 10 with keeps. Qed.

Lemma keeps_fetch_url_except (self : Proxy) (request : FetchRequest)
    (start_time : Q) (e : exn) :
  keeps view (fetch_url_except self request start_time e).
Proof. destruct e; simpl; auto 10 with keeps. Qed.

Lemma keeps_get_cached_response (self : Proxy) (cache_key : string) :
  keeps view (_get_cached_response self cache_key).
Proof.
  unfold _get_cached_response. destruct (redis_client self); simpl;
    [|auto with keeps].
  apply keeps_try_except; [|auto with keeps].
  apply keeps_bind; [auto with keeps|].
  intros [[n|[|c s]]|]; auto with keeps.
  destruct (json_loads _); auto with keeps.
Qed.

Lemma keeps_answer_from_cache (self : Proxy) (request : FetchRequest)
    (api_key : option string) (start_time : Q) (cache_key : string)
    (cached : ProxyResponse) :
  keeps view (answer_from_cache self request api_key start_time cache_key cached).
Proof. unfold answer_from_cache. auto 10 with keeps. Qed.

Lemma keeps_prepare_headers (self : Proxy) (request : FetchRequest) :
  keeps view (prepare_headers self request).
Proof.
  unfold prepare_headers. apply keeps_bind; [|auto 10 with keeps].
  destruct (truthy_opt _); [auto with keeps|].
  destruct (negb _); [|auto with keeps].
  destruct (user_agents _); auto 10 with keeps.
Qed.

(** Writes to the cache name space are invisible to [view]. *)
Hypothesis view_cache_write : forall key v w,
  view (with_redis (<["proxy_cache:" ++ key := v]> (w_redis w)) w) = view w.

Lemma keeps_cache_response (self : Proxy) (cache_key : string)
    (response : ProxyResponse) :
  keeps view (_cache_response self cache_key response).
Proof.
  unfold _cache_response. destruct (redis_client self); simpl;
    [|auto with keeps].
  apply keeps_try_except; [|auto with keeps].
  intros w. unfold redis_setex. destruct (e_redis_fault _ _); simpl.
  - apply view_step.
  - transitivity (view (with_step (S (w_step w)) w)); [|apply view_step].
    apply (view_cache_write cache_key (RStr (json_dumps response))
             (with_step (S (w_step w)) w)).
Qed.

(** The part of [fetch_url] after the rate-limit check, on a view that
    the outbound request does not affect. *)
Lemma keeps_after_rate_limit (self : Proxy) (request : FetchRequest)
    (api_key : option string) (start_time : Q) (request_id : string) :
  (forall l w, view (with_net l w) = view w) ->
  keeps view
    (cached_response ←
       (if cache_enabled request
        then _get_cached_response self (_generate_cache_key request)
        else mret None);
     match cached_response with
     | Some cached =>
         answer_from_cache self request api_key start_time
           (_generate_cache_key request) cached
     | None =>
         fetch_from_network self request api_key start_time request_id
           (_generate_cache_key request)
     end).
Proof.
  intros view_net.
  pose proof keeps_get_cached_response. pose proof keeps_answer_from_cache.
  pose proof keeps_prepare_headers. pose proof keeps_cache_response.
  apply keeps_bind; [destruct (cache_enabled request); auto with keeps|].
  intros [cached|]; [auto with keeps|].
  unfold fetch_from_network.
  apply keeps_bind; [auto with keeps|]. intros hdrs.
  apply keeps_bind; [by intros w; simpl; rewrite view_net, view_step|].
  intros [status body response_headers real_url|e]; auto 10 with keeps.
Qed.

(** Redis writes as a whole are invisible to [view]. *)
Hypothesis view_redis : forall db w, view (with_redis db w) = view w.

Lemma keeps_redis_pipeline_incr (k1 k2 : string) :
  keeps view (redis_pipeline_incr k1 k2).
Proof.
  intros w. unfold redis_pipeline_incr. destruct (e_redis_fault _ _); simpl.
  - apply view_step.
  - destruct (redis_incr k1 _) as [db1 ok1], (redis_incr k2 _) as [db2 ok2].
    destruct (ok1 && ok2); simpl; by rewrite view_redis, view_step.
Qed.

Lemma keeps_check_rate_limit (self : Proxy) (api_key : option string) :
  keeps view (_check_rate_limit self api_key).
Proof.
  pose proof keeps_redis_pipeline_incr.
  unfold _check_rate_limit. destruct (negb _); [auto with keeps|].
  apply keeps_bind; [auto with keeps|]. intros now.
  destruct (redis_client self); [|auto with keeps].
  do 3 (apply keeps_bind; [auto with keeps | intros]).
  destruct (60 <=? _); [auto with keeps|].
  apply keeps_bind; [auto with keeps | intros].
  destruct (1000 <=? _); auto with keeps.
Qed.

Lemma keeps_fetch_url_try (self : Proxy) (request : FetchRequest)
    (api_key : option string) (start_time : Q) (request_id : string) :
  (forall l w, view (with_net l w) = view w) ->
  keeps view (fetch_url_try self request api_key start_time request_id).
Proof.
  intros view_net. pose proof keeps_check_rate_limit.
  unfold fetch_url_try. destruct (negb _); [auto 10 with keeps|].
  apply keeps_bind; [auto with keeps|]. intros within_limit.
  destruct (negb within_limit); [auto 10 with keeps|].
  by apply keeps_after_rate_limit.
Qed.

Lemma keeps_fetch_url (self : Proxy) (request : FetchRequest)
    (api_key : option string) :
  (forall l w, view (with_net l w) = view w) ->
  keeps view (fetch_url self request api_key).
Proof.
  intros view_net. unfold fetch_url.
  apply keeps_bind; [apply keeps_fetch_url_prelude|]. intros started.
  apply keeps_try_except;
    [by apply keeps_fetch_url_try | apply keeps_fetch_url_except].
Qed.

End Frame.

(** ** The fetch executor *)

Section Fetch.
Context `{!PyLib}.

Ltac run_log_blocked :=
  match goal with
  | |- context [(_log_blocked_request ?s ?r ?a ?b ≫= ?f) ?w] =>
      let w1 := fresh "w" in
      destruct (bind_returns (_log_blocked_request s r a b) f w
                  (returns_log_blocked_request s r a b))
        as ([] & w1 & _ & ->)
  end.

Lemma unlogged_only_logged (w w' : World) :
  unlogged w' = unlogged w -> only_logged w w'.
Proof. unfold unlogged. intros [= ? ? ? ?]. by repeat split. Qed.

(** Lines 431-447 and 451-465 of [fetch_url]: a rejection is logged and
    answered with a failure response. *)
Lemma rejection_run (self : Proxy) (request : FetchRequest)
    (start_time : Q) (code : Z) (warning reason details body : string)
    (w : World) :
  exists elapsed w1,
    (logger (LogWarning warning);;
     _log_blocked_request self request reason details;;
     t ← time_time;
     mret (failure_response code body (url request) (t - start_time) details)) w
    = (Ret (failure_response code body (url request) elapsed details), w1)
    /\ only_logged w w1.
Proof.
  assert (Hk : keeps unlogged
    (logger (LogWarning warning);;
     _log_blocked_request self request reason details;;
     t ← time_time;
     mret (failure_response code body (url request) (t - start_time) details))).
  { repeat (apply keeps_bind; [|intros]);
      first [ by apply keeps_logger | by apply keeps_time_time
            | by apply keeps_ret | by apply keeps_log_blocked_request ]. }
  specialize (Hk w). revert Hk. run_head. run_log_blocked. run_head.
  intros Hk. eexists _, _. split; [reflexivity|].
  by apply unlogged_only_logged.
Qed.

(** A rejection by the domain policy: the [try] block answers 403. *)
Lemma fetch_url_try_domain_blocked (self : Proxy) (request : FetchRequest)
    (api_key : option string) (start_time : Q) (request_id : string) (w : World) :
  _is_domain_allowed self (url request) = false ->
  exists elapsed w1,
    fetch_url_try self request api_key start_time request_id w
    = (Ret (failure_response 403 "Domain not allowed" (url request) elapsed
              "Domain blocked by security policy"), w1)
    /\ only_logged w w1.
Proof.
  intros Hdom. unfold fetch_url_try. rewrite Hdom. cbn [negb].
  apply rejection_run.
Qed.

(** A rejection by the rate limiter: the [try] block answers 429. *)
Lemma fetch_url_try_rate_limited (self : Proxy) (request : FetchRequest)
    (api_key : option string) (start_time : Q) (request_id : string)
    (w w0 : World) :
  _is_domain_allowed self (url request) = true ->
  _check_rate_limit self api_key w = (Ret false, w0) ->
  exists elapsed w1,
    fetch_url_try self request api_key start_time request_id w
    = (Ret (failure_response 429 "Rate limit exceeded" (url request) elapsed
              "Rate limit exceeded"), w1)
    /\ only_logged w0 w1.
Proof.
  intros Hdom Hrate. unfold fetch_url_try. rewrite Hdom. cbn [negb].
  rewrite bind_run, Hrate. cbn [negb]. apply rejection_run.
Qed.

(** The handler of [asyncio.TimeoutError] answers 408. *)
Lemma fetch_url_except_timeout (self : Proxy) (request : FetchRequest)
    (start_time : Q) (msg : string) (w : World) :
  exists w1,
    fetch_url_except self request start_time (TimeoutError msg) w
    = (Ret (failure_response 408 "Request timeout" (url request)
              (inject_Z (timeout request)) "Request timeout"), w1).
Proof.
  cbn [fetch_url_except]. run_head.
  run_log_blocked.
  by eexists.
Qed.

(** The handler of any other exception answers 500 with its message. *)
Lemma fetch_url_except_error (self : Proxy) (request : FetchRequest)
    (start_time : Q) (msg : string) (w : World) :
  exists elapsed w1,
    fetch_url_except self request start_time (Exception msg) w
    = (Ret (failure_response 500 msg (url request) elapsed msg), w1).
Proof.
  cbn [fetch_url_except]. run_head.
  run_log_blocked.
  run_head. by eexists _, _.
Qed.


(** An exception out of the outbound request leaves the network block as
    it is. *)
Lemma fetch_from_network_raises (self : Proxy) (request : FetchRequest)
    (api_key : option string) (start_time : Q) (request_id cache_key : string)
    (w : World) :
  exists hdrs w1,
    prepare_headers self request w = (Ret hdrs, w1)
    /\ forall e,
         e_net (w_env w1) (w_step w1) (outbound_call request hdrs) = NetRaise e ->
         exists w2,
           fetch_from_network self request api_key start_time request_id
             cache_key w = (Raise e, w2).
Proof.
  destruct (returns_prepare_headers self request w) as (hdrs & w1 & Hprep).
  exists hdrs, w1. split; [done|]. intros e Hnet.
  unfold fetch_from_network. rewrite bind_run, Hprep, bind_run.
  cbn [net_request]. rewrite Hnet. by eexists.
Qed.

(** The domain filter refuses a URL whose lower-cased network location
    contains a blocked entry. *)
Lemma blocked_entry_refused (self : Proxy) (u netloc blocked : string) :
  urlparse_netloc u = Some netloc ->
  blocked ∈ blocked_domains self ->
  (exists a b, str_lower netloc = a ++ blocked ++ b) ->
  _is_domain_allowed self u = false.
Proof.
  intros Hparse Hin Hsub. unfold _is_domain_allowed. rewrite Hparse.
  assert (existsb (fun b => str_in b (str_lower netloc)) (blocked_domains self)
          = true) as ->; [|done].
  apply existsb_exists. exists blocked. split.
  - by apply list_elem_of_In.
  - by apply str_in_spec.
Qed.

(** C2: when the network location that the filter extracts from the URL
    (lower-cased, as the filter compares it) contains a configured
    blocked-domain entry as a substring, [fetch_url] returns a response
    with success false and status 403, and the list of outbound requests
    is the one it found, whatever the allow-list, the Redis content
    (cache and rate counters) and the rest of the world are. *)
Theorem blocked_host_gets_403 (self : Proxy) (request : FetchRequest)
    (api_key : option string) (w : World) (netloc blocked : string) :
  urlparse_netloc (url request) = Some netloc ->
  blocked ∈ blocked_domains self ->
  (exists a b, str_lower netloc = a ++ blocked ++ b) ->
  exists response w',
    fetch_url self request api_key w = (Ret response, w')
    /\ success response = false
    /\ status_code response = 403
    /\ w_net w' = w_net w.
Proof.
  intros Hparse Hin Hsub.
  pose proof (blocked_entry_refused self _ _ _ Hparse Hin Hsub) as Hdom.
  destruct (returns_fetch_url_prelude self request api_key w)
    as (started & w0 & Hpre).
  destruct (fetch_url_try_domain_blocked self request api_key started.1
              started.2 w0 Hdom) as (elapsed & w1 & Hrun & _ & _ & _ & Hnet1).
  exists (failure_response 403 "Domain not allowed" (url request) elapsed
            "Domain blocked by security policy"), w1.
  split; [|split; [done|split; [done|]]].
  - unfold fetch_url, try_except. by rewrite bind_run, Hpre, Hrun.
  - assert (Hk : keeps w_net (fetch_url_prelude self request api_key))
      by by apply keeps_fetch_url_prelude.
    specialize (Hk w). rewrite Hpre in Hk. simpl in Hk. congruence.
Qed.
End Fetch.

(** ** The succeeded flag *)

Section Succeeded.
Context `{!PyLib}.

Lemma compute_success_rule (allow : option (list Z)) (status : Z) :
  compute_success allow status
  = match allow with
    | None | Some [] => (200 <=? status) && (status <? 400)
    | Some codes => bool_decide (status ∈ codes)
    end.
Proof.
  destruct allow as [[|c codes]|]; try done.
  unfold compute_success. generalize (c :: codes). clear. intros codes.
  induction codes as [|c codes IH]; cbn [existsb].
  - symmetry. apply bool_decide_eq_false. by intros ?%elem_of_nil.
  - rewrite IH. destruct (Z.eqb_spec status c) as [->|Hne]; simpl.
    + symmetry. apply bool_decide_eq_true. by left.
    + apply bool_decide_ext. rewrite elem_of_cons. split; [by right | by intros [?|?]].
Qed.

(** A response returned by the network block carries the flag computed
    from its own status code. *)
Lemma fetch_from_network_success (self : Proxy) (request : FetchRequest)
    (api_key : option string) (start_time : Q) (request_id cache_key : string)
    (w w' : World) (response : ProxyResponse) :
  fetch_from_network self request api_key start_time request_id cache_key w
  = (Ret response, w') ->
  success response
  = compute_success (allow_status_codes request) (status_code response)
  /\ error response = None.
Proof.
  unfold fetch_from_network. intros Hrun.
  destruct (returns_prepare_headers self request w) as (hdrs & w1 & Hprep).
  rewrite bind_run, Hprep, bind_run in Hrun. cbn [net_request] in Hrun.
  destruct (e_net _ _ _) as [status body response_headers real_url|e];
    [|done].
  rewrite bind_time_time in Hrun.
  match type of Hrun with
  | (when ?c ?m ≫= ?f) ?w0 = _ =>
      destruct (bind_returns (when c m) f w0
                  (returns_when c m (returns_cache_response _ _ _)))
        as ([] & w2 & _ & Hstep)
  end.
  rewrite Hstep in Hrun. clear Hstep.
  match type of Hrun with
  | (when ?c ?m ≫= ?f) ?w0 = _ =>
      destruct (bind_returns (when c m) f w0
                  (returns_when c m (returns_display_request _ _ _ _ _ _ _ _)))
        as ([] & w3 & _ & Hstep)
  end.
  rewrite Hstep in Hrun. by injection Hrun as <- _.
Qed.

(** Where a response returned by the [try] block comes from: a rejection
    (with an error), the cache (no outbound request), or the network
    block. *)
Lemma fetch_url_try_origin (self : Proxy) (request : FetchRequest)
    (api_key : option string) (start_time : Q) (request_id : string)
    (w w' : World) (response : ProxyResponse) :
  fetch_url_try self request api_key start_time request_id w
  = (Ret response, w') ->
  is_Some (error response)
  \/ w_net w' = w_net w
  \/ success response
     = compute_success (allow_status_codes request) (status_code response).
Proof.
  intros Hrun.
  destruct (_is_domain_allowed self (url request)) eqn:Hdom.
  2:{ destruct (fetch_url_try_domain_blocked self request api_key start_time
                  request_id w Hdom) as (elapsed & w1 & Hblocked & _).
      rewrite Hblocked in Hrun. injection Hrun as <- _. left. by eexists. }
  destruct (_check_rate_limit self api_key w) as [[[]|e] w0] eqn:Hrate.
  3:{ unfold fetch_url_try in Hrun. rewrite Hdom in Hrun. cbn [negb] in Hrun.
      by rewrite bind_run, Hrate in Hrun. }
  2:{ destruct (fetch_url_try_rate_limited self request api_key start_time
                  request_id w w0 Hdom Hrate) as (elapsed & w1 & Hlimited & _).
      rewrite Hlimited in Hrun. injection Hrun as <- _. left. by eexists. }
  assert (Hnet0 : w_net w0 = w_net w).
  { assert (Hk : keeps w_net (_check_rate_limit self api_key))
      by by apply keeps_check_rate_limit.
    specialize (Hk w). by rewrite Hrate in Hk. }
  unfold fetch_url_try in Hrun. rewrite Hdom in Hrun. cbn [negb] in Hrun.
  rewrite bind_run, Hrate in Hrun. cbn [negb] in Hrun. rewrite bind_run in Hrun.
  destruct ((if cache_enabled request
             then _get_cached_response self (_generate_cache_key request)
             else mret None) w0) as [[[cached|]|e] w1] eqn:Hcache; [| |done].
  - right; left.
    assert (Hnet1 : w_net w1 = w_net w0).
    { assert (Hk : keeps w_net
        (if cache_enabled request
         then _get_cached_response self (_generate_cache_key request)
         else mret None)).
      { destruct (cache_enabled request);
          [by apply keeps_get_cached_response | apply keeps_ret]. }
      specialize (Hk w0). by rewrite Hcache in Hk. }
    assert (Hk : keeps w_net
      (answer_from_cache self request api_key start_time
         (_generate_cache_key request) cached))
      by by apply keeps_answer_from_cache.
    specialize (Hk w1). rewrite Hrun in Hk. simpl in Hk. congruence.
  - right; right. by eapply fetch_from_network_success.
Qed.

(** C5 (amended): a response that [fetch_url] returns without an error
    after issuing an outbound request is a completed network response;
    its success flag is [200 <= status_code < 400] when the request
    supplied no allow_status_codes or an empty list, and membership of
    the status code in the supplied list when that list is not empty. *)
Theorem succeeded_flag_of_network_response (self : Proxy)
    (request : FetchRequest) (api_key : option string) (w w' : World)
    (response : ProxyResponse) :
  fetch_url self request api_key w = (Ret response, w') ->
  error response = None ->
  w_net w' <> w_net w ->
  success response
  = match allow_status_codes request with
    | None | Some [] =>
        (200 <=? status_code response) && (status_code response <? 400)
    | Some codes => bool_decide (status_code response ∈ codes)
    end.
Proof.
  intros Hrun Herr Hnet. rewrite <- compute_success_rule.
  destruct (returns_fetch_url_prelude self request api_key w)
    as (started & w0 & Hpre).
  assert (Hnet0 : w_net w0 = w_net w).
  { assert (Hk : keeps w_net (fetch_url_prelude self request api_key))
      by by apply keeps_fetch_url_prelude.
    specialize (Hk w). by rewrite Hpre in Hk. }
  unfold fetch_url, try_except in Hrun. rewrite bind_run, Hpre in Hrun.
  destruct (fetch_url_try self request api_key started.1 started.2 w0)
    as [[r|[msg|msg]] w1] eqn:Htry.
  - injection Hrun as -> ->.
    destruct (fetch_url_try_origin _ _ _ _ _ _ _ _ Htry) as [[? Hsome]|[Hsame|Hflag]].
    + congruence.
    + congruence.
    + done.
  - destruct (fetch_url_except_timeout self request started.1 msg w1)
      as (w2 & Hhandler).
    rewrite Hhandler in Hrun. by injection Hrun as <- _.
  - destruct (fetch_url_except_error self request started.1 msg w1)
      as (elapsed & w2 & Hhandler).
    rewrite Hhandler in Hrun. by injection Hrun as <- _.
Qed.
End Succeeded.

(** ** Intelligence records *)

Section Intelligence.
Context `{!PyLib}.

(** [fetch_url] never touches the [webfetch_*.json] files. *)
Lemma fetch_url_keeps_intelligence (self : Proxy) (request : FetchRequest)
    (api_key : option string) :
  keeps w_intelligence (fetch_url self request api_key).
Proof. by apply keeps_fetch_url. Qed.

(** The recorder of the archived version never raises. *)
Lemma save_intelligence_returns (self : Proxy) (record : IntelligenceRecord) :
  returns (Archive._save_intelligence self record).
Proof. unfold Archive._save_intelligence. auto with returns. Qed.

(** The recorder of the archived version stores the record when recording
    is enabled and the file can be written. *)
Lemma save_intelligence_stores (self : Proxy) (record : IntelligenceRecord)
    (w : World) :
  intelligence_enabled (config self) = true ->
  e_fs_fault (w_env w) (w_step w) = false ->
  exists filename,
    w_intelligence (Archive._save_intelligence self record w).2
    = <[filename := record]> (w_intelligence w).
Proof.
  intros Hon Hfs. unfold Archive._save_intelligence, try_except.
  rewrite Hon. cbn [negb]. rewrite bind_run.
  unfold Archive.write_intelligence_file. rewrite Hfs. by eexists.
Qed.
End Intelligence.

(** ** Malformed URLs *)

(** C8 (amended): for a URL whose host extraction raises, the domain
    filter of the proxy server returns false (the URL is blocked), and the
    domain filter of the client plugin returns true (the URL is let
    through to the proxy). *)
Theorem malformed_url_policy `{!PyLib} (self : Proxy)
    (plugin : Plugin.PluginConfig) (u : string) :
  urlparse_netloc u = None ->
  _is_domain_allowed self u = false
  /\ Plugin._is_domain_allowed plugin u = true.
Proof.
  intros Hraise. unfold _is_domain_allowed, Plugin._is_domain_allowed.
  by rewrite Hraise.
Qed.

(** ** [GET /config] *)

(** Whenever the stored configuration has a ["security"] dictionary with
    an ["api_key"] entry, [get_config] overwrites that entry in the stored
    configuration itself: the copy shares the nested dictionary. *)
Lemma get_config_overwrites_stored_key (stored sec : positive)
    (h : ConfigEndpoint.heap) (d ds : gmap string ConfigEndpoint.pyval) :
  h !! stored = Some d ->
  d !! "security" = Some (ConfigEndpoint.VDict sec) ->
  h !! sec = Some ds ->
  is_Some (ds !! "api_key") ->
  ConfigEndpoint.stored_api_key stored (ConfigEndpoint.get_config stored h).2
  = Some (ConfigEndpoint.VStr "***REDACTED***").
Proof.
  intros Hstored Hsec Hds Hkey.
  unfold ConfigEndpoint.get_config, ConfigEndpoint.dict_copy.
  rewrite Hstored. cbn [mbind option_bind].
  set (c := fresh (dom h)).
  assert (Hc : h !! c = None) by (apply not_elem_of_dom, is_fresh).
  assert (c <> stored) by congruence. assert (c <> sec) by congruence.
  rewrite lookup_insert_eq. cbn [mbind option_bind]. rewrite Hsec.
  rewrite lookup_insert_ne, Hds by done.
  rewrite bool_decide_eq_true_2 by done. cbn [snd].
  unfold ConfigEndpoint.stored_api_key.
  destruct (decide (stored = sec)) as [->|Hne].
  - rewrite lookup_insert_eq. cbn [mbind option_bind].
    rewrite Hstored in Hds. injection Hds as <-.
    rewrite lookup_insert_ne, Hsec by discriminate. cbn [mbind option_bind].
    rewrite lookup_insert_eq. cbn [mbind option_bind].
    by rewrite lookup_insert_eq.
  - rewrite lookup_insert_ne, lookup_insert_ne, Hstored by done.
    cbn [mbind option_bind]. rewrite Hsec. cbn [mbind option_bind].
    rewrite lookup_insert_eq. cbn [mbind option_bind].
    by rewrite lookup_insert_eq.
Qed.

(** ** The bulk coordinator *)

(** [gather] never raises: it collects one outcome per task, at the
    position of the task. *)
Lemma gather_spec {A : Type} (tasks : list (M A)) (w : World) :
  exists outcomes w',
    gather tasks w = (Ret outcomes, w')
    /\ length outcomes = length tasks
    /\ forall (i : nat) (task : M A),
         tasks !! i = Some task ->
         outcomes !! i = Some (task (world_before tasks i w)).1.
Proof.
  revert w. induction tasks as [|task0 rest IH]; intros w.
  - exists [], w. by split_and!.
  - cbn [gather]. destruct (task0 w) as [outcome w1] eqn:Hrun.
    destruct (IH w1) as (outcomes & w2 & -> & Hlen & Hnth).
    exists (outcome :: outcomes), w2. split_and!; [done | by simpl; f_equal |].
    intros [|i] task Hlook; simpl in *.
    + injection Hlook as <-. by rewrite Hrun.
    + rewrite Hrun. by apply Hnth.
Qed.

(** The loop over the gathered outcomes never runs past the URL list when
    there are no more outcomes than URLs left. *)
Lemma process_results_spec (all_urls : list string) (i : nat)
    (outcomes : list (Outcome ProxyResponse)) (w : World) :
  (i + length outcomes <= length all_urls)%nat ->
  exists processed,
    process_results all_urls i outcomes w = (Ret processed, w)
    /\ length processed = length outcomes
    /\ forall (j : nat) (outcome : Outcome ProxyResponse),
         outcomes !! j = Some outcome ->
         exists u, all_urls !! (i + j)%nat = Some u
                   /\ processed !! j = Some (slot_result u outcome).
Proof.
  revert i. induction outcomes as [|outcome0 rest IH]; intros i Hlen.
  - exists []. by split_and!.
  - cbn [length] in Hlen.
    destruct (lookup_lt_is_Some_2 all_urls i) as [u0 Hu0]; [lia|].
    destruct (IH (S i)) as (others & Hrun & Hlen' & Hnth); [lia|].
    exists (slot_result u0 outcome0 :: others). split_and!.
    + cbn [process_results]. rewrite bind_run.
      destruct outcome0 as [response|e]; cbn [slot_result].
      * cbn [mret M_ret]. by rewrite bind_run, Hrun.
      * rewrite Hu0. cbn [mret M_ret]. by rewrite bind_run, Hrun.
    + by simpl; f_equal.
    + intros [|j] outcome Hlook; simpl in Hlook.
      * injection Hlook as <-. exists u0. by rewrite Nat.add_0_r.
      * destruct (Hnth j outcome Hlook) as (u & Hu & Hj).
        exists u. by rewrite Nat.add_succ_r.
Qed.


Section Endpoint.
Context `{!PyLib}.

(** [bulk_fetch] over any [fetch_url] method returns as many responses as
    it was given URLs. *)
Lemma bulk_fetch_with_length
    (fetch : FetchRequest -> option string -> M ProxyResponse)
    (bulk_request : BulkFetchRequest) (api_key : option string) (w : World) :
  exists processed w',
    bulk_fetch_with fetch bulk_request api_key w = (Ret processed, w')
    /\ length processed = length (urls bulk_request).
Proof.
  unfold bulk_fetch_with.
  destruct (gather_spec
              (map (fetch_with_semaphore fetch bulk_request api_key)
                 (urls bulk_request)) w)
    as (outcomes & w' & Hgather & Hlen & _).
  rewrite length_map in Hlen.
  destruct (process_results_spec (urls bulk_request) 0 outcomes w')
    as (processed & Hrun & Hplen & _); [lia|].
  exists processed, w'. split; [by rewrite bind_run, Hgather | congruence].
Qed.

Lemma returns_bulk_fetch (self : Proxy) (bulk_request : BulkFetchRequest)
    (api_key : option string) :
  returns (bulk_fetch self bulk_request api_key).
Proof.
  intros w.
  destruct (bulk_fetch_with_length (fetch_url self) bulk_request api_key w)
    as (processed & w' & Hrun & _).
  by exists processed, w'.
Qed.

(** The handler of [POST /fetch/bulk] runs [bulk_fetch] on the request,
    logs a summary of its results, runs [bulk_fetch] on the same request a
    second time in the world that the first run left, and answers with the
    results of the second run. *)
Lemma bulk_fetch_urls_runs_twice (proxy : Proxy) (request : BulkFetchRequest)
    (api_key : string) (w : World) :
  exists (started : World) (first second : list ProxyResponse)
         (w1 w2 w' : World) (answer : BulkAnswer),
    started
    = with_log (w_log w ++ [LogBanner (BulkHeader (length (urls request))
                                         (concurrent_limit request)
                                         (masked_key (Some api_key))
                                         (e_now (w_env w) (w_step w)))])
        (with_step (S (w_step w)) w)
    /\ bulk_fetch proxy request (Some api_key) started = (Ret first, w1)
    /\ bulk_fetch proxy request (Some api_key)
         (with_log (w_log w1 ++ [LogBanner (BulkComplete (count_successful first)
                                              (count_failed first)
                                              (length (urls request))
                                              (avg_time_ms first))]) w1)
       = (Ret second, w2)
    /\ bulk_fetch_urls proxy request api_key w = (Ret (inr answer), w')
    /\ successful answer = count_successful second
    /\ w_net w' = w_net w2.
Proof.
  unfold bulk_fetch_urls, try_except. rewrite bind_datetime_now, bind_logger.
  match goal with
  | |- context [(bulk_fetch ?p ?r ?k ≫= ?f) ?w0] =>
      destruct (bind_returns (bulk_fetch p r k) f w0 (returns_bulk_fetch p r k))
        as (first & w1 & Hfirst & ->)
  end.
  rewrite bind_logger.
  match goal with
  | |- context [(bulk_fetch ?p ?r ?k ≫= ?f) ?w0] =>
      destruct (bind_returns (bulk_fetch p r k) f w0 (returns_bulk_fetch p r k))
        as (second & w2 & Hsecond & ->)
  end.
  rewrite bind_logger. cbn [mret M_ret].
  eexists _, first, second, w1, w2, _, _. by split_and!.
Qed.
End Endpoint.

(** ** The rate limiter *)

Lemma same_minute_strftime (a b : DateTime) :
  same_minute a b ->
  strftime_minute a = strftime_minute b /\ strftime_hour a = strftime_hour b.
Proof.
  intros (Hy & Hm & Hd & Hh & Hmin). unfold strftime_minute, strftime_hour.
  by rewrite Hy, Hm, Hd, Hh, Hmin.
Qed.

Lemma append_length (s t : string) :
  String.length (s ++ t) = (String.length s + String.length t)%nat.
Proof. induction s as [|c s IH]; simpl; [done | by rewrite IH]. Qed.

(** The minute counter and the hour counter of a client are different
    keys. *)
Lemma minute_key_ne_hour_key (api_key : option string) (now : DateTime) :
  rate_key api_key (strftime_minute now) <> rate_key api_key (strftime_hour now).
Proof.
  unfold rate_key, strftime_minute. intros Heq.
  do 3 apply String.app_inj in Heq.
  apply (f_equal String.length) in Heq. rewrite append_length in Heq.
  simpl in Heq. lia.
Qed.

(** Rate counters and cache entries live under different keys. *)
Lemma rate_key_ne_cache_key (api_key : option string) (stamp key : string) :
  "proxy_cache:" ++ key <> rate_key api_key stamp.
Proof. unfold rate_key. simpl. discriminate. Qed.

Lemma bind_redis_get {B : Type} (key : string) (f : option RVal -> M B)
    (w : World) :
  e_redis_fault (w_env w) (w_step w) = None ->
  (redis_get key ≫= f) w = f (w_redis w !! key) (with_step (S (w_step w)) w).
Proof. intros Hok. rewrite bind_run. unfold redis_get. by rewrite Hok. Qed.

Lemma or_zero_counter (v : option RVal) :
  is_counter v -> or_zero v = RInt (count_of v).
Proof. by intros [->|(n & _ & ->)]. Qed.

Lemma incr_counter (key : string) (db : gmap string RVal) :
  is_counter (db !! key) ->
  redis_incr key db = (<[key := RInt (count_of (db !! key) + 1)]> db, true).
Proof.
  unfold redis_incr. by intros [->|(n & _ & ->)].
Qed.

Section RateLimiter.
Context `{!PyLib}.

(** What the rate-limit check does when it is switched on and a Redis
    client exists. *)
Lemma check_rate_limit_spec (self : Proxy) (api_key : option string)
    (w : World) (now : DateTime) :
  rate_limiting_enabled (config self) = true ->
  redis_client self = true ->
  no_redis_fault (w_env w) ->
  same_minute (e_now (w_env w) (w_step w)) now ->
  let minute_key := rate_key api_key (strftime_minute now) in
  let hour_key := rate_key api_key (strftime_hour now) in
  let m := count_of (w_redis w !! minute_key) in
  let h := count_of (w_redis w !! hour_key) in
  is_counter (w_redis w !! minute_key) ->
  is_counter (w_redis w !! hour_key) ->
  exists w',
    (if capped m h
     then _check_rate_limit self api_key w = (Ret false, w')
          /\ w_redis w' = w_redis w
     else _check_rate_limit self api_key w = (Ret true, w')
          /\ w_redis w'
             = <[hour_key := RInt (h + 1)]>
                 (<[minute_key := RInt (m + 1)]> (w_redis w)))
    /\ w_env w' = w_env w /\ w_net w' = w_net w.
Proof.
  intros Hon Hclient Hfault Hnow minute_key hour_key m h Hm Hh.
  destruct (same_minute_strftime _ _ Hnow) as [Hmk Hhk].
  unfold _check_rate_limit. rewrite Hon, Hclient. cbn [negb].
  rewrite bind_datetime_now, Hmk, Hhk. fold minute_key hour_key.
  rewrite bind_redis_get by apply Hfault.
  rewrite bind_redis_get by apply Hfault.
  cbn [w_redis with_step].
  rewrite !or_zero_counter by done. fold m h. cbn [py_int]. rewrite bind_ret.
  unfold capped. destruct (60 <=? m) eqn:Hcap60; cbn [orb].
  { eexists. split; [split; [reflexivity | done] | done]. }
  rewrite bind_ret. destruct (1000 <=? h) eqn:Hcap1000.
  { eexists. split; [split; [reflexivity | done] | done]. }
  rewrite bind_run. unfold redis_pipeline_incr. rewrite Hfault.
  cbn [w_redis with_step].
  rewrite incr_counter by done. fold m.
  rewrite incr_counter
    by (rewrite lookup_insert_ne by apply minute_key_ne_hour_key; done).
  rewrite lookup_insert_ne by apply minute_key_ne_hour_key. fold h.
  cbn [andb]. eexists. split; [split; [reflexivity | done] | done].
Qed.




End RateLimiter.

(** ** The cache *)

Section Cache.
Context `{!PyLib}.

(** The start time that [fetch_url] keeps is the clock at its entry. *)
Lemma fetch_url_prelude_start (self : Proxy) (request : FetchRequest)
    (api_key : option string) (w : World) :
  exists request_id w0,
    fetch_url_prelude self request api_key w
    = (Ret (e_time (w_env w) (w_step w), request_id), w0)
    /\ only_logged w w0.
Proof.
  assert (Hk : keeps unlogged (fetch_url_prelude self request api_key))
    by by apply keeps_fetch_url_prelude.
  specialize (Hk w). revert Hk. unfold fetch_url_prelude.
  rewrite !bind_time_time.
  match goal with
  | |- context [(when ?c ?m ≫= ?f) ?w0] =>
      destruct (bind_returns (when c m) f w0
                  (returns_when c m (returns_display_request _ _ _ _ _ _ _ _)))
        as ([] & w1 & _ & ->)
  end.
  intros Hk. eexists _, _. split; [reflexivity|].
  by apply unlogged_only_logged.
Qed.

(** When the rate limiter is open, the check accepts and leaves the
    cache entries as they are. *)
Lemma check_rate_limit_open (self : Proxy) (api_key : option string)
    (w : World) (now : DateTime) :
  redis_client self = true ->
  no_redis_fault (w_env w) ->
  rate_limit_open self api_key w now ->
  exists wc,
    _check_rate_limit self api_key w = (Ret true, wc)
    /\ w_env wc = w_env w /\ w_net wc = w_net w
    /\ forall key, w_redis wc !! ("proxy_cache:" ++ key)
                   = w_redis w !! ("proxy_cache:" ++ key).
Proof.
  intros Hclient Hfault [Hoff|(Hwithin & Hm & Hh & Hcap)].
  - exists w. unfold _check_rate_limit. by rewrite Hoff.
  - destruct (rate_limiting_enabled (config self)) eqn:Hon.
    2:{ exists w. unfold _check_rate_limit. by rewrite Hon. }
    destruct (check_rate_limit_spec self api_key w now)
      as (wc & Hcheck & Henv & Hnet); try done.
    rewrite Hcap in Hcheck. destruct Hcheck as [Hrun Hredis].
    exists wc. split_and!; try done.
    intros key. rewrite Hredis.
    by rewrite !lookup_insert_ne
      by (apply not_eq_sym, rate_key_ne_cache_key).
Qed.

(** A decodable entry under the key of the request is a cache hit. *)
Lemma get_cached_response_hit (self : Proxy) (cache_key payload : string)
    (cached : ProxyResponse) (w : World) :
  redis_client self = true ->
  e_redis_fault (w_env w) (w_step w) = None ->
  w_redis w !! ("proxy_cache:" ++ cache_key) = Some (RStr payload) ->
  payload <> "" ->
  json_loads payload = inr cached ->
  _get_cached_response self cache_key w
  = (Ret (Some cached), with_step (S (w_step w)) w).
Proof.
  intros Hclient Hfault Hentry Hpayload Hdecode.
  unfold _get_cached_response, try_except. rewrite Hclient. cbn [negb].
  rewrite bind_redis_get, Hentry by done.
  destruct payload as [|c payload]; [done|]. by rewrite Hdecode.
Qed.

(** The answer on a hit is the cached response with the elapsed time of
    this call: the clock at the return minus the start time. *)
Lemma answer_from_cache_run (self : Proxy) (request : FetchRequest)
    (api_key : option string) (start_time : Q) (cache_key : string)
    (cached : ProxyResponse) (w : World) :
  exists w',
    answer_from_cache self request api_key start_time cache_key cached w
    = (Ret (set_execution_time cached
              (e_time (w_env w') (pred (w_step w')) - start_time)), w')
    /\ w_env w' = w_env w /\ w_net w' = w_net w.
Proof.
  unfold answer_from_cache.
  destruct (show_requests (config self)); cbn [when].
  - unfold display_request. rewrite bind_run, bind_datetime_now.
    cbn [logger]. run_head. unfold mret, M_ret.
    match goal with |- exists w', (_, ?final) = _ /\ _ => by exists final end.
  - run_head. unfold mret, M_ret.
    match goal with |- exists w', (_, ?final) = _ /\ _ => by exists final end.
Qed.

(** C6 (amended): for a request with cache_enabled whose URL passes the
    domain policy, while the rate limiter lets the client through and
    Redis answers, if Redis holds a decodable entry under the request's
    fingerprint then [fetch_url] returns the stored response with its
    elapsed-time field set to the clock at the return minus the clock at
    the entry of this call, and issues no outbound request.  (The
    response record has no cache-hit field; see the counterexample.) *)
Theorem cache_hit_returns_stored_response (self : Proxy)
    (request : FetchRequest) (api_key : option string) (w : World)
    (now : DateTime) (payload : string) (cached : ProxyResponse) :
  cache_enabled request = true ->
  redis_client self = true ->
  no_redis_fault (w_env w) ->
  _is_domain_allowed self (url request) = true ->
  rate_limit_open self api_key w now ->
  w_redis w !! ("proxy_cache:" ++ _generate_cache_key request)
  = Some (RStr payload) ->
  payload <> "" ->
  json_loads payload = inr cached ->
  exists w',
    fetch_url self request api_key w
    = (Ret (set_execution_time cached
              (e_time (w_env w) (pred (w_step w'))
               - e_time (w_env w) (w_step w))), w')
    /\ w_net w' = w_net w.
Proof.
  intros Hcaching Hclient Hfault Hdom Hopen Hentry Hpayload Hdecode.
  destruct (fetch_url_prelude_start self request api_key w)
    as (request_id & w0 & Hpre & Henv0 & Hredis0 & _ & Hnet0).
  destruct (check_rate_limit_open self api_key w0 now)
    as (wc & Hcheck & Henvc & Hnetc & Hcachec); [done | by rewrite Henv0 | |].
  { destruct Hopen as [Hoff|(Hwithin & Hm & Hh & Hcap)]; [by left|right].
    rewrite Henv0, Hredis0. by split_and!. }
  destruct (answer_from_cache_run self request api_key
              (e_time (w_env w) (w_step w)) (_generate_cache_key request)
              cached (with_step (S (w_step wc)) wc))
    as (w' & Hanswer & Henv' & Hnet').
  exists w'. split.
  - unfold fetch_url, try_except. rewrite bind_run, Hpre. cbn [fst snd].
    unfold fetch_url_try. rewrite Hdom. cbn [negb].
    rewrite bind_run, Hcheck. cbn [negb]. rewrite Hcaching, bind_run.
    rewrite (get_cached_response_hit self _ payload cached wc); try done.
    + rewrite Hanswer. do 3 f_equal. cbn [w_env with_step] in Henv'. congruence.
    + rewrite Henvc, Henv0. apply Hfault.
    + by rewrite Hcachec, Hredis0.
  - cbn [w_net with_step] in Hnet'. congruence.
Qed.
End Cache.

(** * The program on concrete inputs *)

Section Examples.
#[local] Existing Instance py_lib.

(** Runs a closed computation and continues with its response and final
    world. *)
Ltac with_run run k :=
  let o := eval vm_compute in run in
  lazymatch o with
  | (Ret ?r, ?w) =>
      let Hrun := fresh "Hrun" in
      assert (Hrun : run = (Ret r, w)) by (vm_compute; reflexivity);
      k r w Hrun; clear Hrun
  end.

(** A timed-out outbound request is answered 408. *)
Example fetch_url_network_timeout :
  (fetch_url default_proxy example_request None
     (fresh_world (quiet_env (NetRaise (TimeoutError ""))) ∅)).1
  = Ret (failure_response 408 "Request timeout" "http://example.com/" 30
           "Request timeout").
Proof. vm_compute. reflexivity. Qed.

(** C2, witness: [http://EVIL.example.com:80/p] against a proxy that
    blocks [evil.example], although its allow-list names the host. *)
Lemma blocked_host_gets_403_witness :
  exists response w',
    fetch_url blocking_proxy evil_request None
      (fresh_world (quiet_env ok_answer) ∅) = (Ret response, w')
    /\ success response = false
    /\ status_code response = 403
    /\ w_net w' = w_net (fresh_world (quiet_env ok_answer) ∅).
Proof.
  apply (blocked_host_gets_403 blocking_proxy evil_request None _
           "EVIL.example.com:80" "evil.example").
  - reflexivity.
  - by left.
  - by exists "", ".com:80".
Defined.



(** C5, witness: a request with allow_status_codes [404] against a URL
    that answers 404 is a success. *)
Lemma succeeded_flag_witness :
  exists response w',
    fetch_url default_proxy existence_check None
      (fresh_world (quiet_env not_found_answer) ∅) = (Ret response, w')
    /\ status_code response = 404
    /\ success response = true.
Proof.
  with_run (fetch_url default_proxy existence_check None
              (fresh_world (quiet_env not_found_answer) ∅))
    ltac:(fun r w Hrun =>
      exists r, w; split; [exact Hrun|]; split; [reflexivity|];
      rewrite (succeeded_flag_of_network_response default_proxy
                 existence_check None _ _ _ Hrun)).
  - reflexivity.
  - reflexivity.
  - discriminate.
Defined.

(** C5, counterexample: a request that supplies the empty list as
    allow_status_codes, against a URL that answers 200: the code reports
    success, while membership of 200 in the supplied (empty) set is
    false. *)
Lemma empty_allow_list_uses_default_range :
  exists response w',
    fetch_url default_proxy empty_allow_request None
      (fresh_world (quiet_env ok_answer) ∅) = (Ret response, w')
    /\ status_code response = 200
    /\ success response = true
    /\ spec_succeeded (allow_status_codes empty_allow_request)
         (status_code response) = false.
Proof.
  with_run (fetch_url default_proxy empty_allow_request None
              (fresh_world (quiet_env ok_answer) ∅))
    ltac:(fun r w Hrun => exists r, w; split; [exact Hrun|]).
  vm_compute. repeat split; reflexivity.
Qed.

(** C6, witness: the default proxy with the response of
    [example_request] in its cache. *)
Lemma cache_hit_witness :
  exists w',
    fetch_url default_proxy example_request None
      (fresh_world (quiet_env ok_answer) warm_cache)
    = (Ret (set_execution_time hello_response
              (e_time (quiet_env ok_answer) (pred (w_step w'))
               - e_time (quiet_env ok_answer) 0)), w')
    /\ w_net w' = [].
Proof.
  apply (cache_hit_returns_stored_response default_proxy example_request None
           (fresh_world (quiet_env ok_answer) warm_cache) noon
           (py_json_dumps hello_response) hello_response).
  - reflexivity.
  - reflexivity.
  - intros n. reflexivity.
  - reflexivity.
  - right. split_and!; [by intros n; repeat split | by left | by left
                       | reflexivity].
  - by vm_compute.
  - by vm_compute.
  - by vm_compute.
Defined.

(** C6, counterexample: with a valid cached entry for the request, a
    client at its minute cap is answered 429, not the stored response;
    the response returned on a cache hit is, field by field, the response
    that a fetch over the network returns when the peer sends the same
    body and the same time elapses, so nothing in the returned result
    marks it as a hit; and with Redis unreachable the entry is not served:
    the lookup failure is swallowed and the request goes out. *)
Lemma cache_hit_is_not_marked :
  (exists response w',
     fetch_url default_proxy example_request None
       (fresh_world (quiet_env ok_answer) warm_cache_at_cap)
     = (Ret response, w')
     /\ warm_cache_at_cap !! example_cache_key
        = Some (RStr (py_json_dumps hello_response))
     /\ status_code response = 429 /\ success response = false)
  /\ (exists response w_hit w_miss,
        fetch_url default_proxy example_request None
          (fresh_world (quiet_env ok_answer) warm_cache)
        = (Ret response, w_hit)
        /\ w_net w_hit = []
        /\ fetch_url default_proxy example_request None
             (fresh_world (env_with_clock slow_clock ok_answer) ∅)
           = (Ret response, w_miss)
        /\ length (w_net w_miss) = 1%nat)
  /\ (exists response w',
        fetch_url unlimited_proxy example_request None
          (fresh_world (redis_down_env ok_answer) warm_cache)
        = (Ret response, w')
        /\ status_code response = 200
        /\ length (w_net w') = 1%nat).
Proof.
  split_and!.
  - with_run (fetch_url default_proxy example_request None
                (fresh_world (quiet_env ok_answer) warm_cache_at_cap))
      ltac:(fun r w Hrun => exists r, w; split; [exact Hrun|]).
    vm_compute. repeat split; reflexivity.
  - with_run (fetch_url default_proxy example_request None
                (fresh_world (quiet_env ok_answer) warm_cache))
      ltac:(fun r w_hit Hhit =>
        with_run (fetch_url default_proxy example_request None
                    (fresh_world (env_with_clock slow_clock ok_answer) ∅))
          ltac:(fun r' w_miss Hmiss =>
            exists r, w_hit, w_miss;
            split; [exact Hhit|]; split; [reflexivity|];
            split; [exact Hmiss|reflexivity])).
  - with_run (fetch_url unlimited_proxy example_request None
                (fresh_world (redis_down_env ok_answer) warm_cache))
      ltac:(fun r w Hrun => exists r, w; split; [exact Hrun|]).
    split; reflexivity.
Qed.

(** C7: on the default configuration (intelligence recording enabled) a
    successful fetch of [http://example.com/] leaves the store of
    intelligence records as it was: no record is appended. *)
Theorem successful_fetch_appends_no_record :
  intelligence_enabled (config default_proxy) = true
  /\ exists response w',
       fetch_url default_proxy example_request None
         (fresh_world (quiet_env ok_answer) ∅) = (Ret response, w')
       /\ status_code response = 200 /\ success response = true
       /\ w_intelligence w' = ∅.
Proof.
  split; [reflexivity|].
  with_run (fetch_url default_proxy example_request None
              (fresh_world (quiet_env ok_answer) ∅))
    ltac:(fun r w Hrun =>
      exists r, w; split; [exact Hrun|];
      split; [reflexivity|]; split; [reflexivity|];
      pose proof (fetch_url_keeps_intelligence default_proxy example_request
                    None (fresh_world (quiet_env ok_answer) ∅)) as Hkeeps;
      rewrite Hrun in Hkeeps; exact Hkeeps).
Qed.

(** C8, witness: [http://[::1/x], whose host extraction raises. *)
Lemma malformed_url_policy_witness :
  _is_domain_allowed default_proxy malformed_url = false
  /\ Plugin._is_domain_allowed plugin_config malformed_url = true.
Proof. apply malformed_url_policy. reflexivity. Defined.

(** C8, counterexample: host extraction raises for [http://[::1/x], and
    the domain filter of the client plugin answers true: the URL is not
    treated as blocked on that path. *)
Lemma plugin_filter_fails_open :
  urlparse_netloc malformed_url = None
  /\ Plugin._is_domain_allowed plugin_config malformed_url = true.
Proof. split; reflexivity. Qed.

(** C9: a [GET /config] on a configuration whose api_key is ["s3cret"]
    answers with a new top-level object, and afterwards the configuration
    that the proxy keeps holds ["***REDACTED***"] as its api_key. *)
Theorem get_config_redacts_stored_config :
  ConfigEndpoint.stored_api_key 1 config_heap
  = Some (ConfigEndpoint.VStr "s3cret")
  /\ exists answer h',
       ConfigEndpoint.get_config 1 config_heap = (Ret answer, h')
       /\ answer <> 1%positive
       /\ ConfigEndpoint.stored_api_key 1 h'
          = Some (ConfigEndpoint.VStr "***REDACTED***").
Proof.
  split; [by vm_compute|].
  eexists _, _. split; [reflexivity|]. split; [by vm_compute|].
  by apply (get_config_overwrites_stored_key 1 3 config_heap
              {[ "proxy" := ConfigEndpoint.VDict 2;
                 "security" := ConfigEndpoint.VDict 3 ]}
              {[ "api_key" := ConfigEndpoint.VStr "s3cret";
                 "blocked_domains" := ConfigEndpoint.VStrList [] ]}).
Qed.

(** C10: one [POST /fetch/bulk] with the single URL
    [http://example.com/] on a proxy without cache: the answer lists one
    result, and two outbound requests for that URL have been issued. *)
Theorem bulk_endpoint_fetches_twice :
  exists answer w',
    bulk_fetch_urls uncached_proxy one_url_request "secret-key"
      (fresh_world (quiet_env ok_answer) ∅) = (Ret (inr answer), w')
    /\ total_urls answer = 1%nat
    /\ length (results answer) = 1%nat
    /\ map nc_url (w_net w') = ["http://example.com/"; "http://example.com/"].
Proof.
  eexists _, _. split; [by vm_compute|]. by vm_compute.
Qed.
End Examples.

(** * Further properties of the proxy server *)

(** ** The domain filter *)

(** X1: the domain filter lets a URL through exactly when its host can be
    extracted, the lower-cased host contains no blocked entry, and the
    allow-list is empty or one of its entries occurs in the lower-cased
    host. *)
Theorem domain_filter_decides `{!PyLib} (self : Proxy) (u : string) :
  _is_domain_allowed self u = true
  <-> exists netloc,
        urlparse_netloc u = Some netloc
        /\ (forall blocked, blocked ∈ blocked_domains self ->
            ~ exists a b, str_lower netloc = a ++ blocked ++ b)
        /\ (allowed_domains self = []
            \/ exists allowed,
                 allowed ∈ allowed_domains self
                 /\ exists a b, str_lower netloc = a ++ allowed ++ b).
Proof.
  unfold _is_domain_allowed.
  destruct (urlparse_netloc u) as [netloc|]; [|split; [done | by intros (? & ? & _)]].
  destruct (existsb _ (blocked_domains self)) eqn:Hblocked.
  { split; [done|]. intros (netloc' & [= <-] & Hnone & _).
    apply existsb_exists in Hblocked as (blocked & Hin & Hsub).
    exfalso. apply (Hnone blocked); [by apply list_elem_of_In | by apply str_in_spec]. }
  assert (Hnone : forall blocked, blocked ∈ blocked_domains self ->
            ~ exists a b, str_lower netloc = a ++ blocked ++ b).
  { intros blocked Hin Hsub%str_in_spec.
    assert (existsb (fun b => str_in b (str_lower netloc)) (blocked_domains self)
            = true); [|congruence].
    apply existsb_exists. exists blocked. split; [by apply list_elem_of_In | done]. }
  destruct (allowed_domains self) as [|a0 rest] eqn:Hallowed.
  { split; [|done]. intros _. exists netloc. split_and!; [done | done | by left]. }
  rewrite <- Hallowed. cbn [andb].
  destruct (existsb _ (allowed_domains self)) eqn:Hsome; cbn [negb].
  - split; [|done]. intros _. exists netloc. split_and!; [done | done |].
    right. apply existsb_exists in Hsome as (allowed & Hin & Hsub).
    exists allowed. split; [by apply list_elem_of_In | by apply str_in_spec].
  - split; [done|]. intros (netloc' & [= <-] & _ & [Hempty|(allowed & Hin & Hsub)]).
    + congruence.
    + assert (existsb (fun a => str_in a (str_lower netloc)) (allowed_domains self)
              = true); [|congruence].
      apply existsb_exists. exists allowed.
      split; [by apply list_elem_of_In | by apply str_in_spec].
Qed.

(** ** The log of refused requests *)

Lemma keep_last_1000_spec {A : Type} (l : list A) :
  keep_last_1000 l `suffix_of` l
  /\ length (keep_last_1000 l) = Nat.min (length l) 1000
  /\ last (keep_last_1000 l) = last l.
Proof.
  unfold keep_last_1000. destruct (1000 <? length l)%nat eqn:Hlong.
  - apply Nat.ltb_lt in Hlong. split_and!.
    + apply suffix_drop.
    + rewrite length_drop. lia.
    + rewrite !last_lookup, lookup_drop, length_drop. f_equal. lia.
  - apply Nat.ltb_ge in Hlong. split_and!; [done | lia | done].
Qed.

(** The file after [_log_blocked_request]: as it was when the write
    failed, and otherwise the old entries and the new one, cut to the last
    1000. *)
Lemma log_blocked_request_run `{!PyLib} (self : Proxy) (request : FetchRequest)
    (reason details : string) (w : World) :
  exists w',
    _log_blocked_request self request reason details w = (Ret tt, w')
    /\ w_env w' = w_env w
    /\ w_blocked_file w'
       = if e_fs_fault (w_env w) (S (w_step w)) then w_blocked_file w
         else FileEntries
                (keep_last_1000
                   (match w_blocked_file w with
                    | FileEntries entries => entries
                    | FileAbsent | FileCorrupt => []
                    end
                    ++ [{| bl_timestamp := e_now (w_env w) (w_step w);
                           bl_url := url request;
                           bl_method := method request;
                           bl_reason := reason;
                           bl_details := details;
                           bl_headers := dict_or_empty (headers request);
                           bl_user_agent := user_agent request;
                           bl_tags := default [] (intelligence_tags request) |}])).
Proof.
  unfold _log_blocked_request, try_except.
  rewrite bind_datetime_now, bind_logger, bind_run. cbn [w_blocked_file with_log with_step].
  unfold write_blocked_file. cbn [w_env w_step with_log with_step].
  destruct (e_fs_fault (w_env w) (S (w_step w))); by eexists.
Qed.


(** ** [GET /blocked/requests] *)

(** X3: with the file of refused requests holding [entries],
    [GET /blocked/requests] answers without touching the world, reports
    [len(entries)] as total, and lists, for [limit >= 1], the last
    [min(limit, len(entries))] entries in file order; for [limit <= 0] it
    lists all entries but the first [-limit] (all of them for
    [limit = 0]). *)
Theorem blocked_requests_listing (entries : list BlockedLog) (limit : Z)
    (w : World) :
  w_blocked_file w = FileEntries entries ->
  exists recent,
    App.get_blocked_requests limit w
    = (Ret (inr {| ba_blocked_requests := recent;
                   ba_total := length entries;
                   ba_recent_count := Some (length recent) |}), w)
    /\ (1 <= limit ->
        recent = drop (length entries - Z.to_nat limit) entries
        /\ length recent = Nat.min (Z.to_nat limit) (length entries))
    /\ (limit <= 0 -> recent = drop (Z.to_nat (- limit)) entries).
Proof.
  intros Hfile. unfold App.get_blocked_requests, try_except. rewrite Hfile.
  eexists. split; [reflexivity|].
  destruct (limit <? Z.of_nat (length entries)) eqn:Hshort.
  - apply Z.ltb_lt in Hshort. unfold slice_from. split.
    + intros Hpos. destruct (- limit <? 0) eqn:Hneg; [|apply Z.ltb_ge in Hneg; lia].
      replace (Z.to_nat (Z.of_nat (length entries) + - limit))
        with (length entries - Z.to_nat limit)%nat by lia.
      split; [done|]. rewrite length_drop. lia.
    + intros Hnonpos. destruct (- limit <? 0) eqn:Hneg; [apply Z.ltb_lt in Hneg; lia|].
      done.
  - apply Z.ltb_ge in Hshort. split.
    + intros Hpos.
      replace (length entries - Z.to_nat limit)%nat with 0%nat by lia.
      split; [done|]. lia.
    + intros Hnonpos. assert (entries = []) as -> by (destruct entries; [done | simpl in *; lia]).
      by rewrite drop_nil.
Qed.

Lemma most_recent_entry (entries : list BlockedLog) (entry : BlockedLog) :
  last entries = Some entry ->
  (if 1 <? Z.of_nat (length entries) then slice_from (Z.opp 1) entries
   else entries)
  = [entry].
Proof.
  intros (older & ->)%last_Some. rewrite length_app. cbn [length].
  destruct (1 <? Z.of_nat (length older + 1)) eqn:Hlong.
  - unfold slice_from. change (Z.opp 1 <? 0) with true. cbv iota.
    replace (Z.to_nat (Z.of_nat (length (older ++ [entry])) + Z.opp 1))
      with (length older) by (rewrite length_app; simpl; lia).
    by rewrite drop_app_length.
  - apply Z.ltb_ge in Hlong. by destruct older; [|simpl in *; lia].
Qed.

Section Refusals.
Context `{!PyLib}.

(** X4: a fetch refused by the domain policy is recorded: when the file
    can be written, a following [GET /blocked/requests?limit=1] lists
    exactly one entry, which carries the URL and method of the refused
    request and the reason [DOMAIN_BLOCKED]. *)
Theorem refused_fetch_is_listed (self : Proxy) (request : FetchRequest)
    (api_key : option string) (w : World) :
  _is_domain_allowed self (url request) = false ->
  (forall n, e_fs_fault (w_env w) n = false) ->
  exists response w1 entry total w2,
    fetch_url self request api_key w = (Ret response, w1)
    /\ App.get_blocked_requests 1 w1
       = (Ret (inr {| ba_blocked_requests := [entry]; ba_total := total;
                      ba_recent_count := Some 1%nat |}), w2)
    /\ bl_url entry = url request
    /\ bl_method entry = method request
    /\ bl_reason entry = "DOMAIN_BLOCKED".
Proof.
  intros Hdom Hfs.
  destruct (returns_fetch_url_prelude self request api_key w)
    as (started & w0 & Hpre).
  assert (Henv0 : w_env w0 = w_env w).
  { assert (Hk : keeps w_env (fetch_url_prelude self request api_key))
      by by apply keeps_fetch_url_prelude.
    specialize (Hk w). by rewrite Hpre in Hk. }
  unfold fetch_url, try_except. rewrite bind_run, Hpre.
  unfold fetch_url_try. rewrite Hdom. cbn [negb]. rewrite bind_logger.
  match goal with
  | |- context [(_log_blocked_request ?s ?r ?a ?b ≫= ?f) ?w0] =>
      destruct (log_blocked_request_run s r a b w0)
        as (w1 & Hlog & Henv1 & Hfile);
      rewrite (bind_run (_log_blocked_request s r a b) f w0), Hlog
  end.
  cbn [w_env w_step w_blocked_file with_log] in Hfile.
  rewrite Henv0, Hfs in Hfile.
  rewrite bind_time_time. cbn [mret M_ret].
  match type of Hfile with
  | _ = FileEntries (keep_last_1000 (?old ++ [?e])) =>
      destruct (keep_last_1000_spec (old ++ [e])) as (_ & _ & Hlast);
      rewrite last_snoc in Hlast;
      pose proof (most_recent_entry _ _ Hlast) as Hrecent;
      eexists _, _, e, _, _
  end.
  split; [reflexivity|]. split; [|done].
  unfold App.get_blocked_requests, try_except.
  cbn [w_blocked_file with_step]. rewrite Hfile, Hrecent. reflexivity.
Qed.
End Refusals.

(** ** [POST /fetch] and [POST /fetch/bulk] *)

Section FrontEnd.
Context `{!PyLib}.


(** X6: a URL that the domain filter refuses (a blocked host, a host
    outside a non-empty allow-list, or a URL whose host cannot be
    extracted) gets HTTP 403 with the detail "Domain blocked by security
    policy" from [POST /fetch], and no outbound request is issued. *)
Theorem fetch_endpoint_refuses_domain (proxy : Proxy) (request : FetchRequest)
    (api_key : string) (w : World) :
  _is_domain_allowed proxy (url request) = false ->
  exists w',
    App.fetch_url proxy request api_key w
    = (Ret (inl {| http_status := 403;
                   detail := "Domain blocked by security policy" |}), w')
    /\ w_net w' = w_net w.
Proof.
  intros Hdom.
  destruct (returns_fetch_url_prelude proxy request (Some api_key) w)
    as (started & w0 & Hpre).
  destruct (fetch_url_try_domain_blocked proxy request (Some api_key)
              started.1 started.2 w0 Hdom)
    as (elapsed & w1 & Hrun & _ & _ & _ & Hnet1).
  exists w1. split.
  - unfold App.fetch_url, fetch_url, try_except.
    by rewrite bind_run, bind_run, Hpre, Hrun.
  - assert (Hk : keeps w_net (fetch_url_prelude proxy request (Some api_key)))
      by by apply keeps_fetch_url_prelude.
    specialize (Hk w). rewrite Hpre in Hk. simpl in Hk. congruence.
Qed.


End FrontEnd.

(** ** The outbound request *)

Lemma dict_get_set_eq (k v : string) (d : dict) :
  dict_get k (dict_set k v d) = Some v.
Proof.
  induction d as [|[k' v'] d IH]; simpl.
  - by rewrite String.eqb_refl.
  - destruct (String.eqb k' k) eqn:Hk; simpl.
    + by rewrite String.eqb_refl.
    + by rewrite Hk.
Qed.

Lemma dict_get_set_ne (k k' v : string) (d : dict) :
  k <> k' -> dict_get k' (dict_set k v d) = dict_get k' d.
Proof.
  intros Hne. induction d as [|[k0 v0] d IH]; simpl.
  - by apply String.eqb_neq in Hne as ->.
  - destruct (String.eqb k0 k) eqn:Hk; simpl.
    + apply String.eqb_eq in Hk as ->.
      by apply String.eqb_neq in Hne as ->.
    + by rewrite IH.
Qed.

Lemma dict_mem_get (k : string) (d : dict) :
  dict_mem k d = bool_decide (is_Some (dict_get k d)).
Proof.
  unfold dict_mem. induction d as [|[k' v'] d IH]; simpl.
  - done.
  - by destruct (String.eqb k' k).
Qed.

Lemma random_choice_member (seq : list string) (w : World) :
  seq <> [] -> exists agent, random_choice seq w
                             = (Ret agent, with_step (S (w_step w)) w)
                             /\ agent ∈ seq.
Proof.
  intros Hseq. eexists. split; [reflexivity|].
  apply list_elem_of_In, nth_In, Nat.mod_upper_bound.
  by destruct seq.
Qed.

Section Outbound.
Context `{!PyLib}.

(** X8: the headers of the outbound request.  [X-SHADOW-Proxy: enabled]
    and an [X-Request-ID] are always set; every other header of the
    caller except [User-Agent] is passed on unchanged.  [User-Agent] is
    the request's [user_agent] when that is a non-empty string (it
    overrides a [User-Agent] header of the caller); otherwise the caller's
    own [User-Agent] header when there is one; otherwise one of the
    configured agents, and no [User-Agent] at all when none is
    configured. *)
Theorem outbound_headers (self : Proxy) (request : FetchRequest) (w : World) :
  let supplied := dict_or_empty (headers request) in
  exists hdrs w',
    prepare_headers self request w = (Ret hdrs, w')
    /\ dict_get "X-SHADOW-Proxy" hdrs = Some "enabled"
    /\ is_Some (dict_get "X-Request-ID" hdrs)
    /\ (forall k, k <> "User-Agent" -> k <> "X-SHADOW-Proxy" ->
                  k <> "X-Request-ID" -> dict_get k hdrs = dict_get k supplied)
    /\ if truthy_opt (user_agent request)
       then dict_get "User-Agent" hdrs = user_agent request
       else match dict_get "User-Agent" supplied with
            | Some ua => dict_get "User-Agent" hdrs = Some ua
            | None =>
                match user_agents (config self) with
                | [] => dict_get "User-Agent" hdrs = None
                | _ => exists agent, agent ∈ user_agents (config self)
                                     /\ dict_get "User-Agent" hdrs = Some agent
                end
            end.
Proof.
  intros supplied. unfold prepare_headers. fold supplied.
  assert (Hfinal : forall headers1 w1,
    exists hdrs w',
      (t ← time_time;
       mret (dict_set "X-Request-ID"
               (str_take 8 (sha256_hexdigest (url request ++ str_float t)))
               (dict_set "X-SHADOW-Proxy" "enabled" headers1))) w1
      = (Ret hdrs, w')
      /\ dict_get "X-SHADOW-Proxy" hdrs = Some "enabled"
      /\ is_Some (dict_get "X-Request-ID" hdrs)
      /\ forall k, k <> "X-SHADOW-Proxy" -> k <> "X-Request-ID" ->
                   dict_get k hdrs = dict_get k headers1).
  { intros headers1 w1. rewrite bind_time_time. eexists _, _.
    split; [reflexivity|]. split_and!.
    - by rewrite dict_get_set_ne, dict_get_set_eq.
    - by rewrite dict_get_set_eq.
    - intros k Hk1 Hk2. by rewrite !dict_get_set_ne. }
  destruct (truthy_opt (user_agent request)) eqn:Hua.
  { rewrite bind_ret.
    destruct (Hfinal (dict_set "User-Agent" (default "" (user_agent request))
                        supplied) w) as (hdrs & w' & -> & Hshadow & Hid & Hrest).
    exists hdrs, w'. split_and!; try done.
    - intros k Hk1 Hk2 Hk3. by rewrite Hrest, dict_get_set_ne.
    - rewrite Hrest, dict_get_set_eq by done.
      by destruct (user_agent request). }
  rewrite dict_mem_get.
  destruct (dict_get "User-Agent" supplied) as [ua|] eqn:Hsupplied.
  { rewrite bool_decide_eq_true_2 by done. cbn [negb]. rewrite bind_ret.
    destruct (Hfinal supplied w) as (hdrs & w' & -> & Hshadow & Hid & Hrest).
    exists hdrs, w'. split_and!; try done.
    - intros k Hk1 Hk2 Hk3. by rewrite Hrest.
    - by rewrite Hrest. }
  rewrite bool_decide_eq_false_2 by by intros [? ?]. cbn [negb].
  destruct (user_agents (config self)) as [|first others] eqn:Hagents.
  { cbv iota. rewrite bind_ret.
    destruct (Hfinal supplied w) as (hdrs & w' & -> & Hshadow & Hid & Hrest).
    exists hdrs, w'. split_and!; try done.
    - intros k Hk1 Hk2 Hk3. by rewrite Hrest.
    - by rewrite Hrest. }
  destruct (random_choice_member (first :: others) w) as (agent & Hpick & Hin);
    [done|].
  destruct (Hfinal (dict_set "User-Agent" agent supplied)
              (with_step (S (w_step w)) w))
    as (hdrs & w' & Hrun & Hshadow & Hid & Hrest).
  exists hdrs, w'. split_and!; try done.
  - cbv iota. rewrite bind_run, bind_run, Hpick. exact Hrun.
  - intros k Hk1 Hk2 Hk3. by rewrite Hrest, dict_get_set_ne.
  - exists agent. split; [done|]. by rewrite Hrest, dict_get_set_eq.
Qed.
End Outbound.

(** ** The Redis keys of a fetch *)

Section Footprint.
Context `{!PyLib} (k : string).

(** The entry stored under [k]. *)
Let at_k (w : World) : option RVal := w_redis w !! k.

Lemma redis_incr_other (key : string) (db : gmap string RVal) :
  k <> key -> (redis_incr key db).1 !! k = db !! k.
Proof.
  intros Hne. unfold redis_incr. destruct (incr_value _); simpl; [|done].
  by rewrite lookup_insert_ne.
Qed.

Lemma check_rate_limit_footprint (self : Proxy) (api_key : option string) :
  (forall stamp, k <> rate_key api_key stamp) ->
  keeps at_k (_check_rate_limit self api_key).
Proof.
  intros Hk. unfold _check_rate_limit.
  destruct (negb _); [apply keeps_ret|].
  apply keeps_bind; [by apply keeps_datetime_now|]. intros now.
  destruct (redis_client self); [|apply keeps_ret].
  apply keeps_bind; [by apply keeps_redis_get|]. intros minute_raw.
  apply keeps_bind; [by apply keeps_redis_get|]. intros hour_raw.
  apply keeps_bind; [by apply keeps_py_int|]. intros m.
  destruct (60 <=? m); [apply keeps_ret|].
  apply keeps_bind; [by apply keeps_py_int|]. intros h.
  destruct (1000 <=? h); [apply keeps_ret|].
  apply keeps_bind; [|intros; apply keeps_ret].
  intros w. unfold redis_pipeline_incr, at_k.
  destruct (e_redis_fault _ _); [done|].
  pose proof (redis_incr_other (rate_key api_key (strftime_minute now))
                (w_redis w) (Hk _)) as H1.
  destruct (redis_incr (rate_key api_key (strftime_minute now)) (w_redis w))
    as [db1 ok1].
  pose proof (redis_incr_other (rate_key api_key (strftime_hour now))
                db1 (Hk _)) as H2.
  destruct (redis_incr (rate_key api_key (strftime_hour now)) db1)
    as [db2 ok2].
  simpl in *. destruct (ok1 && ok2); simpl; congruence.
Qed.

Lemma cache_response_footprint (self : Proxy) (cache_key : string)
    (response : ProxyResponse) :
  k <> "proxy_cache:" ++ cache_key ->
  keeps at_k (_cache_response self cache_key response).
Proof.
  intros Hk. unfold _cache_response.
  destruct (negb _); [apply keeps_ret|].
  apply keeps_try_except; [|by intros; apply keeps_logger].
  intros w. unfold redis_setex, at_k. destruct (e_redis_fault _ _); [done|].
  simpl. by rewrite lookup_insert_ne.
Qed.

(** X9: the Redis keys that a fetch can change.  Whatever the outcome, an
    entry stored under a key other than the cache key of the request
    ([proxy_cache:] followed by its fingerprint) and other than a rate
    counter of the calling client ([rate_limit:<client>:<stamp>]) is the
    same after [fetch_url] as before: no other client's counters and no
    other request's cache entry are touched. *)
Theorem fetch_url_redis_footprint (self : Proxy) (request : FetchRequest)
    (api_key : option string) (w : World) :
  k <> "proxy_cache:" ++ _generate_cache_key request ->
  (forall stamp, k <> rate_key api_key stamp) ->
  w_redis (fetch_url self request api_key w).2 !! k = w_redis w !! k.
Proof.
  intros Hcache Hrate. revert w. change (keeps at_k (fetch_url self request api_key)).
  unfold fetch_url.
  apply keeps_bind; [by apply keeps_fetch_url_prelude|]. intros started.
  apply keeps_try_except; [|by intros; apply keeps_fetch_url_except].
  unfold fetch_url_try.
  assert (Hreject : forall code warning reason details body,
    keeps at_k
      (logger (LogWarning warning);;
       _log_blocked_request self request reason details;;
       t ← time_time;
       mret (failure_response code body (url request) (t - started.1)
               details))).
  { intros. apply keeps_bind; [by apply keeps_logger|]. intros _.
    apply keeps_bind; [by apply keeps_log_blocked_request|]. intros _.
    apply keeps_bind; [by apply keeps_time_time|]. intros t. apply keeps_ret. }
  destruct (negb (_is_domain_allowed _ _)); [apply Hreject|].
  apply keeps_bind; [by apply check_rate_limit_footprint|].
  intros within_limit. destruct (negb within_limit); [apply Hreject|].
  apply keeps_bind.
  { destruct (cache_enabled request);
      [by apply keeps_get_cached_response | apply keeps_ret]. }
  intros [cached|]; [by apply keeps_answer_from_cache|].
  unfold fetch_from_network.
  apply keeps_bind; [by apply keeps_prepare_headers|]. intros hdrs.
  apply keeps_bind; [by intros w|].
  intros [status body response_headers real_url|e]; [|apply keeps_raise].
  apply keeps_bind; [by apply keeps_time_time|]. intros t.
  apply keeps_bind.
  { apply keeps_when. by apply cache_response_footprint. }
  intros _. apply keeps_bind; [|intros; apply keeps_ret].
  apply keeps_when. by apply keeps_display_request.
Qed.
End Footprint.

(** ** One fetch, one request *)

Section NetworkBlock.
Context `{!PyLib}.

(** The network block: one outbound request, and a cache write exactly
    when the response is a success, the request asks for caching, a Redis
    client exists and Redis takes the command. *)
Lemma fetch_from_network_run (self : Proxy) (request : FetchRequest)
    (api_key : option string) (start_time : Q) (request_id cache_key : string)
    (w : World) :
  exists hdrs w1,
    only_logged w w1
    /\ let call := outbound_call request hdrs in
       let run :=
         fetch_from_network self request api_key start_time request_id
           cache_key w in
       w_net run.2 = (w_net w ++ [call])%list
       /\ w_env run.2 = w_env w
       /\ match e_net (w_env w) (w_step w1) call with
          | NetRaise e => run.1 = Raise e /\ w_redis run.2 = w_redis w
          | NetResponse status body response_headers real_url =>
              exists response,
                run.1 = Ret response
                /\ status_code response = status
                /\ content response = body
                /\ success response
                   = compute_success (allow_status_codes request) status
                /\ w_redis run.2
                   = if success response && cache_enabled request
                        && redis_client self
                     then match e_redis_fault (w_env w) (S (S (w_step w1))) with
                          | None =>
                              <["proxy_cache:" ++ cache_key
                                := RStr (json_dumps response)]> (w_redis w)
                          | Some _ => w_redis w
                          end
                     else w_redis w
          end.
Proof.
  destruct (returns_prepare_headers self request w) as (hdrs & w1 & Hprep).
  assert (Hlogged : only_logged w w1).
  { apply unlogged_only_logged.
    assert (Hk : keeps unlogged (prepare_headers self request))
      by by apply keeps_prepare_headers.
    specialize (Hk w). by rewrite Hprep in Hk. }
  destruct Hlogged as (Henv & Hredis & Hint & Hnet).
  exists hdrs, w1. split; [done|]. cbv zeta.
  unfold fetch_from_network. rewrite bind_run, Hprep, bind_run.
  cbn [net_request]. rewrite <- Henv, <- Hredis, <- Hnet.
  destruct (e_net (w_env w1) (w_step w1) (outbound_call request hdrs))
    as [status body response_headers real_url|e]; [|done].
  rewrite bind_time_time. cbn [success]. unfold _cache_response.
  destruct (compute_success _ _), (cache_enabled request),
    (redis_client self), (show_requests (config self));
    cbv [mbind M_bind mret M_ret when display_request datetime_now logger
         try_except redis_setex _cache_response andb negb]; cbn;
    try (destruct (e_redis_fault _ _); cbn);
    (split; [reflexivity|split; [reflexivity|]];
     eexists; split; [reflexivity|]; cbn; by split_and!).
Qed.

(** Every run of [fetch_url] is of one of two kinds.  Either no outbound
    request is issued and no cache entry changes; or the network block is
    reached, from a world [w1] that has the cache entries and the
    environment of the start, and the outcome of the fetch is the outcome
    of that block, an exception of the peer being turned into a failure
    response. *)
Lemma fetch_url_cases (self : Proxy) (request : FetchRequest)
    (api_key : option string) (w : World) :
  let run := fetch_url self request api_key w in
  (w_net run.2 = w_net w
   /\ forall key, w_redis run.2 !! ("proxy_cache:" ++ key)
                  = w_redis w !! ("proxy_cache:" ++ key))
  \/ exists start_time request_id w1,
       let block :=
         fetch_from_network self request api_key start_time request_id
           (_generate_cache_key request) w1 in
       w_env w1 = w_env w /\ w_net w1 = w_net w
       /\ (forall key, w_redis w1 !! ("proxy_cache:" ++ key)
                       = w_redis w !! ("proxy_cache:" ++ key))
       /\ w_net run.2 = w_net block.2
       /\ w_redis run.2 = w_redis block.2
       /\ match block.1 with
          | Ret response => run.1 = Ret response
          | Raise e => exists response,
                         run.1 = Ret response /\ success response = false
                         /\ (fetch_url_except self request start_time e
                               block.2).1 = Ret response
          end.
Proof.
  cbv zeta. unfold fetch_url.
  destruct (returns_fetch_url_prelude self request api_key w)
    as ([start_time request_id] & w0 & Hpre).
  assert (H0 : unlogged w0 = unlogged w).
  { assert (Hk : keeps unlogged (fetch_url_prelude self request api_key))
      by by apply keeps_fetch_url_prelude.
    specialize (Hk w). by rewrite Hpre in Hk. }
  apply unlogged_only_logged in H0 as (Henv0 & Hredis0 & _ & Hnet0).
  rewrite bind_run, Hpre. cbn [fst snd]. unfold try_except.
  (* the handlers *)
  assert (Hexcept : forall e w2,
    exists response w3,
      fetch_url_except self request start_time e w2 = (Ret response, w3)
      /\ success response = false
      /\ w_net w3 = w_net w2 /\ w_redis w3 = w_redis w2).
  { intros e w2.
    destruct (returns_fetch_url_except self request start_time e w2)
      as (response & w3 & Hrun).
    assert (Hk : keeps unlogged (fetch_url_except self request start_time e))
      by by apply keeps_fetch_url_except.
    specialize (Hk w2). rewrite Hrun in Hk.
    apply unlogged_only_logged in Hk as (_ & Hredis3 & _ & Hnet3).
    exists response, w3. split_and!; try done.
    destruct e; simpl in Hrun.
    - revert Hrun. run_head.
      match goal with
      | |- context [(_log_blocked_request ?s ?r ?a ?b ≫= ?f) ?w] =>
          destruct (bind_returns (_log_blocked_request s r a b) f w
                      (returns_log_blocked_request s r a b))
            as ([] & w4 & _ & ->)
      end.
      run_head. by intros [= <- _].
    - revert Hrun. run_head.
      match goal with
      | |- context [(_log_blocked_request ?s ?r ?a ?b ≫= ?f) ?w] =>
          destruct (bind_returns (_log_blocked_request s r a b) f w
                      (returns_log_blocked_request s r a b))
            as ([] & w4 & _ & ->)
      end.
      run_head. by intros [= <- _]. }
  (* a run of the try block that stays away from the network and the cache *)
  assert (Hquiet : forall (outcome : Outcome ProxyResponse) w2,
    w_net w2 = w_net w0 ->
    (forall key, w_redis w2 !! ("proxy_cache:" ++ key)
                 = w_redis w0 !! ("proxy_cache:" ++ key)) ->
    w_net (match outcome with
           | Ret a => (Ret a, w2)
           | Raise e => fetch_url_except self request start_time e w2
           end).2 = w_net w
    /\ forall key,
         w_redis (match outcome with
                  | Ret a => (Ret a, w2)
                  | Raise e => fetch_url_except self request start_time e w2
                  end).2 !! ("proxy_cache:" ++ key)
         = w_redis w !! ("proxy_cache:" ++ key)).
  { intros [a|e] w2 Hnet2 Hredis2; cbn [snd].
    - split; [congruence|]. intros key. by rewrite Hredis2, Hredis0.
    - destruct (Hexcept e w2) as (response & w3 & -> & _ & Hnet3 & Hredis3).
      cbn [snd]. split; [congruence|].
      intros key. by rewrite Hredis3, Hredis2, Hredis0. }
  destruct (_is_domain_allowed self (url request)) eqn:Hdom.
  2:{ left.
      destruct (fetch_url_try_domain_blocked self request api_key start_time
                  request_id w0 Hdom)
        as (elapsed & w1 & Hrun & _ & Hredis1 & _ & Hnet1).
      rewrite Hrun. cbn [snd]. split; [congruence|].
      intros key. by rewrite Hredis1, Hredis0. }
  assert (Hcheck : forall key,
    w_redis (_check_rate_limit self api_key w0).2 !! ("proxy_cache:" ++ key)
    = w_redis w0 !! ("proxy_cache:" ++ key)).
  { intros key. apply (check_rate_limit_footprint ("proxy_cache:" ++ key)).
    intros stamp. apply rate_key_ne_cache_key. }
  assert (Hchecknet : w_net (_check_rate_limit self api_key w0).2 = w_net w0
                      /\ w_env (_check_rate_limit self api_key w0).2 = w_env w0).
  { split.
    - assert (Hk : keeps w_net (_check_rate_limit self api_key))
        by by apply keeps_check_rate_limit.
      apply Hk.
    - assert (Hk : keeps w_env (_check_rate_limit self api_key))
        by by apply keeps_check_rate_limit.
      apply Hk. }
  destruct (_check_rate_limit self api_key w0) as [[[]|e] wc] eqn:Hrate;
    cbn [snd] in Hcheck, Hchecknet; destruct Hchecknet as [Hnetc Henvc].
  3:{ left. unfold fetch_url_try. rewrite Hdom. cbn [negb].
      rewrite bind_run, Hrate. by apply (Hquiet (Raise e) wc). }
  2:{ left.
      destruct (fetch_url_try_rate_limited self request api_key start_time
                  request_id w0 wc Hdom Hrate)
        as (elapsed & w1 & Hrun & _ & Hredis1 & _ & Hnet1).
      rewrite Hrun. cbn [snd]. split; [congruence|].
      intros key. by rewrite Hredis1, Hcheck, Hredis0. }
  unfold fetch_url_try. rewrite Hdom. cbn [negb].
  rewrite bind_run, Hrate. cbn [negb]. rewrite bind_run.
  set (lookup := if cache_enabled request
                 then _get_cached_response self (_generate_cache_key request)
                 else mret None).
  assert (Hlookup : unlogged (lookup wc).2 = unlogged wc).
  { assert (Hk : keeps unlogged lookup).
    { unfold lookup. destruct (cache_enabled request);
        [by apply keeps_get_cached_response | apply keeps_ret]. }
    apply Hk. }
  apply unlogged_only_logged in Hlookup as (Henv1 & Hredis1 & _ & Hnet1).
  destruct (lookup wc) as [[[cached|]|e] w1] eqn:Hrun;
    cbn [snd] in Henv1, Hredis1, Hnet1.
  - left.
    assert (Hk : unlogged
      (answer_from_cache self request api_key start_time
         (_generate_cache_key request) cached w1).2 = unlogged w1).
    { assert (Hk : keeps unlogged
        (answer_from_cache self request api_key start_time
           (_generate_cache_key request) cached))
        by by apply keeps_answer_from_cache.
      apply Hk. }
    apply unlogged_only_logged in Hk as (_ & Hredis2 & _ & Hnet2).
    destruct (answer_from_cache _ _ _ _ _ _ w1) as [[a|e] w2];
      cbn [snd] in Hredis2, Hnet2.
    + cbn [snd]. split; [congruence|].
      intros key. by rewrite Hredis2, Hredis1, Hcheck, Hredis0.
    + destruct (Hexcept e w2) as (response & w3 & -> & _ & Hnet3 & Hredis3).
      cbn [snd]. split; [congruence|].
      intros key. by rewrite Hredis3, Hredis2, Hredis1, Hcheck, Hredis0.
  - right. exists start_time, request_id, w1. cbv zeta.
    split; [congruence|]. split; [congruence|].
    split; [intros key; by rewrite Hredis1, Hcheck, Hredis0|].
    destruct (fetch_from_network _ _ _ _ _ _ w1) as [[response|e] w2].
    + by cbn.
    + cbn [fst snd].
      destruct (Hexcept e w2) as (response & w3 & -> & Hfail & Hnet3 & Hredis3).
      cbn [fst snd]. split_and!; try done. by exists response.
  - left.
    destruct (Hexcept e w1) as (response & w3 & -> & _ & Hnet3 & Hredis3).
    cbn [snd]. split; [congruence|].
    intros key. by rewrite Hredis3, Hredis1, Hcheck, Hredis0.
Qed.

(** X10: a fetch issues at most one outbound request on every path
    (rejection, cache hit, network answer or network failure: there is no
    retry), and a request that goes out goes to the URL of the request,
    with its method, timeout, redirect and certificate settings, and
    carries the body of the request only when the upper-cased method is
    not GET. *)
Theorem fetch_url_single_request (self : Proxy) (request : FetchRequest)
    (api_key : option string) (w : World) :
  let w' := (fetch_url self request api_key w).2 in
  w_net w' = w_net w
  \/ exists call,
       w_net w' = (w_net w ++ [call])%list
       /\ nc_url call = url request
       /\ nc_method call = method request
       /\ nc_timeout call = timeout request
       /\ nc_allow_redirects call = follow_redirects request
       /\ nc_ssl call = verify_ssl request
       /\ (nc_data call = None
           \/ nc_data call = data request
              /\ str_upper (method request) <> "GET").
Proof.
  cbv zeta.
  destruct (fetch_url_cases self request api_key w)
    as [[Hnet _]|(start_time & request_id & w1 & _ & Hnet1 & _ & Hnet & _)];
    [by left|right].
  destruct (fetch_from_network_run self request api_key start_time request_id
              (_generate_cache_key request) w1)
    as (hdrs & w2 & _ & Hsent & _).
  exists (outbound_call request hdrs). split; [congruence|].
  split_and!; try done. cbn [outbound_call nc_data].
  destruct (truthy_opt (data request)); [|by left].
  destruct (String.eqb_spec (str_upper (method request)) "GET");
    [by left | by right].
Qed.

(** X11: a successful answer of the peer is stored.  When the request
    asks for caching, a Redis client exists and Redis answers, a fetch
    that issues an outbound request and returns a successful response
    leaves the serialised response under the cache key of the request. *)
Theorem successful_fetch_is_cached (self : Proxy) (request : FetchRequest)
    (api_key : option string) (w w' : World) (response : ProxyResponse) :
  cache_enabled request = true ->
  redis_client self = true ->
  no_redis_fault (w_env w) ->
  fetch_url self request api_key w = (Ret response, w') ->
  w_net w' <> w_net w ->
  success response = true ->
  w_redis w' !! ("proxy_cache:" ++ _generate_cache_key request)
  = Some (RStr (json_dumps response)).
Proof.
  intros Hcaching Hclient Hfault Hrun Hsent Hsuccess.
  destruct (fetch_url_cases self request api_key w)
    as [[Hnet _]|(start_time & request_id & w1 & Henv1 & _ & _ & _ & Hredis
                   & Hout)];
    rewrite Hrun in *; cbn [fst snd] in *; [done|].
  destruct (fetch_from_network_run self request api_key start_time request_id
              (_generate_cache_key request) w1)
    as (hdrs & w2 & _ & _ & _ & Hblock).
  destruct (e_net _ _ _) as [status body response_headers real_url|e].
  - destruct Hblock as (response0 & Hret & _ & _ & _ & Hstore).
    rewrite Hret in Hout. injection Hout as ->.
    rewrite Hredis, Hstore, Hsuccess, Hcaching, Hclient. cbn [andb].
    rewrite Henv1, Hfault. apply lookup_insert_eq.
  - destruct Hblock as [Hraise _]. rewrite Hraise in Hout.
    destruct Hout as (response0 & [= <-] & Hfail & _). congruence.
Qed.

End NetworkBlock.

(** ** Housekeeping *)

Section Housekeeping.
Variable st_mtime : string -> Q.











End Housekeeping.

(** ** The cache, there and back *)

Section RoundTrip.
Context `{!PyLib}.

(** X15: a response stored by one fetch is served by the next.  After a
    fetch that went to the network and returned a successful response
    (caching enabled, Redis answering), a request with the same fields,
    as a client sends it again, is answered with that response, only its
    elapsed time re-stamped, and without another outbound request, while
    the rate limiter lets the client through and the stored text decodes
    to the response. *)
Theorem second_fetch_is_served_from_cache (self : Proxy)
    (request : FetchRequest) (api_key : option string) (w w1 : World)
    (response : ProxyResponse) (now : DateTime) :
  cache_enabled request = true ->
  redis_client self = true ->
  no_redis_fault (w_env w) ->
  fetch_url self request api_key w = (Ret response, w1) ->
  w_net w1 <> w_net w ->
  success response = true ->
  rate_limit_open self api_key w1 now ->
  json_dumps response <> "" ->
  json_loads (json_dumps response) = inr response ->
  exists elapsed w2,
    fetch_url self request api_key w1
    = (Ret (set_execution_time response elapsed), w2)
    /\ w_net w2 = w_net w1.
Proof.
  intros Hcaching Hclient Hfault Hrun Hsent Hsuccess Hopen Hpayload Hdecode.
  (* the first fetch *)
  assert (Henv1 : w_env w1 = w_env w).
  { assert (Hk : keeps w_env (fetch_url self request api_key))
      by by apply keeps_fetch_url.
    specialize (Hk w). by rewrite Hrun in Hk. }
  assert (Hdom : _is_domain_allowed self (url request) = true).
  { destruct (_is_domain_allowed self (url request)) eqn:Hdom; [done|].
    destruct (returns_fetch_url_prelude self request api_key w)
      as (started & w0 & Hpre).
    destruct (fetch_url_try_domain_blocked self request api_key started.1
                started.2 w0 Hdom) as (elapsed & w' & Htry & _ & _ & _ & Hnet').
    assert (Hk : keeps w_net (fetch_url_prelude self request api_key))
      by by apply keeps_fetch_url_prelude.
    specialize (Hk w). rewrite Hpre in Hk. cbn in Hk.
    unfold fetch_url, try_except in Hrun.
    rewrite bind_run, Hpre, Htry in Hrun. injection Hrun as _ <-.
    congruence. }
  assert (Hstored :
    w_redis w1 !! ("proxy_cache:" ++ _generate_cache_key request)
    = Some (RStr (json_dumps response))).
  { destruct (fetch_url_cases self request api_key w)
      as [[Hnet _]|(start_time & request_id & w0 & Henv0 & _ & _ & _ & Hredis
                     & Hout)];
      rewrite Hrun in *; cbn [fst snd] in *; [done|].
    destruct (fetch_from_network_run self request api_key start_time
                request_id (_generate_cache_key request) w0)
      as (hdrs & w' & _ & _ & _ & Hblock).
    destruct (e_net _ _ _) as [status body response_headers real_url|e].
    - destruct Hblock as (response0 & Hret & _ & _ & _ & Hstore).
      rewrite Hret in Hout. injection Hout as ->.
      rewrite Hredis, Hstore, Hsuccess, Hcaching, Hclient. cbn [andb].
      rewrite Henv0, Hfault. apply lookup_insert_eq.
    - destruct Hblock as [Hraise _]. rewrite Hraise in Hout.
      destruct Hout as (response0 & [= <-] & Hfail & _). congruence. }
  (* the second fetch *)
  destruct (fetch_url_prelude_start self request api_key w1)
    as (request_id & w2 & Hpre & Henv2 & Hredis2 & _ & Hnet2).
  destruct (check_rate_limit_open self api_key w2 now)
    as (wc & Hcheck & Henvc & Hnetc & Hcachec);
    [done | by rewrite Henv2, Henv1 | |].
  { destruct Hopen as [Hoff|(Hwithin & Hm & Hh & Hcap)]; [by left|right].
    rewrite Henv2, Hredis2. by split_and!. }
  destruct (answer_from_cache_run self request api_key
              (e_time (w_env w1) (w_step w1)) (_generate_cache_key request)
              response (with_step (S (w_step wc)) wc))
    as (w3 & Hanswer & Henv3 & Hnet3).
  exists (e_time (w_env w3) (pred (w_step w3))
          - e_time (w_env w1) (w_step w1))%Q, w3. split.
  - unfold fetch_url, try_except. rewrite bind_run, Hpre. cbn [fst snd].
    unfold fetch_url_try. rewrite Hdom. cbn [negb].
    rewrite bind_run, Hcheck. cbn [negb]. rewrite Hcaching, bind_run.
    rewrite (get_cached_response_hit self _ (json_dumps response) response wc);
      try done.
    + by rewrite Hanswer.
    + rewrite Henvc, Henv2, Henv1. apply Hfault.
    + by rewrite Hcachec, Hredis2.
  - cbn [w_net with_step] in Hnet3. congruence.
Qed.
End RoundTrip.

(** ** What the console shows of an API key *)



(** ** The archived recorder *)

Section Recorder.
Context `{!PyLib}.

(** X17: the archived recorder names a file by the second of the
    timestamp and the URL, so of two records of the same URL stamped in
    the same second only the second survives: with recording enabled and
    the files writable, saving both leaves one more entry in the store at
    most, and that entry holds the second record. *)
Theorem same_second_records_collide (self : Proxy)
    (first second : IntelligenceRecord) (w : World) :
  intelligence_enabled (config self) = true ->
  (forall n, e_fs_fault (w_env w) n = false) ->
  ir_url first = ir_url second ->
  ir_timestamp first = ir_timestamp second ->
  exists filename,
    w_intelligence
      ((Archive._save_intelligence self first;;
        Archive._save_intelligence self second) w).2
    = <[filename := second]> (w_intelligence w).
Proof.
  intros Hon Hfs Hurl Hstamp.
  unfold Archive._save_intelligence. rewrite Hon. cbn [negb].
  cbv [mbind M_bind mret M_ret try_except Archive.write_intelligence_file
       logger].
  rewrite Hfs. cbn [w_env w_step with_step with_log with_intelligence].
  rewrite Hfs. cbn. rewrite Hurl, Hstamp. eexists. apply insert_insert_eq.
Qed.
End Recorder.

(** ** The client plugin *)

Lemma client_bind_run {A B : Type} (c : Client.C A) (f : A -> Client.C B)
    (m : Client.Machine) :
  (c ≫= f) m = match c m with
               | (Ret a, m') => f a m'
               | (Raise e, m') => (Raise e, m')
               end.
Proof. reflexivity. Qed.

Lemma client_keeps_ret {X A : Type} (view : Client.Machine -> X) (a : A) :
  Client.keeps view (mret a).
Proof. by intros m. Qed.

Lemma client_keeps_raise {X A : Type} (view : Client.Machine -> X) (e : exn) :
  Client.keeps view (Client.raise (A := A) e).
Proof. by intros m. Qed.

Lemma client_keeps_bind {X A B : Type} (view : Client.Machine -> X)
    (c : Client.C A) (f : A -> Client.C B) :
  Client.keeps view c -> (forall a, Client.keeps view (f a)) ->
  Client.keeps view (c ≫= f).
Proof.
  intros Hc Hf m. rewrite client_bind_run. specialize (Hc m).
  destruct (c m) as [[a|e] m1]; simpl in *; [by rewrite Hf | done].
Qed.

Lemma client_keeps_try_except {X A : Type} (view : Client.Machine -> X)
    (body : Client.C A) (handler : exn -> Client.C A) :
  Client.keeps view body -> (forall e, Client.keeps view (handler e)) ->
  Client.keeps view (Client.try_except body handler).
Proof.
  intros Hb Hh m. unfold Client.try_except. specialize (Hb m).
  destruct (body m) as [[a|e] m1]; simpl in *; [done | by rewrite Hh].
Qed.

Lemma client_returns_ret {A : Type} (a : A) : Client.returns (mret a).
Proof. intros m. by eexists _, _. Qed.

Lemma client_returns_bind {A B : Type} (c : Client.C A) (f : A -> Client.C B) :
  Client.returns c -> (forall a, Client.returns (f a)) ->
  Client.returns (c ≫= f).
Proof.
  intros Hc Hf m. rewrite client_bind_run.
  destruct (Hc m) as (a & m1 & ->). apply Hf.
Qed.

Lemma client_returns_try_except {A : Type} (body : Client.C A)
    (handler : exn -> Client.C A) :
  (forall e, Client.returns (handler e)) ->
  Client.returns (Client.try_except body handler).
Proof.
  intros Hh m. unfold Client.try_except.
  destruct (body m) as [[a|e] m1]; [by eexists _, _ | apply Hh].
Qed.

(** A keyword that the caller names and [**kwargs] holds as well is
    refused before the library is entered. *)
Lemma bind_keywords_clash (f k : string) (explicit kwargs : list (string * Json)) :
  k ∈ explicit.*1 -> kw_mem k kwargs = true ->
  exists e, Client.bind_keywords f explicit kwargs = inl e.
Proof.
  intros Hk Hmem. unfold Client.bind_keywords.
  destruct (find _ explicit) as [[k' v']|] eqn:Hfind; [by eexists|].
  exfalso. apply list_elem_of_fmap in Hk as ([k0 v0] & -> & Hin).
  apply list_elem_of_In in Hin.
  eapply find_none in Hfind; [|exact Hin]. simpl in *. congruence.
Qed.

Lemma bind_keywords_pass (f : string) (explicit kwargs : list (string * Json)) :
  (forall k, k ∈ explicit.*1 -> kw_mem k kwargs = false) ->
  Client.bind_keywords f explicit kwargs = inr (explicit ++ kwargs)%list.
Proof.
  intros Hfree. unfold Client.bind_keywords.
  destruct (find _ explicit) as [[k' v']|] eqn:Hfind; [|done].
  apply find_some in Hfind as [Hin Hmem]. simpl in Hmem.
  rewrite Hfree in Hmem; [done|].
  apply list_elem_of_fmap. exists (k', v'). split; [done|].
  by apply list_elem_of_In.
Qed.

Lemma kw_get_app (k : string) (d1 d2 : list (string * Json)) :
  kw_get k (d1 ++ d2)
  = match kw_get k d1 with Some v => Some v | None => kw_get k d2 end.
Proof.
  induction d1 as [|[k' v'] d1 IH]; simpl; [done|].
  by destruct (String.eqb k' k).
Qed.

Lemma kw_mem_app (k : string) (d1 d2 : list (string * Json)) :
  kw_mem k (d1 ++ d2) = kw_mem k d1 || kw_mem k d2.
Proof. unfold kw_mem. rewrite kw_get_app. by destruct (kw_get k d1). Qed.

(** A request refused by the library sends nothing. *)
Lemma requests_call_refused (f method url : string)
    (explicit kwargs : list (string * Json)) (m : Client.Machine) :
  (exists k, k ∈ explicit.*1 /\ kw_mem k kwargs = true)
  \/ kw_mem "method" kwargs = true ->
  exists e, Client.requests_call f method url explicit kwargs m = (Raise e, m).
Proof.
  intros Hclash. unfold Client.requests_call.
  destruct (Client.bind_keywords f explicit kwargs) as [e|keywords] eqn:Hbind;
    [by eexists|].
  destruct Hclash as [(k & Hk & Hmem)|Hmethod].
  { destruct (bind_keywords_clash f k explicit kwargs Hk Hmem) as [e He].
    congruence. }
  assert (keywords = (explicit ++ kwargs)%list) as ->.
  { unfold Client.bind_keywords in Hbind.
    destruct (find _ explicit) as [[k' v']|]; congruence. }
  unfold Client.api_request. rewrite kw_mem_app, Hmethod, orb_true_r.
  by eexists.
Qed.

Section DirectFetch.
Context `{!PyLib} `{!ClientLib}.

(** X18: the direct fetch of the plugin never raises and never touches
    the plugin object, Redis or the blocked-requests file; its result is
    a dictionary marked [direct].  It sends at most one request, and only
    through [requests.get]: whenever [**kwargs] names [headers],
    [timeout] or [method] (keywords that the function passes itself, or
    that [requests.get] sets), nothing is sent and the result is a
    failure.  (The library's [upper] maps "GET" to itself.) *)
Theorem direct_fetch_sends_only_plain_gets (url : string)
    (kwargs : list (string * Json)) (m : Client.Machine) :
  str_upper "GET" = "GET" ->
  exists result m',
    Client._direct_fetch url kwargs m = (Ret (JDict result), m')
    /\ kw_get "direct" result = Some (JBool true)
    /\ Client.m_self m' = Client.m_self m
    /\ Client.m_redis m' = Client.m_redis m
    /\ Client.m_file m' = Client.m_file m
    /\ (Client.m_sent m' = Client.m_sent m
        \/ Client.m_sent m'
           = (Client.m_sent m
              ++ [{| Client.rc_method := "get"; Client.rc_url := url;
                     Client.rc_keywords :=
                       [("headers", JDict []); ("timeout", JNum 30)]
                       ++ kwargs |}])%list)
    /\ (kw_mem "headers" kwargs || kw_mem "timeout" kwargs
        || kw_mem "method" kwargs = true ->
        Client.m_sent m' = Client.m_sent m
        /\ kw_get "success" result = Some (JBool false)).
Proof.
  intros Hupper.
  (* a request that is refused *)
  assert (Hfail : forall e m1,
    Client.m_self m1 = Client.m_self m -> Client.m_redis m1 = Client.m_redis m ->
    Client.m_file m1 = Client.m_file m -> Client.m_sent m1 = Client.m_sent m ->
    exists result m',
      (Ret (JDict [("success", JBool false); ("error", JStr (str_exn e));
                   ("url", JStr url); ("direct", JBool true)]), m1)
      = (Ret (JDict result), m')
      /\ kw_get "direct" result = Some (JBool true)
      /\ Client.m_self m' = Client.m_self m
      /\ Client.m_redis m' = Client.m_redis m
      /\ Client.m_file m' = Client.m_file m
      /\ (Client.m_sent m' = Client.m_sent m
          \/ Client.m_sent m'
             = (Client.m_sent m
                ++ [{| Client.rc_method := "get"; Client.rc_url := url;
                       Client.rc_keywords :=
                         [("headers", JDict []); ("timeout", JNum 30)]
                         ++ kwargs |}])%list)
      /\ (kw_mem "headers" kwargs || kw_mem "timeout" kwargs
          || kw_mem "method" kwargs = true ->
          Client.m_sent m' = Client.m_sent m
          /\ kw_get "success" result = Some (JBool false))).
  { intros e m1 Hself Hredis Hfile Hsent. eexists _, m1.
    split; [reflexivity|]. split_and!; try done. by left. }
  unfold Client._direct_fetch, Client.try_except.
  rewrite client_bind_run. cbn [Client.time_time].
  set (m0 := Client.set_step (S (Client.m_step m)) m).
  rewrite client_bind_run.
  destruct (kw_get "method" kwargs) as [method|] eqn:Hmethod; cbn [default from_option id].
  - (* [method] among the keywords: no call gets through *)
    assert (Hmem : kw_mem "method" kwargs = true)
      by (unfold kw_mem; by rewrite Hmethod).
    destruct method as [| | |s| |];
      try (cbn [Client.upper_of Client.raise]; by apply Hfail).
    cbn [Client.upper_of mret Client.C_ret]. rewrite client_bind_run.
    match goal with
    | |- context [(if ?c then ?a else if ?d then ?b1 else ?b2) m0] =>
        assert (Hrefused : exists e,
          (if c then a else if d then b1 else b2) m0 = (Raise e, m0))
    end.
    { destruct (String.eqb _ "GET"); [|destruct (json_truthy _)];
        apply requests_call_refused; by right. }
    destruct Hrefused as [e ->]. by apply Hfail.
  - (* the default method *)
    cbn [Client.upper_of mret Client.C_ret]. rewrite Hupper, String.eqb_refl.
    rewrite client_bind_run.
    destruct (kw_mem "headers" kwargs) eqn:Hheaders.
    { destruct (requests_call_refused "requests.api.get" "get" url
                  [("headers", default (JDict []) (kw_get "headers" kwargs));
                   ("timeout", default (JNum 30) (kw_get "timeout" kwargs))]
                  kwargs m0) as [e ->]; [|by apply Hfail].
      left. exists "headers". split; [by left|done]. }
    destruct (kw_mem "timeout" kwargs) eqn:Htimeout.
    { destruct (requests_call_refused "requests.api.get" "get" url
                  [("headers", default (JDict []) (kw_get "headers" kwargs));
                   ("timeout", default (JNum 30) (kw_get "timeout" kwargs))]
                  kwargs m0) as [e ->]; [|by apply Hfail].
      left. exists "timeout". split; [by right; left|done]. }
    assert (kw_get "headers" kwargs = None) as ->
      by (unfold kw_mem in Hheaders; by destruct (kw_get "headers" kwargs)).
    assert (kw_get "timeout" kwargs = None) as ->
      by (unfold kw_mem in Htimeout; by destruct (kw_get "timeout" kwargs)).
    cbn [default from_option id]. unfold Client.requests_call.
    rewrite bind_keywords_pass.
    2:{ intros k [->|[->|[]%elem_of_nil]%elem_of_cons]%elem_of_cons; done. }
    unfold Client.api_request.
    destruct (kw_mem "method" _); [by apply Hfail|].
    destruct (kw_mem "url" _); [by apply Hfail|].
    destruct (find _ _) as [[k v]|]; [by apply Hfail|].
    unfold Client.send.
    destruct (Client.ce_answer _ _ _) as [status body hdrs real_url|e].
    + rewrite client_bind_run. cbn [Client.time_time mret Client.C_ret].
      eexists _, _. split; [reflexivity|]. cbn.
      split_and!; try done. by right.
    + eexists _, _. split; [reflexivity|]. cbn.
      split_and!; try done. by right.
Qed.
End DirectFetch.

(** ** What the client leaves alone *)



Section ClientFrame.
Context `{!PyLib} `{!ClientLib} {X : Type} (view : Client.Machine -> X).
Hypothesis view_step : forall n m, view (Client.set_step n m) = view m.
Hypothesis view_log : forall l m, view (Client.set_log l m) = view m.
Hypothesis view_sent : forall l m, view (Client.set_sent l m) = view m.
Hypothesis view_redis : forall db m, view (Client.set_redis db m) = view m.

Lemma client_keeps_time_time : Client.keeps view Client.time_time.
Proof. intros m. apply view_step. Qed.

Lemma client_keeps_logger (r : LogRecord) : Client.keeps view (Client.logger r).
Proof. intros m. apply view_log. Qed.

Lemma client_keeps_self : Client.keeps view Client.self.
Proof. by intros m. Qed.

Lemma client_keeps_when (c : bool) (body : Client.C unit) :
  Client.keeps view body -> Client.keeps view (Client.when c body).
Proof. destruct c; [done | intros _; apply client_keeps_ret]. Qed.

Lemma client_keeps_requests_call (f method url : string)
    (explicit kwargs : list (string * Json)) :
  Client.keeps view (Client.requests_call f method url explicit kwargs).
Proof.
  unfold Client.requests_call.
  destruct (Client.bind_keywords _ _ _); [apply client_keeps_raise|].
  unfold Client.api_request.
  destruct (kw_mem "method" _); [apply client_keeps_raise|].
  destruct (kw_mem "url" _); [apply client_keeps_raise|].
  destruct (find _ _) as [[k v]|]; [apply client_keeps_raise|].
  intros m. unfold Client.send.
  destruct (Client.ce_answer _ _ _); simpl; by rewrite view_sent, view_step.
Qed.


Lemma client_keeps_get_cached_result (cache_key : string) :
  Client.keeps view (Client._get_cached_result cache_key).
Proof.
  unfold Client._get_cached_result.
  apply client_keeps_bind; [apply client_keeps_self|]. intros plugin.
  destruct (negb _); [apply client_keeps_ret|].
  apply client_keeps_try_except; [|intros; apply client_keeps_ret].
  apply client_keeps_bind.
  { intros m. unfold Client.redis_get.
    destruct (Client.ce_redis_fault _ _); apply view_step. }
  intros [[|c text]|]; try apply client_keeps_ret.
  destruct (json_loads_value _);
    [apply client_keeps_raise | apply client_keeps_ret].
Qed.

Lemma client_keeps_cache_result (cache_key : string) (result : Json) :
  Client.keeps view (Client._cache_result cache_key result).
Proof.
  unfold Client._cache_result.
  apply client_keeps_bind; [apply client_keeps_self|]. intros plugin.
  destruct (negb _); [apply client_keeps_ret|].
  apply client_keeps_try_except; [|intros; apply client_keeps_ret].
  intros m. unfold Client.redis_setex.
  destruct (Client.ce_redis_fault _ _); simpl;
    [apply view_step | by rewrite view_redis, view_step].
Qed.

Lemma client_keeps_direct_fetch (url : string) (kwargs : list (string * Json)) :
  Client.keeps view (Client._direct_fetch url kwargs).
Proof.
  unfold Client._direct_fetch.
  apply client_keeps_try_except; [|intros; apply client_keeps_ret].
  apply client_keeps_bind; [apply client_keeps_time_time|]. intros start_time.
  apply client_keeps_bind.
  { unfold Client.upper_of. destruct (default _ _);
      first [apply client_keeps_ret | apply client_keeps_raise]. }
  intros upper. apply client_keeps_bind.
  { destruct (String.eqb _ _); [|destruct (json_truthy _)];
      apply client_keeps_requests_call. }
  intros response.
  apply client_keeps_bind; [apply client_keeps_time_time|]. intros t.
  apply client_keeps_ret.
Qed.


End ClientFrame.

Section ClientReturns.
Context `{!PyLib} `{!ClientLib}.

Lemma client_returns_self : Client.returns Client.self.
Proof. intros m. by eexists _, _. Qed.

Lemma client_returns_logger (r : LogRecord) : Client.returns (Client.logger r).
Proof. intros m. by eexists _, _. Qed.

Lemma client_returns_time_time : Client.returns Client.time_time.
Proof. intros m. by eexists _, _. Qed.

Lemma client_returns_is_proxy_available :
  Client.returns Client._is_proxy_available.
Proof.
  apply client_returns_try_except. intros e. apply client_returns_ret.
Qed.


Lemma client_returns_direct_fetch (url : string)
    (kwargs : list (string * Json)) :
  Client.returns (Client._direct_fetch url kwargs).
Proof.
  apply client_returns_try_except. intros e. apply client_returns_ret.
Qed.

Lemma client_returns_fall_back (url : string) (kwargs : list (string * Json))
    (error_msg : string) :
  Client.returns (Client.fall_back url kwargs error_msg).
Proof.
  unfold Client.fall_back.
  apply client_returns_bind; [apply client_returns_self|]. intros plugin.
  destruct (Client.fallback_enabled plugin);
    [apply client_returns_direct_fetch | apply client_returns_ret].
Qed.

Lemma client_returns_proxy_fetch (url cache_key : string)
    (kwargs : list (string * Json)) :
  Client.returns (Client._proxy_fetch url cache_key kwargs).
Proof.
  apply client_returns_try_except. intros e.
  apply client_returns_bind; [apply client_returns_logger|].
  intros _. apply client_returns_fall_back.
Qed.

(** The log of a refused request: the entry is appended to the list of
    the plugin object, whatever happens to the file. *)
Lemma client_log_blocked_request_run (url : string)
    (kwargs : list (string * Json)) (reason : string) (m : Client.Machine) :
  exists stamp m',
    Client._log_blocked_request url kwargs reason m = (Ret tt, m')
    /\ Client.m_sent m' = Client.m_sent m
    /\ Client.m_redis m' = Client.m_redis m
    /\ Client.config (Client.m_self m') = Client.config (Client.m_self m)
    /\ Client.enabled (Client.m_self m') = Client.enabled (Client.m_self m)
    /\ Client.proxy_url (Client.m_self m') = Client.proxy_url (Client.m_self m)
    /\ Client.api_key (Client.m_self m') = Client.api_key (Client.m_self m)
    /\ Client.fallback_enabled (Client.m_self m')
       = Client.fallback_enabled (Client.m_self m)
    /\ Client.request_count (Client.m_self m')
       = Client.request_count (Client.m_self m)
    /\ Client.cache_hits (Client.m_self m') = Client.cache_hits (Client.m_self m)
    /\ Client.blocked_requests (Client.m_self m')
       = (Client.blocked_requests (Client.m_self m)
          ++ [{| Client.me_timestamp := stamp; Client.me_url := url;
                 Client.me_reason := reason; Client.me_kwargs := kwargs |}])%list.
Proof.
  unfold Client._log_blocked_request.
  rewrite client_bind_run. cbn [Client.time_time].
  rewrite client_bind_run. cbn [Client.remember_blocked].
  unfold Client.try_except. rewrite client_bind_run.
  unfold Client.read_blocked_file. cbn [Client.m_file Client.set_self Client.set_step].
  destruct (Client.m_file m) as [| |entries].
  - rewrite client_bind_run. cbn [Client.time_strftime].
    unfold Client.write_blocked_file.
    destruct (Client.ce_fs_fault _ _); eexists _, _; (split; [reflexivity|]);
      by cbn.
  - eexists _, _. split; [reflexivity|]. by cbn.
  - rewrite client_bind_run. cbn [Client.time_strftime].
    unfold Client.write_blocked_file.
    destruct (Client.ce_fs_fault _ _); eexists _, _; (split; [reflexivity|]);
      by cbn.
Qed.

End ClientReturns.

(** ** The domain policy of the client *)

Section ClientPolicy.
Context `{!PyLib} `{!ClientLib}.

(** The health check, from the answer of the proxy. *)
Lemma is_proxy_available_run (m : Client.Machine) :
  Client._is_proxy_available m
  = (Ret match Client.ce_answer (Client.m_env m) (Client.m_step m)
                 (Client.health_call (Client.m_self m)) with
         | NetResponse status _ _ _ => status =? 200
         | NetRaise _ => false
         end,
     Client.set_sent
       (Client.m_sent m ++ [Client.health_call (Client.m_self m)])
       (Client.set_step (S (Client.m_step m)) m)).
Proof.
  unfold Client._is_proxy_available, Client.try_except.
  rewrite client_bind_run. cbn [Client.self]. rewrite client_bind_run.
  unfold Client.requests_call, Client.bind_keywords. cbn [find kw_mem kw_get fst].
  unfold Client.api_request. cbn. unfold Client.send.
  fold (Client.health_call (Client.m_self m)).
  by destruct (Client.ce_answer _ _ _).
Qed.

(** X20: a refused URL, with the plugin enabled and the proxy answering
    its health check.  [webfetch] returns the result marked [blocked],
    sends nothing but the health check (neither the proxy nor the target
    is contacted), leaves Redis alone, and appends exactly one entry with
    the URL, the reason and the keywords of the call to the list of the
    plugin object. *)
Theorem webfetch_refuses_domain (url : string) (kwargs : list (string * Json))
    (m : Client.Machine) (body : string) (hdrs : dict) (real_url : string) :
  Client.enabled (Client.m_self m) = true ->
  Client.ce_answer (Client.m_env m) (Client.m_step m)
    (Client.health_call (Client.m_self m))
  = NetResponse 200 body hdrs real_url ->
  Plugin._is_domain_allowed (Client.security (Client.config (Client.m_self m)))
    url = false ->
  exists stamp m',
    Client.webfetch url kwargs m
    = (Ret (JDict [("success", JBool false);
                   ("error", JStr "Domain blocked by security policy");
                   ("url", JStr url); ("blocked", JBool true)]), m')
    /\ Client.m_sent m'
       = (Client.m_sent m ++ [Client.health_call (Client.m_self m)])%list
    /\ Client.m_redis m' = Client.m_redis m
    /\ Client.blocked_requests (Client.m_self m')
       = (Client.blocked_requests (Client.m_self m)
          ++ [{| Client.me_timestamp := stamp; Client.me_url := url;
                 Client.me_reason := "Domain not allowed";
                 Client.me_kwargs := kwargs |}])%list.
Proof.
  intros Henabled Hhealth Hrefused.
  unfold Client.webfetch. rewrite client_bind_run. cbn [Client.self].
  rewrite Henabled. cbn [negb].
  rewrite client_bind_run. cbn [Client.count_request].
  rewrite client_bind_run, is_proxy_available_run.
  change (Client.health_call (Client.m_self (Client.set_self _ m)))
    with (Client.health_call (Client.m_self m)).
  cbn [Client.m_self Client.set_self Client.m_env Client.m_step].
  rewrite Hhealth.
  cbn [Z.eqb Pos.eqb negb]. rewrite Hrefused. cbn [negb].
  rewrite client_bind_run.
  match goal with
  | |- context [Client._log_blocked_request url kwargs ?reason ?m1] =>
      destruct (client_log_blocked_request_run url kwargs reason m1)
        as (stamp & m' & -> & Hsent & Hredis & _ & _ & _ & _ & _ & _ & _
            & Hblocked)
  end.
  exists stamp, m'. split; [reflexivity|]. by split_and!.
Qed.

(** A direct fetch with keywords that can be passed on sends one
    [requests.get]. *)
Lemma direct_fetch_passable (url : string) (kwargs : list (string * Json))
    (m : Client.Machine) :
  str_upper "GET" = "GET" ->
  Client.passable kwargs = true ->
  Client.m_sent (Client._direct_fetch url kwargs m).2
  = (Client.m_sent m
     ++ [{| Client.rc_method := "get"; Client.rc_url := url;
            Client.rc_keywords :=
              [("headers", JDict []); ("timeout", JNum 30)] ++ kwargs |}])%list.
Proof.
  intros Hupper Hpass. unfold Client.passable in Hpass.
  apply andb_true_iff in Hpass as [Hpass Hknown].
  apply andb_true_iff in Hpass as [Hpass Hurl].
  apply andb_true_iff in Hpass as [Hpass Hmethod].
  apply andb_true_iff in Hpass as [Hheaders Htimeout].
  apply negb_true_iff in Hheaders, Htimeout, Hmethod, Hurl.
  assert (Hget : forall k, kw_mem k kwargs = false -> kw_get k kwargs = None).
  { intros k. unfold kw_mem. by destruct (kw_get k kwargs). }
  unfold Client._direct_fetch, Client.try_except.
  rewrite client_bind_run. cbn [Client.time_time].
  rewrite (Hget _ Hheaders), (Hget _ Htimeout), (Hget _ Hmethod).
  cbn [default from_option id]. rewrite client_bind_run.
  cbn [Client.upper_of mret Client.C_ret]. rewrite Hupper, String.eqb_refl.
  rewrite client_bind_run. unfold Client.requests_call.
  rewrite bind_keywords_pass.
  2:{ intros k [->|[->|[]%elem_of_nil]%elem_of_cons]%elem_of_cons; done. }
  unfold Client.api_request.
  rewrite !kw_mem_app, Hmethod, Hurl.
  change (kw_mem "method" [("headers", JDict []); ("timeout", JNum 30)])
    with false.
  change (kw_mem "url" [("headers", JDict []); ("timeout", JNum 30)])
    with false.
  cbn [orb].
  assert (find (fun kv : string * Json =>
                  negb (existsb (String.eqb kv.1) Client.session_keywords))
            ([("headers", JDict []); ("timeout", JNum 30)] ++ kwargs)
          = None) as ->.
  { destruct (find _ _) as [kv|] eqn:Hfind; [|done].
    apply find_some in Hfind as [Hin Hunknown].
    apply negb_true_iff in Hunknown.
    apply in_app_or in Hin as [Hin|Hin].
    - destruct Hin as [<-|[<-|[]]]; discriminate Hunknown.
    - rewrite forallb_forall in Hknown. rewrite Hknown in Hunknown; done. }
  unfold Client.send. cbv beta.
  destruct (Client.ce_answer _ _ _) as [status text hdrs real_url|e]; [|done].
  by rewrite client_bind_run.
Qed.

(** X21: the fallback does not ask the domain policy.  With the plugin
    enabled, fallback enabled and the health check of the proxy failing,
    [webfetch] fetches every URL directly, a URL that the policy refuses
    included: after the health check one [requests.get] goes to the URL
    itself, and nothing is added to the list of blocked requests.  (For
    keywords that the direct fetch can pass on.) *)
Theorem fallback_skips_domain_policy (url : string)
    (kwargs : list (string * Json)) (m : Client.Machine) (e : exn) :
  str_upper "GET" = "GET" ->
  Client.passable kwargs = true ->
  Client.enabled (Client.m_self m) = true ->
  Client.fallback_enabled (Client.m_self m) = true ->
  Client.ce_answer (Client.m_env m) (Client.m_step m)
    (Client.health_call (Client.m_self m)) = NetRaise e ->
  exists result m',
    Client.webfetch url kwargs m = (Ret result, m')
    /\ Client.m_sent m'
       = (Client.m_sent m
          ++ [Client.health_call (Client.m_self m);
              {| Client.rc_method := "get"; Client.rc_url := url;
                 Client.rc_keywords :=
                   [("headers", JDict []); ("timeout", JNum 30)] ++ kwargs |}])%list
    /\ Client.blocked_requests (Client.m_self m')
       = Client.blocked_requests (Client.m_self m).
Proof.
  intros Hupper Hpass Henabled Hfallback Hdown.
  unfold Client.webfetch. rewrite client_bind_run. cbn [Client.self].
  rewrite Henabled. cbn [negb].
  rewrite client_bind_run. cbn [Client.count_request].
  rewrite client_bind_run, is_proxy_available_run.
  change (Client.health_call (Client.m_self (Client.set_self _ m)))
    with (Client.health_call (Client.m_self m)).
  cbn [Client.m_self Client.set_self Client.m_env Client.m_step].
  rewrite Hdown.
  cbn [negb]. rewrite Hfallback.
  rewrite client_bind_run. cbn [Client.logger].
  match goal with
  | |- context [Client._direct_fetch url kwargs ?m1] =>
      pose proof (direct_fetch_passable url kwargs m1 Hupper Hpass) as Hsent;
      assert (Hself : Client.m_self (Client._direct_fetch url kwargs m1).2
                      = Client.m_self m1)
        by (by apply client_keeps_direct_fetch);
      destruct (client_returns_direct_fetch url kwargs m1)
        as (result & m' & Hrun)
  end.
  rewrite Hrun in *. exists result, m'. split; [done|].
  cbn in Hsent, Hself. rewrite Hsent, Hself. cbn.
  by rewrite <- app_assoc.
Qed.
End ClientPolicy.

(** ** How many requests a call of the client sends *)

Lemma sends_weaken {A : Type} (r e r' e' : nat) (c : Client.C A) :
  (r <= r')%nat -> (e <= e')%nat ->
  Client.sends_at_most r e c -> Client.sends_at_most r' e' c.
Proof.
  intros Hr He Hc m. destruct (Hc m) as (extra & Hsent & Hlen).
  exists extra. split; [done|]. destruct (c m).1; lia.
Qed.

Lemma sends_returning {A : Type} (r e : nat) (c : Client.C A) :
  Client.returns c -> Client.sends_at_most r e c -> Client.sends_at_most r 0 c.
Proof.
  intros Hreturns Hc m. destruct (Hc m) as (extra & Hsent & Hlen).
  exists extra. split; [done|].
  destruct (Hreturns m) as (a & m' & Hrun). by rewrite Hrun in *.
Qed.

Lemma sends_nothing {A : Type} (c : Client.C A) :
  Client.keeps Client.m_sent c -> Client.sends_at_most 0 0 c.
Proof.
  intros Hc m. exists []. rewrite app_nil_r. split; [apply Hc|].
  destruct (c m).1; simpl; lia.
Qed.

Lemma sends_bind {A B : Type} (r1 e1 r2 e2 : nat) (c : Client.C A)
    (f : A -> Client.C B) :
  Client.sends_at_most r1 e1 c ->
  (forall a, Client.sends_at_most r2 e2 (f a)) ->
  Client.sends_at_most (r1 + r2) (Nat.max e1 (r1 + e2)) (c ≫= f).
Proof.
  intros Hc Hf m. rewrite client_bind_run.
  destruct (Hc m) as (extra1 & Hsent1 & Hlen1).
  destruct (c m) as [[a|e] m1]; cbn [fst snd] in *.
  - destruct (Hf a m1) as (extra2 & Hsent2 & Hlen2).
    exists (extra1 ++ extra2)%list. rewrite Hsent2, Hsent1, app_assoc.
    split; [done|]. rewrite length_app. destruct (f a m1).1; lia.
  - exists extra1. split; [done|]. lia.
Qed.

Lemma sends_try_except {A : Type} (r1 e1 r2 e2 : nat) (body : Client.C A)
    (handler : exn -> Client.C A) :
  Client.sends_at_most r1 e1 body ->
  (forall e, Client.sends_at_most r2 e2 (handler e)) ->
  Client.sends_at_most (Nat.max r1 (e1 + r2)) (e1 + e2)
    (Client.try_except body handler).
Proof.
  intros Hb Hh m. unfold Client.try_except.
  destruct (Hb m) as (extra1 & Hsent1 & Hlen1).
  destruct (body m) as [[a|e] m1]; cbn [fst snd] in *.
  - exists extra1. split; [done|]. lia.
  - destruct (Hh e m1) as (extra2 & Hsent2 & Hlen2).
    exists (extra1 ++ extra2)%list. rewrite Hsent2, Hsent1, app_assoc.
    split; [done|]. rewrite length_app. destruct (handler e m1).1; lia.
Qed.

Lemma sends_requests_call (f method url : string)
    (explicit kwargs : list (string * Json)) :
  Client.sends_at_most 1 1 (Client.requests_call f method url explicit kwargs).
Proof.
  assert (Hnone : forall e, Client.sends_at_most 1 1
                              (Client.raise (A := Client.Response) e)).
  { intros e. apply (sends_weaken 0 0); [lia | lia |].
    apply sends_nothing, client_keeps_raise. }
  unfold Client.requests_call.
  destruct (Client.bind_keywords _ _ _); [apply Hnone|].
  unfold Client.api_request.
  destruct (kw_mem "method" _); [apply Hnone|].
  destruct (kw_mem "url" _); [apply Hnone|].
  destruct (find _ _) as [[k v]|]; [apply Hnone|].
  intros m. eexists [_]. unfold Client.send.
  destruct (Client.ce_answer _ _ _); cbn; split; done.
Qed.

Section ClientTraffic.
Context `{!PyLib} `{!ClientLib}.

Lemma sends_direct_fetch (url : string) (kwargs : list (string * Json)) :
  Client.sends_at_most 1 0 (Client._direct_fetch url kwargs).
Proof.
  apply (sends_returning 1 1); [apply client_returns_direct_fetch|].
  unfold Client._direct_fetch.
  apply (sends_try_except 1 1 0 0); [|intros; apply sends_nothing, client_keeps_ret].
  apply (sends_bind 0 0 1 1); [by apply sends_nothing, client_keeps_time_time|].
  intros start_time. apply (sends_bind 0 0 1 1).
  { apply sends_nothing. unfold Client.upper_of. destruct (default _ _);
      first [apply client_keeps_ret | apply client_keeps_raise]. }
  intros upper. apply (sends_bind 1 1 0 0).
  { destruct (String.eqb _ _); [|destruct (json_truthy _)];
      apply sends_requests_call. }
  intros response. apply sends_nothing.
  apply client_keeps_bind; [by apply client_keeps_time_time|].
  intros t. apply client_keeps_ret.
Qed.

Lemma sends_fall_back (url : string) (kwargs : list (string * Json))
    (error_msg : string) :
  Client.sends_at_most 1 0 (Client.fall_back url kwargs error_msg).
Proof.
  unfold Client.fall_back.
  apply (sends_bind 0 0 1 0); [apply sends_nothing, client_keeps_self|].
  intros plugin. destruct (Client.fallback_enabled plugin).
  - apply sends_direct_fetch.
  - apply (sends_weaken 0 0); [lia | lia |].
    apply sends_nothing, client_keeps_ret.
Qed.

Lemma sends_proxy_fetch (url cache_key : string)
    (kwargs : list (string * Json)) :
  Client.sends_at_most 2 0 (Client._proxy_fetch url cache_key kwargs).
Proof.
  apply (sends_returning 2 1); [apply client_returns_proxy_fetch|].
  unfold Client._proxy_fetch.
  apply (sends_try_except 2 1 1 0).
  2:{ intros e. apply (sends_bind 0 0 1 0);
        [by apply sends_nothing, client_keeps_logger|].
      intros _. apply sends_fall_back. }
  apply (sends_bind 0 0 2 1); [apply sends_nothing, client_keeps_self|].
  intros plugin. apply (sends_bind 0 0 2 1).
  { apply sends_nothing. unfold Client.plus_five. destruct (default _ _);
      first [apply client_keeps_ret | apply client_keeps_raise]. }
  intros timeout. apply (sends_bind 1 1 1 0); [apply sends_requests_call|].
  intros response. destruct (_ =? 200).
  - apply (sends_weaken 0 0); [lia | lia |]. apply sends_nothing.
    destruct (json_loads_value _) as [e|result]; [apply client_keeps_raise|].
    apply client_keeps_bind.
    { unfold Client.get_success. destruct result;
        first [apply client_keeps_ret | apply client_keeps_raise]. }
    intros succeeded. apply client_keeps_bind; [|intros; apply client_keeps_ret].
    by apply client_keeps_when, client_keeps_cache_result.
  - apply (sends_bind 0 0 1 0);
      [by apply sends_nothing, client_keeps_logger|].
    intros _. apply sends_fall_back.
Qed.

(** X22: one call, at most three requests.  Whatever the proxy, the
    target and Redis do, a call of [webfetch] sends at most three HTTP
    requests (the health check, the request to the proxy, the direct
    fetch), and at most one when the plugin is disabled: there is no
    retry. *)
Theorem webfetch_sends_at_most_three (url : string)
    (kwargs : list (string * Json)) (m : Client.Machine) :
  exists extra,
    Client.m_sent (Client.webfetch url kwargs m).2
    = (Client.m_sent m ++ extra)%list
    /\ (length extra <= 3)%nat
    /\ (Client.enabled (Client.m_self m) = false -> (length extra <= 1)%nat).
Proof.
  assert (Hdirect := sends_direct_fetch url kwargs).
  assert (Hproxy := sends_proxy_fetch url
                      (Client._generate_cache_key url kwargs) kwargs).
  assert (Henabled_path : Client.sends_at_most 3 1
    (Client.count_request;;
     available ← Client._is_proxy_available;
     if negb available
     then if Client.fallback_enabled (Client.m_self m)
          then Client.logger
                 (LogInfo ("Proxy unavailable, using direct fetch for " ++ url));;
               Client._direct_fetch url kwargs
          else mret (JDict [("success", JBool false);
                            ("error", JStr "Proxy unavailable and fallback disabled");
                            ("url", JStr url)])
     else if negb (Plugin._is_domain_allowed
                     (Client.security (Client.config (Client.m_self m))) url)
     then Client._log_blocked_request url kwargs "Domain not allowed";;
          mret (JDict [("success", JBool false);
                       ("error", JStr "Domain blocked by security policy");
                       ("url", JStr url); ("blocked", JBool true)])
     else cached_result ← Client._get_cached_result
                            (Client._generate_cache_key url kwargs);
          match cached_result with
          | Some result =>
              if json_truthy result
              then Client.count_cache_hit;;
                   Client.logger (LogInfo ("Cache hit for " ++ url));;
                   mret result
              else Client._proxy_fetch url
                     (Client._generate_cache_key url kwargs) kwargs
          | None => Client._proxy_fetch url
                      (Client._generate_cache_key url kwargs) kwargs
          end)).
  { apply (sends_bind 0 0 3 1); [by apply sends_nothing|]. intros _.
    apply (sends_bind 1 0 2 0).
    { apply (sends_returning 1 1); [apply client_returns_is_proxy_available|].
      unfold Client._is_proxy_available.
      apply (sends_try_except 1 1 0 0);
        [|intros; apply sends_nothing, client_keeps_ret].
      apply (sends_bind 0 0 1 1); [apply sends_nothing, client_keeps_self|].
      intros plugin. apply (sends_bind 1 1 0 0); [apply sends_requests_call|].
      intros response. apply sends_nothing, client_keeps_ret. }
    intros available. destruct (negb available).
    { destruct (Client.fallback_enabled _).
      - apply (sends_bind 0 0 2 0);
          [by apply sends_nothing, client_keeps_logger|].
        intros _. apply (sends_weaken 1 0); [lia | lia | exact Hdirect].
      - apply (sends_weaken 0 0); [lia | lia |].
        apply sends_nothing, client_keeps_ret. }
    destruct (negb (Plugin._is_domain_allowed _ _)).
    { apply (sends_weaken 0 0); [lia | lia |]. apply sends_nothing.
      apply client_keeps_bind; [|intros; apply client_keeps_ret].
      intros m0.
      destruct (client_log_blocked_request_run url kwargs "Domain not allowed" m0)
        as (stamp & m' & -> & Hsent & _). exact Hsent. }
    apply (sends_bind 0 0 2 0).
    { by apply sends_nothing, client_keeps_get_cached_result. }
    intros [result|]; [|exact Hproxy].
    destruct (json_truthy result); [|exact Hproxy].
    apply (sends_weaken 0 0); [lia | lia |]. apply sends_nothing.
    apply client_keeps_bind; [by intros m0|]. intros _.
    apply client_keeps_bind; [by apply client_keeps_logger|]. intros _.
    apply client_keeps_ret. }
  unfold Client.webfetch. rewrite client_bind_run. cbn [Client.self].
  destruct (Client.enabled (Client.m_self m)); cbn [negb].
  - destruct (Henabled_path m) as (extra & Hsent & Hlen).
    exists extra. split; [exact Hsent|]. split; [|done].
    match type of Hlen with (_ <= match ?o with _ => _ end)%nat =>
      destruct o end; lia.
  - destruct (Hdirect m) as (extra & Hsent & Hlen).
    exists extra. split; [exact Hsent|].
    match type of Hlen with (_ <= match ?o with _ => _ end)%nat =>
      destruct o end; split; intros; lia.
Qed.
End ClientTraffic.

(** ** The client's record of refused requests *)


Section ClientLog.
Context `{!PyLib} `{!ClientLib}.


(** X24: [get_blocked_requests] of the plugin returns, for [limit >= 1],
    the last [min(limit, n)] of the [n] entries that the plugin object
    holds; for [limit = 0] it returns all of them, and for a negative
    limit all but the first [-limit].  It changes nothing. *)
Theorem client_blocked_listing (limit : Z) (m : Client.Machine) :
  exists recent,
    Client.get_blocked_requests limit m = (Ret recent, m)
    /\ let held := Client.blocked_requests (Client.m_self m) in
       (1 <= limit ->
        recent = drop (length held - Z.to_nat limit) held
        /\ length recent = Nat.min (Z.to_nat limit) (length held))
       /\ (limit = 0 -> recent = held)
       /\ (limit < 0 -> recent = drop (Z.to_nat (- limit)) held).
Proof.
  unfold Client.get_blocked_requests. rewrite client_bind_run.
  cbn [Client.self mret Client.C_ret]. eexists. split; [reflexivity|].
  cbv zeta. unfold slice_from. split_and!.
  - intros Hlimit. destruct (- limit <? 0) eqn:Hneg;
      [|apply Z.ltb_ge in Hneg; lia].
    replace (Z.to_nat (Z.of_nat (length (Client.blocked_requests (Client.m_self m)))
                       + - limit))
      with (length (Client.blocked_requests (Client.m_self m)) - Z.to_nat limit)%nat
      by lia.
    split; [done|]. rewrite length_drop. lia.
  - intros ->. done.
  - intros Hlimit. destruct (- limit <? 0) eqn:Hneg;
      [apply Z.ltb_lt in Hneg; lia | done].
Qed.
End ClientLog.

(** ** The requests of a bulk fetch *)

Section BulkTraffic.
Context `{!PyLib}.



End BulkTraffic.

(** ** A failing peer, seen from [POST /fetch] *)

Section PeerFailure.
Context `{!PyLib}.

(** X26: when the outbound request fails with the exception [e],
    [POST /fetch] answers HTTP 408 "Request timeout" for a timeout and
    HTTP 500 with the text of [e] for any other exception with a
    non-empty text.  An exception with an empty text is not turned into
    an HTTP error: the handler answers with a JSON body that reports
    status code 500 and success false. *)
Theorem peer_failure_at_endpoint (proxy : Proxy) (request : FetchRequest)
    (api_key : string) (w : World) (e : exn) :
  (forall n call, e_net (w_env w) n call = NetRaise e) ->
  w_net (App.fetch_url proxy request api_key w).2 <> w_net w ->
  exists answer w',
    App.fetch_url proxy request api_key w = (Ret answer, w')
    /\ match e with
       | TimeoutError _ =>
           answer = inl {| http_status := 408; detail := "Request timeout" |}
       | Exception msg =>
           if truthy msg
           then answer = inl {| http_status := 500; detail := msg |}
           else exists body,
                  answer = inr body
                  /\ fa_status_code body = 500
                  /\ fa_success body = false
                  /\ fa_error body = Some ""
       end.
Proof.
  intros Hpeer Hsent.
  destruct (returns_fetch_url proxy request (Some api_key) w)
    as (result & w' & Hrun).
  assert (Hworld : (App.fetch_url proxy request api_key w).2 = w').
  { unfold App.fetch_url, try_except. rewrite bind_run, Hrun.
    by destruct (negb (success result) && truthy_opt (error result)). }
  rewrite Hworld in Hsent.
  destruct (fetch_url_cases proxy request (Some api_key) w)
    as [[Hsame _]|(start_time & request_id & w1 & Henv1 & _ & _ & _ & _ & Hout)];
    rewrite Hrun in *; cbn [fst snd] in *; [done|].
  destruct (fetch_from_network_run proxy request (Some api_key) start_time
              request_id (_generate_cache_key request) w1)
    as (hdrs & w2 & _ & _ & _ & Hblock).
  rewrite Henv1, Hpeer in Hblock. destruct Hblock as [Hraise _].
  rewrite Hraise in Hout.
  destruct Hout as (response & [= <-] & _ & Hexcept).
  unfold App.fetch_url, try_except. rewrite bind_run, Hrun.
  destruct e as [msg|msg].
  - destruct (fetch_url_except_timeout proxy request start_time msg
                (fetch_from_network proxy request (Some api_key) start_time
                   request_id (_generate_cache_key request) w1).2)
      as (w3 & Hhandler).
    rewrite Hhandler in Hexcept. injection Hexcept as <-.
    eexists _, w'. split; [reflexivity|]. done.
  - destruct (fetch_url_except_error proxy request start_time msg
                (fetch_from_network proxy request (Some api_key) start_time
                   request_id (_generate_cache_key request) w1).2)
      as (elapsed & w3 & Hhandler).
    rewrite Hhandler in Hexcept. injection Hexcept as <-.
    cbn [failure_response success error negb andb truthy_opt].
    destruct (truthy msg) eqn:Htruthy.
    + eexists _, w'. split; [reflexivity|]. done.
    + eexists _, w'. split; [reflexivity|].
      eexists. split; [reflexivity|]. cbn. split_and!; try done.
      unfold truthy in Htruthy. apply negb_false_iff, String.eqb_eq in Htruthy.
      by rewrite Htruthy.
Qed.
End PeerFailure.

(** ** Further examples *)

Section MoreExamples.
#[local] Existing Instance py_lib.

Ltac with_fetch run k :=
  let o := eval vm_compute in run in
  lazymatch o with
  | (Ret ?r, ?w) =>
      let Hrun := fresh "Hrun" in
      assert (Hrun : run = (Ret r, w)) by (vm_compute; reflexivity);
      k r w Hrun; clear Hrun
  end.

(** X3, witness: the last two of three entries. *)
Lemma blocked_requests_listing_witness :
  exists recent,
    App.get_blocked_requests 2 world_with_refusals
    = (Ret (inr {| ba_blocked_requests := recent;
                   ba_total := 3;
                   ba_recent_count := Some (length recent) |}),
       world_with_refusals)
    /\ recent = [refusal_of "http://b.example/"; refusal_of "http://c.example/"].
Proof.
  destruct (blocked_requests_listing three_refusals 2 world_with_refusals)
    as (recent & Hrun & Hlast & _); [reflexivity|].
  exists recent. split; [exact Hrun|]. by destruct Hlast as [-> _].
Defined.

(** X4, witness: the request to [EVIL.example.com] against the proxy that
    blocks [evil.example]. *)
Lemma refused_fetch_is_listed_witness :
  exists response w1 entry total w2,
    fetch_url blocking_proxy evil_request None
      (fresh_world (quiet_env ok_answer) ∅) = (Ret response, w1)
    /\ App.get_blocked_requests 1 w1
       = (Ret (inr {| ba_blocked_requests := [entry]; ba_total := total;
                      ba_recent_count := Some 1%nat |}), w2)
    /\ bl_url entry = "http://EVIL.example.com:80/p"
    /\ bl_method entry = "GET"
    /\ bl_reason entry = "DOMAIN_BLOCKED".
Proof.
  apply (refused_fetch_is_listed blocking_proxy evil_request None
           (fresh_world (quiet_env ok_answer) ∅)).
  - vm_compute. reflexivity.
  - intros n. reflexivity.
Defined.

(** X6, witness: the same request through [POST /fetch]. *)
Lemma fetch_endpoint_refuses_domain_witness :
  exists w',
    App.fetch_url blocking_proxy evil_request "key"
      (fresh_world (quiet_env ok_answer) ∅)
    = (Ret (inl {| http_status := 403;
                   detail := "Domain blocked by security policy" |}), w')
    /\ w_net w' = [].
Proof.
  apply (fetch_endpoint_refuses_domain blocking_proxy evil_request "key"
           (fresh_world (quiet_env ok_answer) ∅)).
  vm_compute. reflexivity.
Defined.

(** X9, witness: a fetch of [example_request] leaves the entry of another
    application alone. *)
Lemma fetch_url_redis_footprint_witness :
  w_redis (fetch_url default_proxy example_request None
             (fresh_world (quiet_env ok_answer) foreign_db)).2 !! "session:42"
  = Some (RStr "alice").
Proof.
  rewrite (fetch_url_redis_footprint "session:42" default_proxy
             example_request None
             (fresh_world (quiet_env ok_answer) foreign_db)).
  - reflexivity.
  - intros Heq. vm_compute in Heq. discriminate Heq.
  - intros stamp Heq. cbn in Heq. discriminate Heq.
Defined.

(** X11, witness: the answer to [example_request] is stored. *)
Lemma successful_fetch_is_cached_witness :
  exists response w',
    fetch_url default_proxy example_request None
      (fresh_world (quiet_env ok_answer) ∅) = (Ret response, w')
    /\ w_redis w' !! ("proxy_cache:" ++ _generate_cache_key example_request)
       = Some (RStr (json_dumps response)).
Proof.
  with_fetch (fetch_url default_proxy example_request None
                (fresh_world (quiet_env ok_answer) ∅))
    ltac:(fun r w Hrun =>
      exists r, w; split; [exact Hrun|];
      apply (successful_fetch_is_cached default_proxy example_request None
               (fresh_world (quiet_env ok_answer) ∅) w r
               eq_refl eq_refl (fun n => eq_refl) Hrun)).
  - intros Heq. vm_compute in Heq. discriminate Heq.
  - reflexivity.
Defined.

(** X15, witness: [example_request] fetched twice in the same minute. *)
Lemma second_fetch_is_served_from_cache_witness :
  exists response w1 elapsed w2,
    fetch_url default_proxy example_request None
      (fresh_world (env_with_clock steady_clock ok_answer) ∅)
    = (Ret response, w1)
    /\ fetch_url default_proxy example_request None w1
       = (Ret (set_execution_time response elapsed), w2)
    /\ w_net w2 = w_net w1.
Proof.
  with_fetch (fetch_url default_proxy example_request None
                (fresh_world (env_with_clock steady_clock ok_answer) ∅))
    ltac:(fun r w1 Hrun =>
      exists r, w1;
      destruct (second_fetch_is_served_from_cache default_proxy
                  example_request None
                  (fresh_world (env_with_clock steady_clock ok_answer) ∅)
                  w1 r noon eq_refl eq_refl (fun n => eq_refl) Hrun)
        as (elapsed & w2 & Hsecond & Hnet);
      [| | | | | exists elapsed, w2;
                 split; [exact Hrun | split; [exact Hsecond | exact Hnet]]]).
  - intros Heq. vm_compute in Heq. discriminate Heq.
  - reflexivity.
  - right. split; [intros n; repeat split|].
    split; [right; exists 1; split; [lia | vm_compute; reflexivity]|].
    split; [right; exists 1; split; [lia | vm_compute; reflexivity]|].
    vm_compute. reflexivity.
  - intros Heq. vm_compute in Heq. discriminate Heq.
  - vm_compute. reflexivity.
Defined.

(** X17, witness: two records of [http://example.com/] stamped at noon. *)
Lemma same_second_records_collide_witness :
  exists filename,
    w_intelligence
      ((Archive._save_intelligence default_proxy first_record;;
        Archive._save_intelligence default_proxy second_record)
         (fresh_world (quiet_env ok_answer) ∅)).2
    = <[filename := second_record]>
        (w_intelligence (fresh_world (quiet_env ok_answer) ∅)).
Proof.
  apply (same_second_records_collide default_proxy first_record second_record
           (fresh_world (quiet_env ok_answer) ∅)).
  - reflexivity.
  - intros n. reflexivity.
  - reflexivity.
  - reflexivity.
Defined.

(** X26, witness: the peer fails with an exception without text. *)
Lemma peer_failure_at_endpoint_witness :
  exists answer w' body,
    App.fetch_url default_proxy example_request "key"
      (fresh_world (quiet_env (NetRaise (Exception ""))) ∅) = (Ret answer, w')
    /\ answer = inr body
    /\ fa_status_code body = 500
    /\ fa_success body = false
    /\ fa_error body = Some "".
Proof.
  destruct (peer_failure_at_endpoint default_proxy example_request "key"
              (fresh_world (quiet_env (NetRaise (Exception ""))) ∅)
              (Exception ""))
    as (answer & w' & Hrun & Hcase).
  - intros n call. reflexivity.
  - intros Heq. vm_compute in Heq. discriminate Heq.
  - cbn in Hcase. destruct Hcase as (body & Hbody).
    by exists answer, w', body.
Defined.
End MoreExamples.

Section ClientExamples.
#[local] Existing Instance py_lib.
#[local] Existing Instance client_lib.

(** X18, witness: a direct fetch with custom headers sends nothing. *)
Lemma direct_fetch_sends_only_plain_gets_witness :
  exists result m',
    Client._direct_fetch "http://example.com/" header_keywords
      (client_machine ok_answer) = (Ret (JDict result), m')
    /\ Client.m_sent m' = []
    /\ kw_get "success" result = Some (JBool false).
Proof.
  destruct (direct_fetch_sends_only_plain_gets "http://example.com/"
              header_keywords (client_machine ok_answer))
    as (result & m' & Hrun & _ & _ & _ & _ & _ & Hclash);
    [vm_compute; reflexivity|].
  exists result, m'. split; [exact Hrun|]. by apply Hclash.
Defined.

(** X20, witness: [EVIL.example.com] against the block list of
    [plugin_config], the proxy answering its health check. *)
Lemma webfetch_refuses_domain_witness :
  exists stamp m',
    Client.webfetch "http://EVIL.example.com:80/p" []
      (client_machine ok_answer)
    = (Ret (JDict [("success", JBool false);
                   ("error", JStr "Domain blocked by security policy");
                   ("url", JStr "http://EVIL.example.com:80/p");
                   ("blocked", JBool true)]), m')
    /\ Client.m_sent m' = [Client.health_call enabled_plugin]
    /\ Client.m_redis m' = ∅
    /\ Client.blocked_requests (Client.m_self m')
       = [{| Client.me_timestamp := stamp;
             Client.me_url := "http://EVIL.example.com:80/p";
             Client.me_reason := "Domain not allowed";
             Client.me_kwargs := [] |}].
Proof.
  apply (webfetch_refuses_domain "http://EVIL.example.com:80/p" []
           (client_machine ok_answer) "hello" [] "http://example.com/").
  - reflexivity.
  - reflexivity.
  - vm_compute. reflexivity.
Defined.

(** X21, witness: the same URL with the proxy down is fetched
    directly. *)
Lemma fallback_skips_domain_policy_witness :
  Plugin._is_domain_allowed plugin_config "http://EVIL.example.com:80/p" = false
  /\ exists result m',
       Client.webfetch "http://EVIL.example.com:80/p" []
         (client_machine (NetRaise (Exception "Connection refused")))
       = (Ret result, m')
       /\ Client.m_sent m'
          = [Client.health_call enabled_plugin;
             {| Client.rc_method := "get";
                Client.rc_url := "http://EVIL.example.com:80/p";
                Client.rc_keywords :=
                  [("headers", JDict []); ("timeout", JNum 30)] |}]
       /\ Client.blocked_requests (Client.m_self m') = [].
Proof.
  split; [vm_compute; reflexivity|].
  apply (fallback_skips_domain_policy "http://EVIL.example.com:80/p" []
           (client_machine (NetRaise (Exception "Connection refused")))
           (Exception "Connection refused")).
  - vm_compute. reflexivity.
  - reflexivity.
  - reflexivity.
  - reflexivity.
  - reflexivity.
Defined.
End ClientExamples.
